(** * opendata: a shallow embedding of the Open Data Zurich catalogue client

    The development follows [src/opendata.py] (the catalogue client, the
    resource classifiers, the dataset and resource wrappers),
    [src/get_dataset_type.py] (the command line tool) and the format test of
    [opendata/generate_starter_rmd.py].

    Python values are modelled as follows.
    - A resource record (a JSON object) is a finite map from keys to JSON
      scalars.
    - A pandas table of resources, or a downloaded payload, is a set of
      column labels with a list of rows.
    - The catalogue table is a list of dataset rows; the [resources] cell
      of a row is either a list of resource records or NaN.
    - A call either returns a value or raises an exception ([outcome]).
    - Printing, sleeping, HTTP requests and file downloads are recorded,
      in order, in a trace of events ([world]).
    - The remote services and the pandas readers are oracles: total
      functions given as section variables. Transport and decoding
      failures inside [requests], [json] and [pandas] are outside the
      model. *)

From stdpp Require Import gmap strings list fin_maps pretty.
From Stdlib Require Import ZArith Ascii Sorting.Sorted Sorting.Permutation.
From Stdlib Require Import Structures.OrderedTypeEx.

Local Open Scope string_scope.
Local Open Scope list_scope.

(** ** Exceptions, outcomes and the effect monad *)

Inductive exn : Type :=
  | AttributeError
  | IndexError
  | KeyError (key : string)
  | TypeError
  | ValueError
  | SystemExit (code : Z).

#[global] Instance exn_eq_dec : EqDecision exn.
Proof. solve_decision. Defined.

(** [LookupError] is the Python base class of [IndexError] and [KeyError]. *)
Definition is_LookupError (e : exn) : bool :=
  match e with
  | IndexError | KeyError _ => true
  | _ => false
  end.

Inductive outcome (A : Type) : Type :=
  | Return (a : A)
  | Raise (e : exn).
Arguments Return {A} a.
Arguments Raise {A} e.

Definition raises {A} (o : outcome A) : Prop := exists e, o = Raise e.

(** A computation over a state [St]: the state survives a raised exception,
    as the mutations of a Python object do. *)
Definition M (St A : Type) : Type := St -> outcome A * St.

Definition ret {St A} (a : A) : M St A := fun s => (Return a, s).
Definition throw {St A} (e : exn) : M St A := fun s => (Raise e, s).
Definition bind {St A B} (c : M St A) (k : A -> M St B) : M St B :=
  fun s =>
    match c s with
    | (Return a, s') => k a s'
    | (Raise e, s') => (Raise e, s')
    end.
Definition lift {St A} (o : outcome A) : M St A := fun s => (o, s).

#[global] Instance M_ret {St} : MRet (M St) := fun A => @ret St A.
#[global] Instance M_bind {St} : MBind (M St) := fun A B k c => @bind St A B c k.

Definition obind {A B} (o : outcome A) (k : A -> outcome B) : outcome B :=
  match o with
  | Return a => k a
  | Raise e => Raise e
  end.

(** ** The trace of observable effects *)

Inductive sep : Type := Comma | Semicolon.

Inductive event : Type :=
  | Print (line : string)
  | Get_package_list (limit offset : nat)
  | Get_package_show (ident : string)
  | Sleep (seconds : nat)
  | Read_csv (url : string) (s : sep)
  | Read_parquet (url : string).

Definition world : Type := list event.

Definition emit (e : event) : M world unit := fun w => (Return tt, w ++ [e]).
Definition print (line : string) : M world unit := emit (Print line).

(** The lines written to standard output, oldest first. *)
Fixpoint stdout (w : world) : list string :=
  match w with
  | [] => []
  | Print line :: w' => line :: stdout w'
  | _ :: w' => stdout w'
  end.

(** ** Python strings *)

(** [sub in s] *)
Fixpoint contains (sub s : string) : bool :=
  String.prefix sub s ||
  match s with
  | EmptyString => false
  | String _ s' => contains sub s'
  end.

(** [s.rsplit(".", 1)[-1]]: the text after the last dot, or all of [s]
    when it has no dot. [cur] is the answer for the text read so far. *)
Fixpoint last_segment (cur s : string) : string :=
  match s with
  | EmptyString => cur
  | String c s' =>
      if Ascii.eqb c "."%char then last_segment s' s' else last_segment cur s'
  end.

Definition rsplit_dot_last (s : string) : string := last_segment s s.

(** [str.lower] on ASCII letters. *)
Definition lower_ascii (c : ascii) : ascii :=
  let n := N_of_ascii c in
  if ((65 <=? n) && (n <=? 90))%N then ascii_of_N (n + 32) else c.

Fixpoint lower (s : string) : string :=
  match s with
  | EmptyString => EmptyString
  | String c s' => String (lower_ascii c) (lower s')
  end.

(** *** The pattern [\/([^\/\?]+)\?]

    A character of the class [[^\/\?]] is any character but the slash and
    the question mark. *)
Definition in_class (c : ascii) : bool :=
  negb (Ascii.eqb c "/"%char) && negb (Ascii.eqb c "?"%char).

(** The longest run of class characters at the head of [s], with the rest. *)
Fixpoint span_class (s : string) : string * string :=
  match s with
  | EmptyString => (EmptyString, EmptyString)
  | String c s' =>
      if in_class c then
        let '(run, rest) := span_class s' in (String c run, rest)
      else (EmptyString, s)
  end.

(** [([^\/\?]+)\?] anchored at the head of [s]. The greedy run cannot give
    a character back: the question mark that must follow is not in the
    class. *)
Definition match_group (s : string) : option string :=
  match span_class s with
  | (String c run, String "?"%char _) => Some (String c run)
  | _ => None
  end.

(** [re.search(r"\/([^\/\?]+)\?", url)]: group 1 of the leftmost match. *)
Fixpoint re_search_identifier (url : string) : option string :=
  match url with
  | EmptyString => None
  | String c s' =>
      if Ascii.eqb c "/"%char then
        match match_group s' with
        | Some g => Some g
        | None => re_search_identifier s'
        end
      else re_search_identifier s'
  end.

(** ** Data model *)

(** JSON scalars found in a resource record. *)
Inductive value : Type :=
  | VNull
  | VBool (b : bool)
  | VNum (n : Z)
  | VStr (s : string).

#[global] Instance value_eq_dec : EqDecision value.
Proof. solve_decision. Defined.

(** A resource record: a Python dict. *)
Abbreviation resource := (gmap string value).

(** [x.get(key, default)] *)
Definition dict_get (x : resource) (key : string) (default : value) : value :=
  match x !! key with
  | Some v => v
  | None => default
  end.

(** The [resources] cell of a catalogue row. *)
Inductive cell : Type :=
  | NaN
  | Dists (dists : list resource).

#[global] Instance cell_eq_dec : EqDecision cell.
Proof. solve_decision. Defined.

(** A dataset record, with the columns the code reads. [NaN] in
    [pkg_resources] stands for a record without the [resources] key. *)
Record package : Type := Package {
  pkg_name : string;
  pkg_id : string;
  pkg_title : string;
  pkg_resources : cell
}.

#[global] Instance package_eq_dec : EqDecision package.
Proof. solve_decision. Defined.

Definition set_resources (p : package) (c : cell) : package :=
  {| pkg_name := pkg_name p; pkg_id := pkg_id p;
     pkg_title := pkg_title p; pkg_resources := c |}.

(** Whether a dataset record has the [resources] key. *)
Definition has_resources_key (p : package) : bool :=
  bool_decide (pkg_resources p <> NaN).

(** The catalogue table: one row per dataset. [resources_column] tells
    whether the table has a column named [resources]; a row of a table
    with the column has NaN there when its record had no such key. In a
    table without the column the cells are not there, and what
    [pkg_resources] holds for its rows is never read. *)
Record PackageFrame : Type := mkPackageFrame {
  resources_column : bool;
  frame_rows : list package
}.

#[global] Instance PackageFrame_eq_dec : EqDecision PackageFrame.
Proof. solve_decision. Defined.

(** [pd.DataFrame(pd.json_normalize(records))]: the table has the column
    [resources] when a record has the key. *)
Definition json_normalize (records : list package) : PackageFrame :=
  {| resources_column := existsb has_resources_key records;
     frame_rows := records |}.

(** The rows as the table shows them: NaN where the column is missing. *)
Definition shown_rows (df : PackageFrame) : list package :=
  if resources_column df then frame_rows df
  else (fun p => set_resources p NaN) <$> frame_rows df.

(** A table of resource records or a downloaded payload. A missing entry
    of a row is a NaN of the table. *)
Record DataFrame : Type := mkDataFrame {
  columns : gset string;
  rows : list resource
}.

#[global] Instance DataFrame_eq_dec : EqDecision DataFrame.
Proof. solve_decision. Defined.

(** [pd.DataFrame(records)]: the columns are the keys of the records. *)
Definition DataFrame_of_records (records : list resource) : DataFrame :=
  {| columns := ⋃ (dom <$> records); rows := records |}.

(** [df.shape[1]] *)
Definition shape1 (df : DataFrame) : nat := size (columns df).

(** [len(df)] *)
Definition len (df : DataFrame) : nat := length (rows df).

(** [df[label]]: a column, as the list of its entries ([None] is NaN). *)
Definition getitem (df : DataFrame) (label : string) : outcome (list (option value)) :=
  if bool_decide (label ∈ columns df)
  then Return ((fun r : resource => r !! label) <$> rows df)
  else Raise (KeyError label).

(** [series.isin(values)] *)
Definition isin (series : list (option value)) (values : list value) : list bool :=
  (fun o : option value =>
     match o with
     | Some v => bool_decide (v ∈ values)
     | None => false
     end) <$> series.

(** A bool is an integer in Python: [True] is 1 and [False] is 0. *)
Definition as_int (v : value) : option Z :=
  match v with
  | VBool b => Some (if b then 1 else 0)%Z
  | VNum n => Some n
  | _ => None
  end.

(** Python's [==] between an entry of a column and a scalar, as pandas
    applies it: strings are equal to equal strings, integers and bools to
    the same integer (so [True == 1] and [False == 0]), and a missing
    value, [None] included, compares unequal to everything. The integers
    are compared exactly, which is what pandas does below [2 ^ 53]; from
    there on a column that it holds as float64 rounds them. *)
Definition py_eq (entry v : value) : bool :=
  match entry, v with
  | VStr s, VStr t => bool_decide (s = t)
  | _, _ =>
      match as_int entry, as_int v with
      | Some n, Some m => bool_decide (n = m)
      | _, _ => false
      end
  end.

(** [series == v] *)
Definition series_eq (series : list (option value)) (v : value) : list bool :=
  (fun o : option value =>
     match o with
     | Some entry => py_eq entry v
     | None => false
     end) <$> series.

(** Rows kept by a boolean mask. *)
Fixpoint select_rows (rs : list resource) (mask : list bool) : list resource :=
  match rs, mask with
  | r :: rs', b :: mask' =>
      if b then r :: select_rows rs' mask' else select_rows rs' mask'
  | _, _ => []
  end.

(** [df[mask]] *)
Definition boolean_index (df : DataFrame) (mask : list bool) : DataFrame :=
  {| columns := columns df; rows := select_rows (rows df) mask |}.

(** [df.iloc[i]]: negative positions count from the end. *)
Definition iloc (df : DataFrame) (i : Z) : outcome resource :=
  let n := Z.of_nat (length (rows df)) in
  let j := (if i <? 0 then i + n else i)%Z in
  if ((j <? 0) || (n <=? j))%Z then Raise IndexError
  else match rows df !! Z.to_nat j with
       | Some r => Return r
       | None => Raise IndexError
       end.

(** ** Utility functions of [opendata.py] *)

(** The test of the comprehension in [has_tabular_distribution]. *)
Definition is_tabular_dist (x : resource) : bool :=
  bool_decide (dict_get x "format" (VStr "") = VStr "CSV")
  || bool_decide (dict_get x "format" (VStr "") = VStr "parquet").

(** The test of the comprehension in [has_geo_distribution]. *)
Definition is_geo_dist (x : resource) : bool :=
  bool_decide (dict_get x "format" (VStr "") = VStr "WFS").

(** Iterating over a NaN (a float) raises [TypeError]. *)
Definition has_tabular_distribution (dists : cell) : outcome cell :=
  match dists with
  | NaN => Raise TypeError
  | Dists l =>
      let tabular_dists := filter (fun x => is_tabular_dist x) l in
      if decide (tabular_dists <> []) then Return (Dists tabular_dists)
      else Return NaN
  end.

Definition has_geo_distribution (dists : cell) : outcome cell :=
  match dists with
  | NaN => Raise TypeError
  | Dists l =>
      let geo_dists := filter (fun x => is_geo_dist x) l in
      if decide (geo_dists <> []) then Return (Dists geo_dists)
      else Return NaN
  end.

(** [series.apply(f)] over the [resources] cells of the rows, written back
    to the rows: the rows are visited in order and the first exception ends
    the call. *)
Fixpoint apply_rows (f : cell -> outcome cell) (rows : list package)
  : outcome (list package) :=
  match rows with
  | [] => Return []
  | p :: rows' =>
      obind (f (pkg_resources p)) (fun c =>
      obind (apply_rows f rows') (fun rows'' =>
      Return (set_resources p c :: rows'')))
  end.

(** [df.resources = df.resources.apply(f)]. Reading the attribute
    [resources] of a table without a column of that name raises
    [AttributeError], before [f] is applied to anything. *)
Definition apply_resources (f : cell -> outcome cell) (df : PackageFrame)
  : outcome PackageFrame :=
  if resources_column df then
    obind (apply_rows f (frame_rows df)) (fun rows =>
    Return {| resources_column := true; frame_rows := rows |})
  else Raise AttributeError.

(** The rows that [dropna] keeps. *)
Definition dropna_rows (rows : list package) : list package :=
  filter (fun p => pkg_resources p <> NaN) rows.

(** [df.dropna(subset=["resources"], inplace=True)]: a label of [subset]
    that is no column raises [KeyError]. *)
Definition dropna_resources (df : PackageFrame) : outcome PackageFrame :=
  if resources_column df then
    Return {| resources_column := true;
              frame_rows := dropna_rows (frame_rows df) |}
  else Raise (KeyError "['resources']").

Definition filter_tabular (full_df : PackageFrame) : outcome PackageFrame :=
  obind (apply_resources has_tabular_distribution full_df) (fun df =>
  dropna_resources df).

Definition filter_geo (full_df : PackageFrame) : outcome PackageFrame :=
  obind (apply_resources has_geo_distribution full_df) (fun df =>
  dropna_resources df).

(** [re.search] returns [None] when nothing matches, and [None.group]
    raises [AttributeError]. *)
Definition identifier_from_url (url : string) : outcome string :=
  match re_search_identifier url with
  | Some identifier => Return identifier
  | None => Raise AttributeError
  end.

Definition geoportal_base : string :=
  "https://www.ogd.stadt-zuerich.ch/wfs/geoportal/".

Definition extraction_diagnostic : string :=
  "Could not extract identifier from url.".

Definition url_to_geoportal_url (url : string) : M world (option string) :=
  match identifier_from_url url with
  | Return identifier => mret (Some (geoportal_base +:+ identifier))
  | Raise AttributeError =>
      if contains "/wfs/" url then mret (Some url)
      else print extraction_diagnostic;; mret None
  | Raise e => throw e
  end.

(** The format test of [filter_resources] in [generate_starter_rmd.py]:
    [df["resources_format"].str.lower().isin(["csv", "parquet"])]. *)
Definition table_format_test (format : option value) : bool :=
  match format with
  | Some (VStr s) => bool_decide (lower s ∈ ["csv"; "parquet"])
  | _ => false
  end.

(** ** The catalogue table: concatenation and sorting *)

(** [pd.concat(frames)] raises [ValueError] on an empty list of frames.
    The result has the columns of all frames, and the rows of a frame
    without the column [resources] have NaN there. *)
Definition pd_concat (frames : list PackageFrame) : outcome PackageFrame :=
  match frames with
  | [] => Raise ValueError
  | _ =>
      Return {| resources_column := existsb resources_column frames;
                frame_rows := concat (shown_rows <$> frames) |}
  end.

(** Insertion of a row into rows that are in ascending order of name. *)
Fixpoint insert_by_name (p : package) (rows : list package) : list package :=
  match rows with
  | [] => [p]
  | q :: rows' =>
      if String.leb (pkg_name p) (pkg_name q) then p :: rows
      else q :: insert_by_name p rows'
  end.

(** The rows in ascending order of name. *)
Fixpoint sort_rows (rows : list package) : list package :=
  match rows with
  | [] => []
  | p :: rows' => insert_by_name p (sort_rows rows')
  end.

(** [df.set_index("name", drop=False).sort_index()]: the rows in ascending
    order of their name, the columns as they are. pandas does not fix the
    order of rows with equal names; here they keep their relative order,
    and no statement below depends on it. *)
Definition sort_index (df : PackageFrame) : PackageFrame :=
  {| resources_column := resources_column df;
     frame_rows := sort_rows (frame_rows df) |}.

(** ** The wrappers *)

Record OpenDataZH : Type := mkOpenDataZH {
  _full_package_list_df : option PackageFrame;
  _geo_package_list_df : option PackageFrame;
  _tabular_package_list_df : option PackageFrame
}.

Definition OpenDataZH_init : OpenDataZH :=
  {| _full_package_list_df := None;
     _geo_package_list_df := None;
     _tabular_package_list_df := None |}.

Record OpenDataPackage : Type := mkOpenDataPackage {
  metadata : package;
  distributions : list resource;
  distribution_links : list (option value);
  _resource_metadata_df : option DataFrame;
  _tabular_resource_metadata_df : option DataFrame;
  _geo_resource_metadata_df : option DataFrame
}.

(** [OpenDataPackage.__init__] *)
Definition OpenDataPackage_init (md : package) : OpenDataPackage :=
  let dists := match pkg_resources md with Dists l => l | NaN => [] end in
  {| metadata := md;
     distributions := dists;
     distribution_links := (fun x : resource => x !! "url") <$> dists;
     _resource_metadata_df := None;
     _tabular_resource_metadata_df := None;
     _geo_resource_metadata_df := None |}.

Record OpenDataGeoResource : Type := mkOpenDataGeoResource {
  geo_index : Z;
  geo_metadata : resource
}.

Record OpenDataTabularResource : Type := mkOpenDataTabularResource {
  tabular_index : Z;
  tabular_metadata : resource
}.

Definition get_self {St} : M St St := fun s => (Return s, s).
Definition put_self {St} (s : St) : M St unit := fun _ => (Return tt, s).

Definition set_resource_metadata_df (v : DataFrame) (self : OpenDataPackage)
  : OpenDataPackage :=
  {| metadata := metadata self;
     distributions := distributions self;
     distribution_links := distribution_links self;
     _resource_metadata_df := Some v;
     _tabular_resource_metadata_df := _tabular_resource_metadata_df self;
     _geo_resource_metadata_df := _geo_resource_metadata_df self |}.

Definition set_tabular_resource_metadata_df (v : DataFrame)
  (self : OpenDataPackage) : OpenDataPackage :=
  {| metadata := metadata self;
     distributions := distributions self;
     distribution_links := distribution_links self;
     _resource_metadata_df := _resource_metadata_df self;
     _tabular_resource_metadata_df := Some v;
     _geo_resource_metadata_df := _geo_resource_metadata_df self |}.

Definition set_geo_resource_metadata_df (v : DataFrame)
  (self : OpenDataPackage) : OpenDataPackage :=
  {| metadata := metadata self;
     distributions := distributions self;
     distribution_links := distribution_links self;
     _resource_metadata_df := _resource_metadata_df self;
     _tabular_resource_metadata_df := _tabular_resource_metadata_df self;
     _geo_resource_metadata_df := Some v |}.

(** [self.metadata["resources"]] raises [KeyError] when the record has no
    such key. *)
Definition resource_metadata_df : M OpenDataPackage DataFrame :=
  self ← get_self;
  match _resource_metadata_df self with
  | Some df => mret df
  | None =>
      match pkg_resources (metadata self) with
      | NaN => throw (KeyError "resources")
      | Dists l =>
          let df := DataFrame_of_records l in
          put_self (set_resource_metadata_df df self);;
          mret df
      end
  end.

(** [df[df["format"].isin(formats)]], with [df] read twice from the
    property as the source does. *)
Definition resources_with_format (formats : list value)
  : M OpenDataPackage DataFrame :=
  df ← resource_metadata_df;
  df' ← resource_metadata_df;
  col ← lift (getitem df' "format");
  mret (boolean_index df (isin col formats)).

Definition geo_resource_metadata_df : M OpenDataPackage DataFrame :=
  self ← get_self;
  match _geo_resource_metadata_df self with
  | Some df => mret df
  | None =>
      df ← resources_with_format [VStr "WFS"; VStr "JSON"];
      self' ← get_self;
      put_self (set_geo_resource_metadata_df df self');;
      mret df
  end.

Definition tabular_resource_metadata_df : M OpenDataPackage DataFrame :=
  self ← get_self;
  match _tabular_resource_metadata_df self with
  | Some df => mret df
  | None =>
      df ← resources_with_format [VStr "CSV"; VStr "parquet"];
      self' ← get_self;
      put_self (set_tabular_resource_metadata_df df self');;
      mret df
  end.

(** [view[view["id"] == id].iloc[0]] *)
Definition find_by_id (view : M OpenDataPackage DataFrame) (id : value)
  : M OpenDataPackage resource :=
  df ← view;
  df' ← view;
  col ← lift (getitem df' "id");
  lift (iloc (boolean_index df (series_eq col id)) 0).

(** The argument [id] of a lookup: [None] when it is left out, and
    [Some VNull] is the same [None] passed by the caller. *)
Definition is_not_None (id : option value) : option value :=
  match id with
  | None | Some VNull => None
  | Some i => Some i
  end.

Definition geo_resource (index : Z) (id : option value)
  : M OpenDataPackage OpenDataGeoResource :=
  md ← match is_not_None id with
       | Some i => find_by_id geo_resource_metadata_df i
       | None => df ← geo_resource_metadata_df; lift (iloc df index)
       end;
  mret (mkOpenDataGeoResource index md).

Definition tabular_resource (index : Z) (id : option value)
  : M OpenDataPackage OpenDataTabularResource :=
  md ← match is_not_None id with
       | Some i => find_by_id tabular_resource_metadata_df i
       | None => df ← tabular_resource_metadata_df; lift (iloc df index)
       end;
  mret (mkOpenDataTabularResource index md).

(** The decoded body of the show endpoint. [show_error] is the text that
    [print] writes for the [error] field. *)
Record show_response : Type := mkShowResponse {
  success : bool;
  result : option package;
  show_error : option string
}.

(** Running a computation over an object and the world from the world
    alone: the object is local to the caller. *)
Definition in_obj {Obj A} (c : M Obj A) : M (Obj * world) A :=
  fun '(o, w) => let '(r, o') := c o in (r, (o', w)).
Definition in_io {Obj A} (c : M world A) : M (Obj * world) A :=
  fun '(o, w) => let '(r, w') := c w in (r, (o, w')).
Definition with_object {Obj A} (o : Obj) (c : M (Obj * world) A) : M world A :=
  fun w => let '(r, (_, w')) := c (o, w) in (r, w').

(** [sys.exit(code)] *)
Definition sys_exit {St} (code : Z) : M St unit := throw (SystemExit code).

(** The exit status of the interpreter: the code of [SystemExit], 1 after
    any other uncaught exception, 0 otherwise. *)
Definition exit_status (o : outcome unit) : Z :=
  match o with
  | Return _ => 0
  | Raise (SystemExit code) => code
  | Raise _ => 1
  end.

(** The two messages of [get_dataset]. *)
Definition separator_diagnostic : string :=
  "The data wasn't imported properly. Very likely the correct separator couldn't be found.
Please check the dataset manually and adjust the code.".

Definition extension_diagnostic : string :=
  "Cannot load data! Please provide an url with csv or parquet extension.".

Section Remote.

(** The list endpoint: the decoded [result] for [limit] and [offset]. *)
Variable package_list : nat -> nat -> list package.

(** The show endpoint: the decoded body for the [id] parameter. *)
Variable package_show : string -> show_response.

(** [pd.read_csv(url, sep=...)] and [pd.read_parquet(url)]. *)
Variable read_csv : string -> sep -> DataFrame.
Variable read_parquet : string -> DataFrame.

Definition get_dataset (url : string) : M world (option DataFrame) :=
  let extension := rsplit_dot_last url in
  if decide (extension = "parquet") then
    emit (Read_parquet url);;
    mret (Some (read_parquet url))
  else if decide (extension = "csv") then
    emit (Read_csv url Comma);;
    let df := read_csv url Comma in
    if (shape1 df <=? 1)%nat then
      emit (Read_csv url Semicolon);;
      let df := read_csv url Semicolon in
      (if (shape1 df <=? 1)%nat then print separator_diagnostic
       else mret tt);;
      mret (Some df)
    else mret (Some df)
  else
    print extension_diagnostic;;
    mret None.

Definition _get_package_list_page (limit offset : nat)
  : M world (option PackageFrame) :=
  emit (Get_package_list limit offset);;
  let data_result := package_list limit offset in
  if decide (data_result = []) then
    print "0 packages retrieved.";;
    mret None
  else
    let num_results := length data_result in
    print (pretty num_results +:+ " packages retrieved.");;
    mret (Some (json_normalize data_result)).

(** The [while True] loop of [_get_full_package_list]. [None] means that
    [fuel] iterations did not reach an empty page. *)
Fixpoint page_loop (fuel limit sleep offset : nat)
  (frames : list PackageFrame) (w : world)
  : option (outcome (list PackageFrame) * world) :=
  match fuel with
  | O => None
  | S fuel' =>
      match _get_package_list_page limit offset w with
      | (Return None, w1) => Some (Return frames, w1)
      | (Return (Some df), w1) =>
          page_loop fuel' limit sleep (offset + limit) (frames ++ [df])
            (w1 ++ [Sleep sleep])
      | (Raise e, w1) => Some (Raise e, w1)
      end
  end.

Definition set_full_package_list_df (df : PackageFrame) (self : OpenDataZH)
  : OpenDataZH :=
  {| _full_package_list_df := Some df;
     _geo_package_list_df := _geo_package_list_df self;
     _tabular_package_list_df := _tabular_package_list_df self |}.

Definition _get_full_package_list (fuel limit sleep : nat)
  (self : OpenDataZH) (w : world)
  : option (outcome PackageFrame * (OpenDataZH * world)) :=
  match page_loop fuel limit sleep 0 [] w with
  | None => None
  | Some (Raise e, w') => Some (Raise e, (self, w'))
  | Some (Return frames, w') =>
      Some match pd_concat frames with
           | Raise e => (Raise e, (self, w'))
           | Return df =>
               let df := sort_index df in
               (Return df, (set_full_package_list_df df self, w'))
           end
  end.

(** The property [full_package_list_df], with the default page size and
    delay of [_get_full_package_list]. *)
Definition full_package_list_df (fuel : nat) (self : OpenDataZH) (w : world)
  : option (outcome PackageFrame * (OpenDataZH * world)) :=
  match _full_package_list_df self with
  | Some df => Some (Return df, (self, w))
  | None => _get_full_package_list fuel 500 2 self w
  end.

Definition set_tabular_package_list_df (df : PackageFrame)
  (self : OpenDataZH) : OpenDataZH :=
  {| _full_package_list_df := _full_package_list_df self;
     _geo_package_list_df := _geo_package_list_df self;
     _tabular_package_list_df := Some df |}.

Definition set_geo_package_list_df (df : PackageFrame)
  (self : OpenDataZH) : OpenDataZH :=
  {| _full_package_list_df := _full_package_list_df self;
     _geo_package_list_df := Some df;
     _tabular_package_list_df := _tabular_package_list_df self |}.

(** The shared body of the properties [tabular_package_list_df] and
    [geo_package_list_df]: [cached] reads the memo, [store] writes it. *)
Definition filtered_package_list_df
  (cached : OpenDataZH -> option PackageFrame)
  (store : PackageFrame -> OpenDataZH -> OpenDataZH)
  (filter_fn : PackageFrame -> outcome PackageFrame)
  (fuel : nat) (self : OpenDataZH) (w : world)
  : option (outcome PackageFrame * (OpenDataZH * world)) :=
  match cached self with
  | Some df => Some (Return df, (self, w))
  | None =>
      match full_package_list_df fuel self w with
      | None => None
      | Some (Raise e, sw) => Some (Raise e, sw)
      | Some (Return full, (self', w')) =>
          Some match filter_fn full with
               | Raise e => (Raise e, (self', w'))
               | Return df => (Return df, (store df self', w'))
               end
      end
  end.

Definition tabular_package_list_df :=
  filtered_package_list_df _tabular_package_list_df
    set_tabular_package_list_df filter_tabular.

Definition geo_package_list_df :=
  filtered_package_list_df _geo_package_list_df
    set_geo_package_list_df filter_geo.

Definition get_package (id name : option string)
  : M world (option OpenDataPackage) :=
  match id, name with
  | None, None =>
      print "Please provide either an id or a name.";;
      mret None
  | _, _ =>
      let ident := match id with
                   | Some i => i
                   | None => default "None" name
                   end in
      emit (Get_package_show ident);;
      let data := package_show ident in
      if negb (success data) then
        print (default "No error message provided." (show_error data));;
        mret None
      else
        match result data with
        | Some r => mret (Some (OpenDataPackage_init r))
        | None => throw (KeyError "result")
        end
  end.

(** ** [get_dataset_type.py] *)

(** An attribute of [None] raises [AttributeError]. *)
Definition main (dataset_id : string) : M world unit :=
  package ← get_package (Some dataset_id) None;
  match package with
  | None => throw AttributeError
  | Some package =>
      with_object package (
        geo ← in_obj geo_resource_metadata_df;
        (if (0 <? len geo)%nat then in_io (print "geo");; sys_exit 0
         else mret tt);;
        tab ← in_obj tabular_resource_metadata_df;
        (if (0 <? len tab)%nat then in_io (print "csv");; sys_exit 0
         else mret tt);;
        in_io (print "unknown");;
        sys_exit 1)
  end.

(** The [__main__] block, from [sys.argv]. *)
Definition script (argv : list string) : M world unit :=
  if (length argv <? 2)%nat then
    print "Error: please provide a dataset id to inspect.";;
    sys_exit 1
  else
    match argv !! 1%nat with
    | Some dataset_id => main dataset_id
    | None => throw IndexError
    end.

End Remote.

(** ** Stand-ins for the oracles, used in the examples *)

(** A list endpoint that serves slices of a fixed catalogue. *)
Definition slice_remote (catalogue : list package) (limit offset : nat)
  : list package :=
  take limit (drop offset catalogue).

(** A show endpoint over a fixed catalogue, looked up by name or id. *)
Definition show_remote (catalogue : list package) (ident : string)
  : show_response :=
  match filter (fun p => pkg_name p = ident \/ pkg_id p = ident) catalogue with
  | p :: _ => {| success := true; result := Some p; show_error := None |}
  | [] => {| success := false; result := None;
             show_error := Some "{'__type': 'Not Found Error', 'message': 'Not found'}" |}
  end.

(** A reader that only looks at the header line of a text: its columns are
    the fields between separators. *)
Definition sep_char (s : sep) : ascii :=
  match s with Comma => ","%char | Semicolon => ";"%char end.

Fixpoint split_fields (c : ascii) (cur s : string) : list string :=
  match s with
  | EmptyString => [cur]
  | String a s' =>
      if Ascii.eqb a c then cur :: split_fields c EmptyString s'
      else split_fields c (cur +:+ String a EmptyString) s'
  end.

Fixpoint first_line (s : string) : string :=
  match s with
  | EmptyString => EmptyString
  | String a s' =>
      if Ascii.eqb a "010"%char then EmptyString else String a (first_line s')
  end.

Definition header_reader (text : string) (_ : string) (s : sep) : DataFrame :=
  {| columns := list_to_set (split_fields (sep_char s) EmptyString (first_line text));
     rows := [] |}.


(** ** Vocabulary of the statements *)

(** The first [k] pages served from [offset] on, in steps of [limit]. *)
Definition pages_from (package_list : nat -> nat -> list package)
  (limit offset k : nat) : list (list package) :=
  (fun i => package_list limit (offset + i * limit)) <$> seq 0 k.

(** The order of the sorted catalogue: names compared as Python compares
    strings, character code by character code. *)
Definition name_le (p q : package) : Prop :=
  String.leb (pkg_name p) (pkg_name q) = true.

(** The offsets of the list requests of a trace, oldest first. *)
Fixpoint requested_offsets (w : world) : list nat :=
  match w with
  | [] => []
  | Get_package_list _ offset :: w' => offset :: requested_offsets w'
  | _ :: w' => requested_offsets w'
  end.

(** Every character of [s] is in the class [[^\/\?]]. *)
Fixpoint all_class (s : string) : bool :=
  match s with
  | EmptyString => true
  | String c s' => in_class c && all_class s'
  end.

Fixpoint no_question_mark (s : string) : bool :=
  match s with
  | EmptyString => true
  | String c s' => negb (Ascii.eqb c "?"%char) && no_question_mark s'
  end.

(** [url] reads [pre/ident?post] with a non-empty [ident] free of slashes
    and question marks: a path segment immediately followed by a question
    mark. *)
Definition segment_before_query (url pre ident post : string) : Prop :=
  url = pre +:+ String "/"%char (ident +:+ String "?"%char post)
  /\ ident <> EmptyString
  /\ all_class ident = true.

(** The identifier that [get_package] sends: [id] when given, else [name]. *)
Definition chosen_identifier (id name : option string) : option string :=
  match id with
  | Some i => Some i
  | None => name
  end.

(** The resource table of a dataset record, computed without the memo. *)
Definition resource_table_of (md : package) : outcome DataFrame :=
  match pkg_resources md with
  | NaN => Raise (KeyError "resources")
  | Dists l => Return (DataFrame_of_records l)
  end.

(** The rows of the resource table whose format is one of [formats],
    computed without the memo. *)
Definition view_of (formats : list value) (md : package) : outcome DataFrame :=
  obind (resource_table_of md) (fun df =>
  obind (getitem df "format") (fun col =>
  Return (boolean_index df (isin col formats)))).

(** The invariant of a dataset wrapper: a filled memo holds what the
    property computes from the metadata. *)
Definition caches_coherent (self : OpenDataPackage) : Prop :=
  (forall df, _resource_metadata_df self = Some df ->
              resource_table_of (metadata self) = Return df)
  /\ (forall df, _tabular_resource_metadata_df self = Some df ->
                 view_of [VStr "CSV"; VStr "parquet"] (metadata self) = Return df)
  /\ (forall df, _geo_resource_metadata_df self = Some df ->
                 view_of [VStr "WFS"; VStr "JSON"] (metadata self) = Return df).

(** Every key of a row is a column of the table. *)
Definition keys_are_columns (df : DataFrame) : Prop :=
  forall r, r ∈ rows df -> forall k, is_Some (r !! k) -> k ∈ columns df.

(** The record has an [id] entry that Python's [==] finds equal to
    [ident]. *)
Definition id_equals (ident : value) (r : resource) : bool :=
  match r !! "id" with
  | Some entry => py_eq entry ident
  | None => false
  end.

(** The rows of a table whose [id] entry equals [ident]. *)
Definition rows_with_id (ident : value) (df : DataFrame) : list resource :=
  filter (fun r : resource => id_equals ident r) (rows df).

(** An identifier that takes the lookup by id: it is not [None]. Integers
    are kept below [2 ^ 53], where the comparison of pandas is exact also
    for a column that it holds as float64. *)
Definition by_id (ident : value) : Prop :=
  match ident with
  | VNull => False
  | VNum n => (Z.abs n < 2 ^ 53)%Z
  | _ => True
  end.

(** [df[df["id"] == ident].iloc[0]] on a table already computed. *)
Definition first_with_id (ident : value) (df : DataFrame) : outcome resource :=
  obind (getitem df "id") (fun col =>
  iloc (boolean_index df (series_eq col ident)) 0).

(** What [get_dataset_type.py] prints and its exit code, from the sizes of
    the geo and the tabular view. *)
Definition dataset_type (geo tab : DataFrame) : string * Z :=
  if (0 <? len geo)%nat then ("geo", 0%Z)
  else if (0 <? len tab)%nat then ("csv", 0%Z)
  else ("unknown", 1%Z).

(** Unfolds one layer of the monad and computes. *)
Ltac run_M :=
  unfold mbind, M_bind, bind, mret, M_ret, ret, throw, lift, emit, print,
    get_self, put_self, sys_exit; simpl.

(** ** Example data *)

Definition r_csv : resource :=
  {[ "format" := VStr "CSV"; "id" := VStr "r1";
     "url" := VStr "https://data.stadt-zuerich.ch/dataset/a/download/a.csv" ]}.
Definition r_wfs : resource :=
  {[ "format" := VStr "WFS"; "id" := VStr "r2";
     "url" := VStr "https://www.ogd.stadt-zuerich.ch/wfs/geoportal/a" ]}.
Definition r_lowercase : resource :=
  {[ "format" := VStr "csv"; "id" := VStr "r3" ]}.
Definition r_pdf : resource :=
  {[ "format" := VStr "PDF"; "id" := VStr "r4" ]}.

Definition pkg_a : package := Package "a" "1" "A" (Dists [r_csv; r_wfs]).
Definition pkg_b : package := Package "b" "2" "B" (Dists [r_pdf]).
Definition pkg_empty : package := Package "c" "3" "C" (Dists []).

(** A list endpoint that serves the same dataset on its first two pages of
    size one. *)
Definition overlapping_pages (limit offset : nat) : list package :=
  if (offset <? 2)%nat then [pkg_a] else [].

(** Two tabular resources whose ids Python's [==] does not tell apart:
    [True] and [1]. *)
Definition r_id_true : resource :=
  {[ "format" := VStr "CSV"; "id" := VBool true ]}.
Definition r_id_one : resource :=
  {[ "format" := VStr "CSV"; "id" := VNum 1 ]}.
Definition pkg_ids : package :=
  Package "e" "6" "E" (Dists [r_id_true; r_id_one]).

(** ** Vocabulary of the further properties *)

(** No dot in [s]. *)
Fixpoint no_dot (s : string) : bool :=
  match s with
  | EmptyString => true
  | String c s' => negb (Ascii.eqb c "."%char) && no_dot s'
  end.

(** The events of one non-empty page: request, count line, pause. *)
Definition page_events (limit sleep offset : nat) (page : list package)
  : list event :=
  [Get_package_list limit offset;
   Print (pretty (length page) +:+ " packages retrieved.");
   Sleep sleep].

(** The format test of a dataset-level view: the entry is one of [formats]. *)
Definition format_in (formats : list value) (r : resource) : Prop :=
  exists v, r !! "format" = Some v /\ v ∈ formats.

#[global] Instance format_in_dec (formats : list value) (r : resource) :
  Decision (format_in formats r).
Proof.
  unfold format_in. destruct (r !! "format") as [v|].
  - destruct (decide (v ∈ formats)) as [H|H].
    + left. eauto.
    + right. intros (v' & E & Hv). now inversion E; subst.
  - right. intros (v' & E & _). discriminate E.
Defined.

(** The shape shared by [has_tabular_distribution] and
    [has_geo_distribution]: the classifier of a format test. *)
Definition classify (P : resource -> bool) (dists : cell) : outcome cell :=
  match dists with
  | NaN => Raise TypeError
  | Dists l =>
      let kept := filter (fun x => P x) l in
      if decide (kept <> []) then Return (Dists kept) else Return NaN
  end.

(** The row that a catalogue-level filter keeps for [p], if any: [p] with
    its resources reduced to those that pass the test. *)
Definition kept_row (P : resource -> bool) (p : package) : option package :=
  match pkg_resources p with
  | NaN => None
  | Dists l =>
      let kept := filter (fun x => P x) l in
      if decide (kept <> []) then Some (set_resources p (Dists kept)) else None
  end.

(** What a catalogue-level filter with the classifier [f] does to the rows
    of a table that has the column [resources]. *)
Definition filter_rows (f : cell -> outcome cell) (rows : list package)
  : outcome (list package) :=
  obind (apply_rows f rows) (fun rows' => Return (dropna_rows rows')).

(** The shape shared by [filter_tabular] and [filter_geo]. *)
Definition filter_with (P : resource -> bool) (full_df : PackageFrame)
  : outcome PackageFrame :=
  obind (apply_resources (classify P) full_df) (fun df =>
  dropna_resources df).

(** A dataset record without the [resources] key. *)
Definition pkg_no_resources : package := Package "d" "4" "D" NaN.

(** The events of a run of non-empty pages requested from [offset] on. *)
Fixpoint pages_trace (limit sleep offset : nat) (pages : list (list package))
  : list event :=
  match pages with
  | [] => []
  | page :: rest =>
      page_events limit sleep offset page
      ++ pages_trace limit sleep (offset + limit) rest
  end.

(** The seconds slept in a trace. *)
Fixpoint slept (w : world) : nat :=
  match w with
  | [] => 0
  | Sleep seconds :: w' => seconds + slept w'
  | _ :: w' => slept w'
  end.

Definition r_json : resource :=
  {[ "format" := VStr "JSON"; "id" := VStr "r5";
     "url" := VStr "https://www.ogd.stadt-zuerich.ch/wfs/geoportal/j?service=WFS" ]}.

(** A dataset whose only resource has the format [JSON]. *)
Definition pkg_json : package := Package "j" "5" "J" (Dists [r_json]).

(** ** The payload of a resource wrapper

    The [metadata] of a resource wrapper is a row of a view: a pandas
    Series whose index is the set of columns of the view. The wrapper
    records of this development keep the entries of the row; the index is
    passed to the payload properties as [labels]. The memo fields that
    [__init__] sets to [None] are kept beside the wrapper. *)

(** [series[label]]: [KeyError] for a label outside the index, NaN
    ([None]) for an entry that the record lacks. *)
Definition series_getitem (labels : gset string) (row : resource)
  (label : string) : outcome (option value) :=
  if bool_decide (label ∈ labels) then Return (row !! label)
  else Raise (KeyError label).

Section Tabular_payload.

Variable read_csv : string -> sep -> DataFrame.
Variable read_parquet : string -> DataFrame.

(** The property [OpenDataTabularResource.df]; the state holds [self._df].
    A url entry that is not a string has no [rsplit]. *)
Definition OpenDataTabularResource_df (labels : gset string)
  (self : OpenDataTabularResource)
  : M (option DataFrame * world) (option DataFrame) :=
  fun '(_df, w) =>
    match _df with
    | Some df => (Return (Some df), (_df, w))
    | None =>
        match series_getitem labels (tabular_metadata self) "url" with
        | Raise e => (Raise e, (None, w))
        | Return (Some (VStr url)) =>
            match get_dataset read_csv read_parquet url w with
            | (Return df, w') => (Return df, (df, w'))
            | (Raise e, w') => (Raise e, (None, w'))
            end
        | Return _ => (Raise AttributeError, (None, w))
        end
    end.

End Tabular_payload.

(** What a geo resource does beside printing. *)
Inductive wfs_event : Type :=
  | Open_wfs (url : option string)
  | Get_feature (url : option string) (layer : string).

(** The trace of a geo resource: prints and service calls, in order. *)
Definition geo_world : Type := list (event + wfs_event).

(** A [WebFeatureService] object: the url it was opened with and the keys
    of its [contents]. *)
Record WebFeatureService : Type := mkWebFeatureService {
  wfs_url : option string;
  contents : list string
}.

(** The memo fields of [OpenDataGeoResource]. *)
Record geo_memo : Type := mkGeoMemo {
  _df : option DataFrame;
  _layers : option (list string);
  _wfs : option WebFeatureService
}.

Definition geo_memo_init : geo_memo :=
  {| _df := None; _layers := None; _wfs := None |}.

Definition set_df (v : DataFrame) (m : geo_memo) : geo_memo :=
  {| _df := Some v; _layers := _layers m; _wfs := _wfs m |}.
Definition set_layers (v : list string) (m : geo_memo) : geo_memo :=
  {| _df := _df m; _layers := Some v; _wfs := _wfs m |}.
Definition set_wfs (v : WebFeatureService) (m : geo_memo) : geo_memo :=
  {| _df := _df m; _layers := _layers m; _wfs := Some v |}.

(** A computation that prints, run inside the trace of a geo resource: what
    it appends to the empty trace is appended here. *)
Definition in_geo_world {A} (c : M world A) : M (geo_memo * geo_world) A :=
  fun '(m, gw) => let '(r, w) := c [] in (r, (m, gw ++ (inl <$> w))).

Definition emit_wfs (e : wfs_event) : M (geo_memo * geo_world) unit :=
  fun '(m, gw) => (Return tt, (m, gw ++ [inr e])).

Definition get_memo : M (geo_memo * geo_world) geo_memo :=
  fun '(m, gw) => (Return m, (m, gw)).

Definition update_memo (f : geo_memo -> geo_memo)
  : M (geo_memo * geo_world) unit :=
  fun '(m, gw) => (Return tt, (f m, gw)).

(** [geojson_layers_from_wfs] *)
Definition geojson_layers_from_wfs (wfs : WebFeatureService) : list string :=
  contents wfs.

Section Geo_payload.

(** [WebFeatureService(url, version="1.1.0")]: the layers that the service
    lists, or the exception of the constructor. *)
Variable capabilities : option string -> outcome (list string).

(** [wfs.getfeature(typename=layer, outputFormat=...).read()] *)
Variable getfeature : option string -> string -> outcome string.

(** [gpd.read_file(response)] *)
Variable read_file : string -> outcome DataFrame.

(** [read_geojson_from_wfs] *)
Definition read_geojson_from_wfs (wfs : WebFeatureService) (layer : string)
  : M (geo_memo * geo_world) string :=
  emit_wfs (Get_feature (wfs_url wfs) layer);;
  lift (getfeature (wfs_url wfs) layer).

(** The property [OpenDataGeoResource.wfs]. [re.search] raises [TypeError]
    on a url entry that is not a string. *)
Definition OpenDataGeoResource_wfs (labels : gset string)
  (self : OpenDataGeoResource) : M (geo_memo * geo_world) WebFeatureService :=
  m ← get_memo;
  match _wfs m with
  | Some wfs => mret wfs
  | None =>
      entry ← lift (series_getitem labels (geo_metadata self) "url");
      match entry with
      | Some (VStr url) =>
          geoportal_url ← in_geo_world (url_to_geoportal_url url);
          emit_wfs (Open_wfs geoportal_url);;
          layers ← lift (capabilities geoportal_url);
          let wfs := {| wfs_url := geoportal_url; contents := layers |} in
          update_memo (set_wfs wfs);;
          mret wfs
      | _ => throw TypeError
      end
  end.

(** The property [OpenDataGeoResource.layers]. *)
Definition OpenDataGeoResource_layers (labels : gset string)
  (self : OpenDataGeoResource) : M (geo_memo * geo_world) (list string) :=
  m ← get_memo;
  match _layers m with
  | Some layers => mret layers
  | None =>
      wfs ← OpenDataGeoResource_wfs labels self;
      let layers := geojson_layers_from_wfs wfs in
      update_memo (set_layers layers);;
      mret layers
  end.

(** [OpenDataGeoResource.layer_df] *)
Definition layer_df (labels : gset string) (self : OpenDataGeoResource)
  (layer : string) : M (geo_memo * geo_world) DataFrame :=
  wfs ← OpenDataGeoResource_wfs labels self;
  response ← read_geojson_from_wfs wfs layer;
  lift (read_file response).

(** The property [OpenDataGeoResource.df]: [self.layers[0]] is evaluated
    before the call of [layer_df]. *)
Definition OpenDataGeoResource_df (labels : gset string)
  (self : OpenDataGeoResource) : M (geo_memo * geo_world) DataFrame :=
  m ← get_memo;
  match _df m with
  | Some df => mret df
  | None =>
      layers ← OpenDataGeoResource_layers labels self;
      match layers !! 0 with
      | None => throw IndexError
      | Some layer =>
          df ← layer_df labels self layer;
          update_memo (set_df df);;
          mret df
      end
  end.

End Geo_payload.

(** ** [extract_keywords] of [generate_starter_rmd.py]

    A character is an [ascii]: the texts are those over the first 256 code
    points. *)

(** [c in chars] *)
Fixpoint char_in (c : ascii) (chars : string) : bool :=
  match chars with
  | EmptyString => false
  | String a chars' => Ascii.eqb c a || char_in c chars'
  end.

(** [s.rstrip(chars)]: [s] without its longest suffix made of characters
    of [chars]. *)
Fixpoint rstrip (chars s : string) : string :=
  match s with
  | EmptyString => EmptyString
  | String c s' =>
      match rstrip chars s' with
      | EmptyString => if char_in c chars then EmptyString
                       else String c EmptyString
      | r => String c r
      end
  end.

(** The loop of [extract_keywords]: [elem["display_name"] + sep] raises
    [KeyError] without the key and [TypeError] when the entry is not a
    string. *)
Fixpoint extract_keywords_loop (out_string : string) (x : list resource)
  (sep : string) : outcome string :=
  match x with
  | [] => Return out_string
  | elem :: x' =>
      match elem !! "display_name" with
      | None => Raise (KeyError "display_name")
      | Some (VStr name) =>
          extract_keywords_loop (out_string +:+ (name +:+ sep)) x' sep
      | Some _ => Raise TypeError
      end
  end.

Definition extract_keywords (x : list resource) (sep : string)
  : outcome string :=
  obind (extract_keywords_loop EmptyString x sep) (fun out_string =>
  Return (rstrip sep out_string)).

(** [sep.join(names)] *)
Fixpoint join (sep : string) (names : list string) : string :=
  match names with
  | [] => EmptyString
  | [name] => name
  | name :: rest => name +:+ (sep +:+ join sep rest)
  end.

(** The last character of [s] is none of [chars]; false for the empty
    string. *)
Fixpoint ends_outside (chars s : string) : bool :=
  match s with
  | EmptyString => false
  | String c EmptyString => negb (char_in c chars)
  | String _ s' => ends_outside chars s'
  end.

(** ** Stand-ins for the service oracles, used in the examples *)

Definition two_layers (_ : option string) : outcome (list string) :=
  Return ["adm_stadtkreise_a"; "adm_stadtkreise_v"].
Definition no_layers (_ : option string) : outcome (list string) := Return [].
Definition feature_bytes (_ : option string) (layer : string) : outcome string :=
  Return ("geojson of " +:+ layer).
Definition empty_table (_ : string) : outcome DataFrame :=
  Return (mkDataFrame ∅ []).

(** The index of a row of a view whose records have these three keys. *)
Definition view_labels : gset string := {[ "format"; "id"; "url" ]}.

(** Every character of [t] is one of [chars]. *)
Fixpoint all_in (chars t : string) : bool :=
  match t with
  | EmptyString => true
  | String c t' => char_in c chars && all_in chars t'
  end.

(** The group records of the examples. *)
Definition group_mobility : resource :=
  {[ "display_name" := VStr "Mobilitaet"; "description" := VStr "" ]}.
Definition group_population : resource :=
  {[ "display_name" := VStr "Bevoelkerung" ]}.
Definition group_unnamed : resource := {[ "description" := VStr "" ]}.

(** The two views of the wrapper of [pkg_a], and the wrapper after an
    access to its tabular view. *)
Definition view_a_tabular : DataFrame :=
  {| columns := ⋃ (dom <$> [r_csv; r_wfs]); rows := [r_csv] |}.
Definition view_a_geo : DataFrame :=
  {| columns := ⋃ (dom <$> [r_csv; r_wfs]); rows := [r_wfs] |}.
Definition wrapper_a_after_tabular : OpenDataPackage :=
  set_tabular_resource_metadata_df view_a_tabular
    (set_resource_metadata_df (DataFrame_of_records [r_csv; r_wfs])
       (OpenDataPackage_init pkg_a)).

(** * Properties *)

(** ** The order on names *)

Lemma string_leb_iff (a b : string) :
  String.leb a b = true <-> a = b \/ String_as_OT.lt a b.
Proof.
  unfold String.leb.
  destruct (String.compare a b) eqn:E.
  - apply String_as_OT.cmp_eq in E. tauto.
  - apply String_as_OT.cmp_lt in E. tauto.
  - split; [discriminate|].
    intros [->|H].
    + assert (String.compare b b = Eq) as E' by (apply String_as_OT.cmp_eq; reflexivity).
      congruence.
    + apply String_as_OT.cmp_lt in H. unfold String_as_OT.cmp in H. congruence.
Qed.

Lemma string_leb_trans (a b c : string) :
  String.leb a b = true -> String.leb b c = true -> String.leb a c = true.
Proof.
  rewrite !string_leb_iff.
  intros [->|H1] [->|H2]; auto.
  right. eapply String_as_OT.lt_trans; eauto.
Qed.

Lemma string_leb_false_le (a b : string) :
  String.leb a b = false -> String.leb b a = true.
Proof.
  intros H. destruct (String.leb_total a b) as [E|E]; congruence.
Qed.

(** ** Insertion into a sorted table *)

Lemma insert_by_name_perm (p : package) (df : list package) :
  Permutation (insert_by_name p df) (p :: df).
Proof.
  induction df as [|q df IH]; simpl; [reflexivity|].
  destruct (String.leb _ _); [reflexivity|].
  rewrite IH. apply perm_swap.
Qed.

Lemma sort_rows_perm (df : list package) : Permutation (sort_rows df) df.
Proof.
  induction df as [|p df IH]; simpl; [reflexivity|].
  rewrite insert_by_name_perm. now constructor.
Qed.

Lemma insert_by_name_sorted (p : package) (df : list package) :
  StronglySorted name_le df -> StronglySorted name_le (insert_by_name p df).
Proof.
  induction 1 as [|q df Hs IH Hq]; simpl.
  - repeat constructor.
  - destruct (String.leb (pkg_name p) (pkg_name q)) eqn:E.
    + constructor; [now constructor|].
      constructor; [exact E|].
      eapply Forall_impl; [exact Hq|].
      intros r Hr. unfold name_le in *. eapply string_leb_trans; eauto.
    + constructor; [exact IH|].
      rewrite (insert_by_name_perm p df).
      constructor; [|exact Hq].
      apply string_leb_false_le, E.
Qed.

Lemma sort_rows_sorted (df : list package) :
  StronglySorted name_le (sort_rows df).
Proof.
  induction df as [|p df IH]; simpl; [constructor|].
  now apply insert_by_name_sorted.
Qed.

(** ** Tables built from records *)

Lemma set_resources_NaN (p : package) :
  has_resources_key p = false -> set_resources p NaN = p.
Proof.
  unfold has_resources_key. destruct p as [n i t c]. cbn.
  destruct c; [reflexivity|].
  intros H. apply bool_decide_eq_false in H. exfalso. apply H. discriminate.
Qed.

(** A table built from records shows these records. *)
Lemma shown_rows_json_normalize (records : list package) :
  shown_rows (json_normalize records) = records.
Proof.
  unfold shown_rows, json_normalize. cbn [resources_column frame_rows].
  destruct (existsb has_resources_key records) eqn:E; [reflexivity|].
  induction records as [|p records IH]; [reflexivity|].
  cbn [existsb] in E. apply orb_false_iff in E as [Ep E].
  cbn [fmap list_fmap]. rewrite (set_resources_NaN p Ep). f_equal.
  apply IH, E.
Qed.

Lemma concat_shown_rows (pages : list (list package)) :
  concat (shown_rows <$> (json_normalize <$> pages)) = concat pages.
Proof.
  induction pages as [|page pages IH]; [reflexivity|].
  cbn [fmap list_fmap concat]. now rewrite shown_rows_json_normalize, IH.
Qed.

Lemma existsb_concat {A} (f : A -> bool) (ls : list (list A)) :
  existsb f (concat ls) = existsb (existsb f) ls.
Proof.
  induction ls as [|l ls IH]; [reflexivity|].
  cbn [concat existsb]. now rewrite existsb_app, IH.
Qed.

(** The table has the column [resources] when a record of a page has the
    key. *)
Lemma resources_column_pages (pages : list (list package)) :
  existsb resources_column (json_normalize <$> pages)
  = existsb has_resources_key (concat pages).
Proof.
  rewrite existsb_concat.
  induction pages as [|page pages IH]; [reflexivity|].
  cbn [fmap list_fmap existsb]. now rewrite IH.
Qed.

(** The table that the retrieval builds from the pages [pages]. *)
Lemma pd_concat_pages (page : list package) (pages : list (list package)) :
  pd_concat (json_normalize <$> (page :: pages))
  = Return (json_normalize (concat (page :: pages))).
Proof.
  change (pd_concat (json_normalize <$> (page :: pages)))
    with (Return
            {| resources_column :=
                 existsb resources_column (json_normalize <$> (page :: pages));
               frame_rows :=
                 concat (shown_rows <$> (json_normalize <$> (page :: pages))) |}).
  now rewrite concat_shown_rows, resources_column_pages.
Qed.

(** ** Pagination *)

Lemma requested_offsets_app (w1 w2 : world) :
  requested_offsets (w1 ++ w2) = requested_offsets w1 ++ requested_offsets w2.
Proof.
  induction w1 as [|e w1 IH]; simpl; [reflexivity|].
  destruct e; simpl; rewrite IH; reflexivity.
Qed.

Section Pagination.

Variable package_list : nat -> nat -> list package.
Variables limit sleep : nat.

Lemma page_empty (offset : nat) (w : world) :
  package_list limit offset = [] ->
  _get_package_list_page package_list limit offset w
  = (Return None,
     w ++ [Get_package_list limit offset; Print "0 packages retrieved."]).
Proof.
  intros H. unfold _get_package_list_page. run_M.
  rewrite H. simpl. now rewrite <- app_assoc.
Qed.

Lemma page_nonempty (offset : nat) (w : world) :
  package_list limit offset <> [] ->
  _get_package_list_page package_list limit offset w
  = (Return (Some (json_normalize (package_list limit offset))),
     w ++ [Get_package_list limit offset;
           Print (pretty (length (package_list limit offset))
                  +:+ " packages retrieved.")]).
Proof.
  intros H. unfold _get_package_list_page. run_M.
  destruct (decide (package_list limit offset = [])) as [E|_]; [contradiction|].
  simpl. now rewrite <- app_assoc.
Qed.

Lemma fmap_seq_0_S {A} (f g : nat -> A) (k : nat) :
  (forall i, f (S i) = g i) ->
  f <$> seq 0 (S k) = f 0 :: (g <$> seq 0 k).
Proof.
  intros H. cbn [seq fmap list_fmap]. f_equal.
  rewrite <- fmap_S_seq, <- list_fmap_compose.
  apply list_fmap_ext. intros _ i _. apply H.
Qed.

Lemma offsets_S (offset k : nat) :
  (fun i => offset + i * limit) <$> seq 0 (S k)
  = offset :: ((fun i => offset + limit + i * limit) <$> seq 0 k).
Proof.
  rewrite (fmap_seq_0_S _ (fun i => offset + limit + i * limit)).
  - f_equal. lia.
  - intros i. lia.
Qed.

Lemma pages_from_S (offset k : nat) :
  pages_from package_list limit offset (S k)
  = package_list limit offset
    :: pages_from package_list limit (offset + limit) k.
Proof.
  unfold pages_from.
  rewrite (fmap_seq_0_S _ (fun i => package_list limit (offset + limit + i * limit))).
  - do 2 f_equal. lia.
  - intros i. f_equal. lia.
Qed.

(** The loop runs up to the first empty page and no further. *)
Lemma page_loop_reaches_empty (k : nat) :
  forall fuel offset frames w,
    (forall i, i < k -> package_list limit (offset + i * limit) <> []) ->
    package_list limit (offset + k * limit) = [] ->
    k < fuel ->
    exists w',
      page_loop package_list fuel limit sleep offset frames w
      = Some (Return (frames
                      ++ (json_normalize
                            <$> pages_from package_list limit offset k)), w')
      /\ requested_offsets w'
         = requested_offsets w
           ++ ((fun i => offset + i * limit) <$> seq 0 (S k)).
Proof.
  induction k as [|k IH]; intros fuel offset frames w Hne He Hf.
  - destruct fuel as [|fuel]; [lia|]. simpl in He. rewrite Nat.add_0_r in He.
    cbn [page_loop]. rewrite (page_empty _ _ He).
    eexists. split; [now rewrite app_nil_r|].
    rewrite requested_offsets_app. cbn. now rewrite Nat.add_0_r.
  - destruct fuel as [|fuel]; [lia|].
    assert (package_list limit offset <> []) as H0.
    { specialize (Hne 0 ltac:(lia)). simpl in Hne. now rewrite Nat.add_0_r in Hne. }
    cbn [page_loop]. rewrite (page_nonempty _ _ H0).
    destruct (IH fuel (offset + limit)
                (frames ++ [json_normalize (package_list limit offset)])
                ((w ++ [Get_package_list limit offset;
                        Print (pretty (length (package_list limit offset))
                               +:+ " packages retrieved.")]) ++ [Sleep sleep]))
      as (w' & Hrun & Hreq).
    + intros i Hi. specialize (Hne (S i) ltac:(lia)).
      replace (offset + limit + i * limit) with (offset + S i * limit) by lia.
      exact Hne.
    + replace (offset + limit + k * limit) with (offset + S k * limit) by lia.
      exact He.
    + lia.
    + exists w'. split.
      * rewrite Hrun, pages_from_S, <- app_assoc. reflexivity.
      * rewrite Hreq, !requested_offsets_app. cbn [requested_offsets].
        rewrite app_nil_r, <- app_assoc.
        now rewrite (offsets_S offset (S k)).
Qed.

End Pagination.

(** ** The full catalogue *)

(** C10. When the first page request returns the empty result list, the
    full-catalogue retrieval raises [ValueError] from the concatenation of
    no frames; it returns a table only if the first page is non-empty. *)
Theorem first_page_empty_raises
  (package_list : nat -> nat -> list package) (limit sleep : nat)
  (self : OpenDataZH) (w : world) :
  (package_list limit 0 = [] ->
   forall fuel,
     _get_full_package_list package_list (S fuel) limit sleep self w
     = Some (Raise ValueError,
             (self, w ++ [Get_package_list limit 0;
                          Print "0 packages retrieved."])))
  /\ (forall fuel df st,
        _get_full_package_list package_list fuel limit sleep self w
        = Some (Return df, st) ->
        package_list limit 0 <> []).
Proof.
  assert (package_list limit 0 = [] ->
          forall fuel,
            _get_full_package_list package_list (S fuel) limit sleep self w
            = Some (Raise ValueError,
                    (self, w ++ [Get_package_list limit 0;
                                 Print "0 packages retrieved."]))) as H1.
  { intros He fuel. unfold _get_full_package_list. cbn [page_loop].
    rewrite (page_empty _ _ _ _ He). reflexivity. }
  split; [exact H1|].
  intros [|fuel] df st Hrun He.
  - discriminate Hrun.
  - rewrite (H1 He fuel) in Hrun. discriminate Hrun.
Qed.

Lemma first_page_empty_raises_witness :
  _get_full_package_list (slice_remote []) 1 500 2 OpenDataZH_init []
  = Some (Raise ValueError,
          (OpenDataZH_init,
           [Get_package_list 500 0; Print "0 packages retrieved."])).
Proof.
  exact (proj1 (first_page_empty_raises (slice_remote []) 500 2
                  OpenDataZH_init []) eq_refl 0).
Defined.

(** C1, as the code has it. When the pages at offsets [0], [limit], ...,
    [(k-1) * limit] are non-empty and the page at [k * limit] is empty, the
    retrieval requests exactly these [k + 1] pages, stores and returns the
    rows of the [k] non-empty pages in ascending order of name, and drops or
    merges no row: the result is a permutation of the concatenation. *)
Theorem full_package_list_sorted_concat
  (package_list : nat -> nat -> list package) (limit sleep k fuel : nat)
  (self : OpenDataZH) (w : world) :
  0 < k ->
  (forall i, i < k -> package_list limit (i * limit) <> []) ->
  package_list limit (k * limit) = [] ->
  k < fuel ->
  exists df w',
    _get_full_package_list package_list fuel limit sleep self w
    = Some (Return df, (set_full_package_list_df df self, w'))
    /\ Permutation (frame_rows df)
         (concat (pages_from package_list limit 0 k))
    /\ StronglySorted name_le (frame_rows df)
    /\ requested_offsets w'
       = requested_offsets w ++ ((fun i => i * limit) <$> seq 0 (S k)).
Proof.
  intros Hk Hne He Hf.
  destruct (page_loop_reaches_empty package_list limit sleep k fuel 0 [] w)
    as (w' & Hrun & Hreq); auto.
  exists (sort_index
            (json_normalize (concat (pages_from package_list limit 0 k)))), w'.
  split; [|split; [apply sort_rows_perm|split; [apply sort_rows_sorted|exact Hreq]]].
  unfold _get_full_package_list. rewrite Hrun. cbn [app].
  destruct k as [|k]; [lia|].
  rewrite pages_from_S, pd_concat_pages. reflexivity.
Qed.

Lemma full_package_list_sorted_concat_witness :
  exists df w',
    _get_full_package_list (slice_remote [pkg_b; pkg_a; pkg_empty]) 5 2 0
      OpenDataZH_init []
    = Some (Return df, (set_full_package_list_df df OpenDataZH_init, w'))
    /\ Permutation (frame_rows df)
         (concat (pages_from (slice_remote [pkg_b; pkg_a; pkg_empty]) 2 0 2))
    /\ StronglySorted name_le (frame_rows df)
    /\ requested_offsets w'
       = requested_offsets [] ++ ((fun i => i * 2) <$> seq 0 3).
Proof.
  apply (full_package_list_sorted_concat
           (slice_remote [pkg_b; pkg_a; pkg_empty]) 2 0 2 5 OpenDataZH_init []).
  - lia.
  - intros [|[|i]] Hi; [discriminate|discriminate|lia].
  - reflexivity.
  - lia.
Defined.

(** C1, refuted as stated: two pages that carry the same dataset give a
    catalogue with two rows of that name. *)
Lemma full_package_list_keeps_duplicates :
  exists df st,
    _get_full_package_list overlapping_pages 3 1 0 OpenDataZH_init []
    = Some (Return df, st)
    /\ ~ NoDup (pkg_name <$> frame_rows df).
Proof.
  eexists _, _. split; [vm_compute; reflexivity|].
  intros H. apply NoDup_cons in H as [H _].
  apply H. left.
Qed.

(** *** A catalogue served in slices

    The usual remote: page [i] is the slice of a fixed catalogue that
    starts at [i * limit]. The retrieval then ends and returns the whole
    catalogue, sorted. *)

Lemma slice_pages_concat (limit : nat) :
  forall k (catalogue : list package),
    length catalogue <= k * limit ->
    concat (pages_from (slice_remote catalogue) limit 0 k) = catalogue.
Proof.
  induction k as [|k IH]; intros catalogue Hlen.
  - destruct catalogue; [reflexivity|simpl in Hlen; lia].
  - rewrite pages_from_S. cbn [concat].
    replace (pages_from (slice_remote catalogue) limit (0 + limit) k)
      with (pages_from (slice_remote (drop limit catalogue)) limit 0 k).
    + rewrite IH.
      * unfold slice_remote. rewrite drop_0. apply take_drop.
      * rewrite length_drop. lia.
    + unfold pages_from. apply list_fmap_ext. intros _ i _.
      unfold slice_remote. rewrite drop_drop. do 2 f_equal; lia.
Qed.

Lemma slice_page_count (limit : nat) :
  0 < limit ->
  forall n (catalogue : list package),
    length catalogue <= n ->
    exists k,
      k <= n
      /\ (forall i, i < k -> i * limit < length catalogue)
      /\ length catalogue <= k * limit.
Proof.
  intros Hl. induction n as [|n IH]; intros catalogue Hlen.
  - exists 0. split; [lia|]. split; [intros i Hi; lia|lia].
  - destruct (decide (length catalogue = 0)) as [E|E].
    + exists 0. split; [lia|]. split; [intros i Hi; lia|lia].
    + destruct (IH (drop limit catalogue)) as (k & Hk & Hlt & Hge).
      { rewrite length_drop. lia. }
      rewrite length_drop in Hlt, Hge.
      exists (S k). split; [lia|]. split.
      * intros [|i] Hi; [lia|]. specialize (Hlt i ltac:(lia)). simpl. lia.
      * simpl. lia.
Qed.

(** X6. Against a remote that serves the slices of a fixed, non-empty
    catalogue, and with a positive page size, the retrieval ends within
    [length catalogue + 1] requests and returns and stores the whole
    catalogue, every row once, in ascending order of name. *)
Theorem full_package_list_of_slices (catalogue : list package)
  (limit sleep : nat) (self : OpenDataZH) (w : world) :
  0 < limit -> catalogue <> [] ->
  exists df w',
    _get_full_package_list (slice_remote catalogue)
      (S (length catalogue)) limit sleep self w
    = Some (Return df, (set_full_package_list_df df self, w'))
    /\ Permutation (frame_rows df) catalogue
    /\ StronglySorted name_le (frame_rows df).
Proof.
  intros Hl Hne.
  destruct (slice_page_count limit Hl (length catalogue) catalogue (le_n _))
    as (k & Hk & Hlt & Hge).
  assert (0 < k) as Hk0.
  { destruct k; [|lia]. destruct catalogue; [contradiction|simpl in Hge; lia]. }
  destruct (page_loop_reaches_empty (slice_remote catalogue) limit sleep k
              (S (length catalogue)) 0 [] w) as (w' & Hrun & _).
  - intros i Hi. specialize (Hlt i Hi). unfold slice_remote. cbn [Nat.add].
    intros E. apply (f_equal length) in E.
    rewrite length_take, length_drop in E. simpl in E. lia.
  - unfold slice_remote. cbn [Nat.add]. rewrite drop_ge by lia. apply take_nil.
  - lia.
  - exists (sort_index (json_normalize catalogue)), w'.
    split; [|split; [apply sort_rows_perm|apply sort_rows_sorted]].
    unfold _get_full_package_list. rewrite Hrun. cbn [app].
    pose proof (slice_pages_concat limit k catalogue Hge) as Hcat.
    destruct (pages_from (slice_remote catalogue) limit 0 k) as [|p ps] eqn:Ep.
    + simpl in Hcat. congruence.
    + now rewrite pd_concat_pages, Hcat.
Qed.

Lemma full_package_list_of_slices_witness :
  exists df w',
    _get_full_package_list (slice_remote [pkg_b; pkg_a; pkg_empty])
      (S (length [pkg_b; pkg_a; pkg_empty])) 2 0 OpenDataZH_init []
    = Some (Return df, (set_full_package_list_df df OpenDataZH_init, w'))
    /\ Permutation (frame_rows df) [pkg_b; pkg_a; pkg_empty]
    /\ StronglySorted name_le (frame_rows df).
Proof.
  apply (full_package_list_of_slices [pkg_b; pkg_a; pkg_empty] 2 0
           OpenDataZH_init []); [lia|discriminate].
Defined.

(** ** The resource classifiers *)

Lemma is_tabular_dist_iff (x : resource) :
  is_tabular_dist x = true
  <-> dict_get x "format" (VStr "") = VStr "CSV"
      \/ dict_get x "format" (VStr "") = VStr "parquet".
Proof.
  unfold is_tabular_dist.
  rewrite orb_true_iff, !bool_decide_eq_true. reflexivity.
Qed.

Lemma is_geo_dist_iff (x : resource) :
  is_geo_dist x = true <-> dict_get x "format" (VStr "") = VStr "WFS".
Proof. unfold is_geo_dist. apply bool_decide_eq_true. Qed.

(** The kept resources are those that pass the test, in their order. *)
Lemma has_tabular_distribution_kept (l kept : list resource) :
  has_tabular_distribution (Dists l) = Return (Dists kept) ->
  kept = filter (fun x => is_tabular_dist x) l /\ kept <> [].
Proof.
  simpl. destruct (decide _) as [H|H]; intros E; inversion E; subst; auto.
Qed.

Lemma has_geo_distribution_kept (l kept : list resource) :
  has_geo_distribution (Dists l) = Return (Dists kept) ->
  kept = filter (fun x => is_geo_dist x) l /\ kept <> [].
Proof.
  simpl. destruct (decide _) as [H|H]; intros E; inversion E; subst; auto.
Qed.

Lemma filter_none (P : resource -> bool) (l : list resource) :
  Forall (fun x => P x = false) l -> filter (fun x => P x) l = [].
Proof.
  induction 1 as [|x l Hx _ IH]; [reflexivity|].
  rewrite filter_cons, IH. destruct (decide (P x)) as [H|_]; [|reflexivity].
  rewrite Hx in H. contradiction.
Qed.

Lemma filter_twice (P : resource -> bool) (l : list resource) :
  filter (fun x => P x) (filter (fun x => P x) l) = filter (fun x => P x) l.
Proof.
  induction l as [|x l IH]; [reflexivity|].
  rewrite filter_cons. destruct (decide (P x)) as [H|H]; [|exact IH].
  rewrite filter_cons. destruct (decide (P x)); [|contradiction].
  now rewrite IH.
Qed.

Lemma has_tabular_distribution_stable (c : cell) (kept : list resource) :
  has_tabular_distribution c = Return (Dists kept) ->
  has_tabular_distribution (Dists kept) = Return (Dists kept).
Proof.
  destruct c as [|l]; [discriminate|].
  intros H. apply has_tabular_distribution_kept in H as [-> Hne].
  simpl. rewrite filter_twice.
  destruct (decide _) as [_|H]; [reflexivity|contradiction].
Qed.

Lemma has_geo_distribution_stable (c : cell) (kept : list resource) :
  has_geo_distribution c = Return (Dists kept) ->
  has_geo_distribution (Dists kept) = Return (Dists kept).
Proof.
  destruct c as [|l]; [discriminate|].
  intros H. apply has_geo_distribution_kept in H as [-> Hne].
  simpl. rewrite filter_twice.
  destruct (decide _) as [_|H]; [reflexivity|contradiction].
Qed.

(** ** The catalogue-level filters *)

Lemma dropna_rows_cons (p : package) (df : list package) :
  dropna_rows (p :: df)
  = if decide (pkg_resources p <> NaN) then p :: dropna_rows df
    else dropna_rows df.
Proof. reflexivity. Qed.

(** A filter first reads the column, then works on the rows. *)
Lemma filter_frame (f : cell -> outcome cell) (df : PackageFrame) :
  obind (apply_resources f df) (fun d => dropna_resources d)
  = if resources_column df then
      obind (filter_rows f (frame_rows df)) (fun rows =>
      Return {| resources_column := true; frame_rows := rows |})
    else Raise AttributeError.
Proof.
  unfold apply_resources, filter_rows.
  destruct (resources_column df); [|reflexivity].
  destruct (apply_rows f (frame_rows df)); reflexivity.
Qed.

(** A row whose cell becomes NaN leaves no trace in the filtered table. *)
Lemma apply_then_dropna_skips (f : cell -> outcome cell) (p : package)
  (pre post : list package) :
  f (pkg_resources p) = Return NaN ->
  filter_rows f (pre ++ p :: post) = filter_rows f (pre ++ post).
Proof.
  unfold filter_rows.
  intros Hp. induction pre as [|q pre IH]; cbn [app apply_rows].
  - rewrite Hp. cbn [obind].
    destruct (apply_rows f post) as [df|e]; cbn [obind]; [|reflexivity].
    rewrite dropna_rows_cons. cbn.
    destruct (decide (NaN <> NaN)) as [H|_]; [contradiction|reflexivity].
  - destruct (f (pkg_resources q)) as [c|e]; cbn [obind]; [|reflexivity].
    destruct (apply_rows f (pre ++ p :: post)) as [d1|e1];
      destruct (apply_rows f (pre ++ post)) as [d2|e2];
      cbn [obind] in *; try congruence.
    inversion IH as [E]. now rewrite !dropna_rows_cons, E.
Qed.

(** Without a row whose cell becomes NaN the filter does the same. *)
Lemma filter_frame_skips (f : cell -> outcome cell) (c : bool) (p : package)
  (pre post : list package) :
  f (pkg_resources p) = Return NaN ->
  obind (apply_resources f (mkPackageFrame c (pre ++ p :: post)))
    (fun d => dropna_resources d)
  = obind (apply_resources f (mkPackageFrame c (pre ++ post)))
      (fun d => dropna_resources d).
Proof.
  intros Hp. rewrite !filter_frame. cbn [resources_column frame_rows].
  now rewrite (apply_then_dropna_skips f p pre post Hp).
Qed.

Section Filter_twice.

Variable f : cell -> outcome cell.
Hypothesis f_stable :
forall c kept, f c = Return (Dists kept) -> f (Dists kept) = Return (Dists kept).

Lemma apply_rows_kept (df df' : list package) :
apply_rows f df = Return df' ->
apply_rows f (dropna_rows df') = Return (dropna_rows df').
Proof.
revert df'. induction df as [|p df IH]; intros df'; cbn [apply_rows].
- intros E. inversion E. reflexivity.
- destruct (f (pkg_resources p)) as [c|e] eqn:Ec; cbn [obind]; [|discriminate].
  destruct (apply_rows f df) as [d|e]; cbn [obind]; [|discriminate].
  intros E. inversion E; subst. rewrite dropna_rows_cons.
  specialize (IH d eq_refl). cbn [set_resources pkg_resources].
  destruct c as [|kept].
  + destruct (decide (NaN <> NaN)) as [H|_]; [contradiction|exact IH].
  + destruct (decide (Dists kept <> NaN)) as [_|H];
      [|exfalso; apply H; discriminate].
    cbn [apply_rows set_resources pkg_resources].
    rewrite (f_stable _ _ Ec). cbn [obind]. rewrite IH. reflexivity.
Qed.

Lemma dropna_rows_twice (df : list package) :
dropna_rows (dropna_rows df) = dropna_rows df.
Proof.
induction df as [|p df IH]; [reflexivity|].
rewrite dropna_rows_cons.
destruct (decide (pkg_resources p <> NaN)) as [Hp|Hp]; [|exact IH].
rewrite dropna_rows_cons.
destruct (decide (pkg_resources p <> NaN)); [|contradiction].
now rewrite IH.
Qed.

Lemma filter_rows_twice (rows kept : list package) :
filter_rows f rows = Return kept -> filter_rows f kept = Return kept.
Proof.
unfold filter_rows.
destruct (apply_rows f rows) as [d|e] eqn:E; cbn [obind]; [|discriminate].
intros H. inversion H; subst.
rewrite (apply_rows_kept _ _ E). cbn [obind].
now rewrite dropna_rows_twice.
Qed.

(** Filtering a filtered table changes nothing. *)
Lemma filter_twice_same (full_df df : PackageFrame) :
obind (apply_resources f full_df) (fun d => dropna_resources d) = Return df ->
obind (apply_resources f df) (fun d => dropna_resources d) = Return df.
Proof.
rewrite !filter_frame.
destruct (resources_column full_df); [|discriminate].
destruct (filter_rows f (frame_rows full_df)) as [kept|e] eqn:E; cbn [obind];
  [|discriminate].
intros H. inversion H; subst. cbn [resources_column frame_rows].
now rewrite (filter_rows_twice _ _ E).
Qed.

End Filter_twice.

Lemma filter_tabular_idempotent (full_df df : PackageFrame) :
  filter_tabular full_df = Return df -> filter_tabular df = Return df.
Proof. apply filter_twice_same, has_tabular_distribution_stable. Qed.

Lemma filter_geo_idempotent (full_df df : PackageFrame) :
  filter_geo full_df = Return df -> filter_geo df = Return df.
Proof. apply filter_twice_same, has_geo_distribution_stable. Qed.

(** C7. When no resource of a list passes the format test, the tabular and
    the geo classifier return NaN, which is not the empty list, and
    [filter_tabular] and [filter_geo] drop the row of such a dataset: the
    filtered table is the one obtained from the same table without that
    row. *)
Theorem no_match_is_NaN_and_row_dropped (l : list resource) :
  (Forall (fun x => is_tabular_dist x = false) l ->
   has_tabular_distribution (Dists l) = Return NaN
   /\ has_tabular_distribution (Dists l) <> Return (Dists [])
   /\ forall c p pre post,
        pkg_resources p = Dists l ->
        filter_tabular (mkPackageFrame c (pre ++ p :: post))
        = filter_tabular (mkPackageFrame c (pre ++ post)))
  /\ (Forall (fun x => is_geo_dist x = false) l ->
      has_geo_distribution (Dists l) = Return NaN
      /\ has_geo_distribution (Dists l) <> Return (Dists [])
      /\ forall c p pre post,
           pkg_resources p = Dists l ->
           filter_geo (mkPackageFrame c (pre ++ p :: post))
           = filter_geo (mkPackageFrame c (pre ++ post))).
Proof.
  split; intros Hl.
  - assert (has_tabular_distribution (Dists l) = Return NaN) as E.
    { simpl. rewrite (filter_none _ _ Hl).
      destruct (decide _) as [H|_]; [contradiction|reflexivity]. }
    split; [exact E|]. split; [rewrite E; discriminate|].
    intros c p pre post Hp. unfold filter_tabular.
    apply filter_frame_skips. now rewrite Hp.
  - assert (has_geo_distribution (Dists l) = Return NaN) as E.
    { simpl. rewrite (filter_none _ _ Hl).
      destruct (decide _) as [H|_]; [contradiction|reflexivity]. }
    split; [exact E|]. split; [rewrite E; discriminate|].
    intros c p pre post Hp. unfold filter_geo.
    apply filter_frame_skips. now rewrite Hp.
Qed.

Lemma no_match_is_NaN_and_row_dropped_witness :
  has_tabular_distribution (Dists [r_pdf]) = Return NaN
  /\ filter_tabular (mkPackageFrame true ([pkg_a] ++ pkg_b :: [pkg_empty]))
     = filter_tabular (mkPackageFrame true ([pkg_a] ++ [pkg_empty]))
  /\ has_geo_distribution (Dists [r_pdf]) = Return NaN
  /\ filter_geo (mkPackageFrame true ([pkg_a] ++ pkg_b :: [pkg_empty]))
     = filter_geo (mkPackageFrame true ([pkg_a] ++ [pkg_empty])).
Proof.
  destruct (no_match_is_NaN_and_row_dropped [r_pdf]) as [Ht Hg].
  destruct Ht as (H1 & _ & H2); [repeat constructor|].
  destruct Hg as (H3 & _ & H4); [repeat constructor|].
  split; [exact H1|]. split; [apply H2; reflexivity|].
  split; [exact H3|]. apply H4; reflexivity.
Defined.

(** C8, as the code has it. No resource passes both the tabular and the
    geo test, so the kept lists of the two classifiers share no record, and
    a classifier applied to a list it returned gives that list back. *)
Theorem classification_disjoint_and_stable (l : list resource) :
  (forall x, ~ (is_tabular_dist x = true /\ is_geo_dist x = true))
  /\ (forall t g,
        has_tabular_distribution (Dists l) = Return (Dists t) ->
        has_geo_distribution (Dists l) = Return (Dists g) ->
        forall x, x ∈ t -> x ∉ g)
  /\ (forall kept,
        has_tabular_distribution (Dists l) = Return (Dists kept) ->
        has_tabular_distribution (Dists kept) = Return (Dists kept))
  /\ (forall kept,
        has_geo_distribution (Dists l) = Return (Dists kept) ->
        has_geo_distribution (Dists kept) = Return (Dists kept)).
Proof.
  assert (forall x, ~ (is_tabular_dist x = true /\ is_geo_dist x = true)) as Hd.
  { intros x [Ht Hg]. apply is_tabular_dist_iff in Ht. apply is_geo_dist_iff in Hg.
    destruct Ht as [Ht|Ht]; congruence. }
  split; [exact Hd|]. split; [|split].
  - intros t g Ht Hg x Hxt Hxg.
    apply has_tabular_distribution_kept in Ht as [-> _].
    apply has_geo_distribution_kept in Hg as [-> _].
    apply list_elem_of_filter in Hxt as [Hxt _].
    apply list_elem_of_filter in Hxg as [Hxg _].
    apply (Hd x). split; now apply Is_true_true.
  - intros kept. apply has_tabular_distribution_stable.
  - intros kept. apply has_geo_distribution_stable.
Qed.

Lemma classification_disjoint_and_stable_witness :
  has_tabular_distribution (Dists [r_csv]) = Return (Dists [r_csv])
  /\ has_geo_distribution (Dists [r_wfs]) = Return (Dists [r_wfs])
  /\ r_csv ∉ [r_wfs].
Proof.
  split; [|split].
  - apply (proj1 (proj2 (proj2 (classification_disjoint_and_stable [r_csv; r_wfs])))).
    vm_compute. reflexivity.
  - apply (proj2 (proj2 (proj2 (classification_disjoint_and_stable [r_csv; r_wfs])))).
    vm_compute. reflexivity.
  - apply (proj1 (proj2 (classification_disjoint_and_stable [r_csv; r_wfs]))
             [r_csv] [r_wfs]).
    + vm_compute. reflexivity.
    + vm_compute. reflexivity.
    + apply list_elem_of_here.
Defined.

(** C8, refuted as stated: on a list without a tabular resource the
    classifier returns NaN, and applied to that NaN it raises [TypeError]
    instead of returning it. *)
Lemma classifier_rejects_its_NaN :
  has_tabular_distribution (Dists [r_wfs]) = Return NaN
  /\ obind (has_tabular_distribution (Dists [r_wfs])) has_tabular_distribution
     = Raise TypeError
  /\ obind (has_tabular_distribution (Dists [r_wfs])) has_tabular_distribution
     <> has_tabular_distribution (Dists [r_wfs]).
Proof. split; [|split]; vm_compute; [reflexivity|reflexivity|discriminate]. Qed.

(** C2, at the failing input: a resource whose format is the lowercase
    [csv] passes the lowercasing test of [filter_resources] and is not kept
    by [has_tabular_distribution]. *)
Theorem lowercase_csv_not_tabular :
  table_format_test (r_lowercase !! "format") = true
  /\ has_tabular_distribution (Dists [r_lowercase]) = Return NaN.
Proof. split; vm_compute; reflexivity. Qed.

(** ** Strings *)

#[local] Arguments String.append : simpl nomatch.

Lemma prefix_iff (sub s : string) :
  String.prefix sub s = true <-> exists b, s = sub +:+ b.
Proof.
  revert s. induction sub as [|a sub IH]; intros s; simpl.
  - split; [intros _; now exists s|now destruct s].
  - destruct s as [|c s]; simpl.
    + split; [discriminate|]. intros [b Hb]. discriminate Hb.
    + destruct (Ascii.ascii_dec a c) as [->|Hne].
      * rewrite IH. split; intros [b Hb]; exists b; simpl in *; congruence.
      * split; [discriminate|]. intros [b Hb]. simpl in Hb. congruence.
Qed.

(** [contains] is the substring test. *)
Lemma contains_iff (sub s : string) :
  contains sub s = true <-> exists a b, s = a +:+ sub +:+ b.
Proof.
  induction s as [|c s IH]; cbn [contains]; rewrite orb_true_iff.
  - rewrite prefix_iff. split.
    + intros [[b Hb]|H]; [|discriminate]. exists EmptyString, b. exact Hb.
    + intros (a & b & H). left. destruct a; [now exists b|discriminate H].
  - rewrite prefix_iff, IH. split.
    + intros [[b Hb]|(a & b & H)].
      * exists EmptyString, b. exact Hb.
      * exists (String c a), b. simpl. now rewrite H.
    + intros (a & b & H). destruct a as [|c' a].
      * left. now exists b.
      * right. exists a, b. simpl in H. congruence.
Qed.

Lemma span_class_spec (s : string) :
  s = (span_class s).1 +:+ (span_class s).2
  /\ all_class (span_class s).1 = true
  /\ match (span_class s).2 with
     | EmptyString => True
     | String c _ => in_class c = false
     end.
Proof.
  induction s as [|c s (IH1 & IH2 & IH3)]; simpl; [auto|].
  destruct (in_class c) eqn:Ec.
  - destruct (span_class s) as [run rest]; simpl in *.
    rewrite Ec, IH2. split; [now f_equal|auto].
  - simpl. auto.
Qed.

Lemma span_class_stop (g : string) (c : ascii) (rest : string) :
  all_class g = true -> in_class c = false ->
  span_class (g +:+ String c rest) = (g, String c rest).
Proof.
  intros Hg Hc. induction g as [|a g IH]; simpl in *.
  - now rewrite Hc.
  - apply andb_true_iff in Hg as [Ha Hg]. now rewrite Ha, IH.
Qed.

Lemma match_group_sound (s g : string) :
  match_group s = Some g ->
  exists post,
    s = g +:+ String "?"%char post /\ g <> EmptyString /\ all_class g = true.
Proof.
  unfold match_group. intros H.
  destruct (span_class_spec s) as (H1 & H2 & _).
  destruct (span_class s) as [run rest]; simpl in *.
  destruct run as [|c run]; [discriminate|].
  destruct rest as [|q post]; [discriminate|].
  destruct (Ascii.ascii_dec q "?"%char) as [->|Hq].
  - inversion H; subst. exists post. split; [reflexivity|]. split; [discriminate|exact H2].
  - exfalso. revert H.
    destruct q as [[] [] [] [] [] [] [] []]; try discriminate. contradiction.
Qed.

Lemma match_group_complete (g post : string) :
  g <> EmptyString -> all_class g = true ->
  match_group (g +:+ String "?"%char post) = Some g.
Proof.
  intros Hne Hg. unfold match_group.
  rewrite (span_class_stop g "?"%char post Hg eq_refl).
  destruct g; [contradiction|reflexivity].
Qed.

(** What [re.search] finds is a path segment before a question mark. *)
Lemma re_search_identifier_sound (url g : string) :
  re_search_identifier url = Some g ->
  exists pre post, segment_before_query url pre g post.
Proof.
  induction url as [|c url IH]; simpl; [discriminate|].
  assert (re_search_identifier url = Some g ->
          exists pre post, segment_before_query (String c url) pre g post) as Hrec.
  { intros H. destruct (IH H) as (pre & post & -> & Hne & Hg).
    exists (String c pre), post. repeat split; auto. }
  destruct (Ascii.eqb_spec c "/"%char) as [->|Hc]; [|exact Hrec].
  destruct (match_group url) as [g'|] eqn:Em; [|exact Hrec].
  intros E. inversion E; subst.
  destruct (match_group_sound _ _ Em) as (post & -> & Hne & Hg).
  exists EmptyString, post. repeat split; auto.
Qed.

(** Whenever the url has such a segment, [re.search] finds one. *)
Lemma re_search_identifier_complete (url pre g post : string) :
  segment_before_query url pre g post ->
  is_Some (re_search_identifier url).
Proof.
  intros (-> & Hne & Hg). induction pre as [|c pre IH]; simpl.
  - rewrite (match_group_complete g post Hne Hg). eauto.
  - destruct (Ascii.eqb c "/"%char); [|exact IH].
    destruct (match_group _); [eauto|exact IH].
Qed.

Lemma re_search_identifier_None (url : string) :
  re_search_identifier url = None
  <-> forall pre g post, ~ segment_before_query url pre g post.
Proof.
  split.
  - intros E pre g post H.
    apply re_search_identifier_complete in H as [g' H]. congruence.
  - intros H. destruct (re_search_identifier url) as [g|] eqn:E; [|reflexivity].
    destruct (re_search_identifier_sound _ _ E) as (pre & post & Hs).
    destruct (H _ _ _ Hs).
Qed.

(** No match starts inside a text without a question mark that is followed
    by a slash. *)
Lemma match_group_before_slash (pre rest : string) :
  no_question_mark pre = true ->
  match_group (pre +:+ String "/"%char rest) = None.
Proof.
  intros Hq. unfold match_group.
  assert (exists run tail,
             span_class (pre +:+ String "/"%char rest) = (run, tail)
             /\ match tail with String "?"%char _ => False | _ => True end)
    as (run & tail & -> & Ht).
  { induction pre as [|c pre IH]; simpl in *.
    - eexists _, _. split; [reflexivity|exact I].
    - apply andb_true_iff in Hq as [Hc Hq].
      destruct (in_class c) eqn:Ec.
      + destruct (IH Hq) as (run & tail & -> & Ht). eauto.
      + eexists _, _. split; [reflexivity|].
        destruct c as [[] [] [] [] [] [] [] []]; try exact I. discriminate Hc. }
  destruct run; [reflexivity|].
  destruct tail as [|q tail]; [reflexivity|].
  destruct q as [[] [] [] [] [] [] [] []]; try reflexivity. contradiction.
Qed.

(** The leftmost match: with no question mark before the segment, the
    segment itself is found. *)
Lemma re_search_identifier_leftmost (pre g post : string) :
  no_question_mark pre = true ->
  g <> EmptyString -> all_class g = true ->
  re_search_identifier (pre +:+ String "/"%char (g +:+ String "?"%char post))
  = Some g.
Proof.
  intros Hq Hne Hg. induction pre as [|c pre IH]; simpl in *.
  - now rewrite (match_group_complete g post Hne Hg).
  - apply andb_true_iff in Hq as [_ Hq].
    destruct (Ascii.eqb c "/"%char); [|auto].
    rewrite (match_group_before_slash pre _ Hq). auto.
Qed.

(** ** Geoportal url resolution *)

(** C4, as the code has it. When the pattern finds a path segment followed
    by a question mark, the result is the geoportal base followed by that
    segment; a url that reads [pre/ident?post] with no question mark in
    [pre] yields the base followed by [ident]. When the url has no such
    segment and contains [/wfs/], it is returned unchanged. When it has no
    such segment and does not contain [/wfs/], the function prints a
    diagnostic and returns [None]; it raises nothing. *)
Theorem url_to_geoportal_url_cases (url : string) (w : world) :
  (forall ident,
     re_search_identifier url = Some ident ->
     (exists pre post, segment_before_query url pre ident post)
     /\ url_to_geoportal_url url w
        = (Return (Some (geoportal_base +:+ ident)), w))
  /\ (forall pre ident post,
        segment_before_query url pre ident post ->
        no_question_mark pre = true ->
        url_to_geoportal_url url w
        = (Return (Some (geoportal_base +:+ ident)), w))
  /\ ((forall pre ident post, ~ segment_before_query url pre ident post) ->
      contains "/wfs/" url = true ->
      url_to_geoportal_url url w = (Return (Some url), w))
  /\ ((forall pre ident post, ~ segment_before_query url pre ident post) ->
      contains "/wfs/" url = false ->
      url_to_geoportal_url url w
      = (Return None, w ++ [Print extraction_diagnostic])).
Proof.
  assert (forall ident, re_search_identifier url = Some ident ->
          url_to_geoportal_url url w
          = (Return (Some (geoportal_base +:+ ident)), w)) as Hfound.
  { intros ident E. unfold url_to_geoportal_url, identifier_from_url.
    now rewrite E. }
  assert ((forall pre ident post, ~ segment_before_query url pre ident post) ->
          url_to_geoportal_url url w
          = if contains "/wfs/" url then (Return (Some url), w)
            else (Return None, w ++ [Print extraction_diagnostic])) as Hnone.
  { intros H. apply re_search_identifier_None in H.
    unfold url_to_geoportal_url, identifier_from_url. rewrite H.
    destruct (contains "/wfs/" url); reflexivity. }
  split; [|split; [|split]].
  - intros ident E. split; [now apply re_search_identifier_sound|auto].
  - intros pre ident post (-> & Hne & Hg) Hq.
    apply Hfound. now apply re_search_identifier_leftmost.
  - intros H Hw. rewrite (Hnone H), Hw. reflexivity.
  - intros H Hw. rewrite (Hnone H), Hw. reflexivity.
Qed.

Lemma url_to_geoportal_url_cases_witness :
  url_to_geoportal_url "https://www.stadt-zuerich.ch/geodaten/abc123?other=param" []
  = (Return (Some "https://www.ogd.stadt-zuerich.ch/wfs/geoportal/abc123"), [])
  /\ url_to_geoportal_url "https://www.ogd.stadt-zuerich.ch/wfs/geoportal/abc123" []
     = (Return (Some "https://www.ogd.stadt-zuerich.ch/wfs/geoportal/abc123"), [])
  /\ url_to_geoportal_url "https://data.stadt-zuerich.ch/dataset/abc123" []
     = (Return None, [Print extraction_diagnostic]).
Proof.
  split; [|split].
  - apply (proj1 (proj2 (url_to_geoportal_url_cases
             "https://www.stadt-zuerich.ch/geodaten/abc123?other=param" []))
             "https://www.stadt-zuerich.ch/geodaten" "abc123" "other=param").
    + repeat split. discriminate.
    + reflexivity.
  - apply (proj1 (proj2 (proj2 (url_to_geoportal_url_cases
             "https://www.ogd.stadt-zuerich.ch/wfs/geoportal/abc123" [])))).
    + apply re_search_identifier_None. reflexivity.
    + reflexivity.
  - apply (proj2 (proj2 (proj2 (url_to_geoportal_url_cases
             "https://data.stadt-zuerich.ch/dataset/abc123" [])))).
    + apply re_search_identifier_None. reflexivity.
    + reflexivity.
Defined.

(** C4, refuted as stated: for a url without an identifier and without
    [/wfs/] the function returns [None] after a diagnostic and raises no
    exception. *)
Lemma url_to_geoportal_url_returns_None :
  url_to_geoportal_url "https://data.stadt-zuerich.ch/dataset/abc123" []
  = (Return None, [Print extraction_diagnostic])
  /\ ~ raises (url_to_geoportal_url
                 "https://data.stadt-zuerich.ch/dataset/abc123" []).1.
Proof.
  split; [reflexivity|]. intros [e H]. discriminate H.
Qed.

(** ** The tabular payload *)

(** C3. For a url with the [csv] extension whose comma-separated reading
    has at most one column, [get_dataset] reads the url again with the
    semicolon as separator. When that reading has more than one column it is
    returned and nothing is printed; when it has at most one column the
    diagnostic is printed after both readings and that reading is returned
    as it is. *)
Theorem get_dataset_semicolon_retry
  (read_csv : string -> sep -> DataFrame) (read_parquet : string -> DataFrame)
  (url : string) (w : world) :
  rsplit_dot_last url = "csv" ->
  shape1 (read_csv url Comma) <= 1 ->
  (1 < shape1 (read_csv url Semicolon) ->
   get_dataset read_csv read_parquet url w
   = (Return (Some (read_csv url Semicolon)),
      w ++ [Read_csv url Comma; Read_csv url Semicolon]))
  /\ (shape1 (read_csv url Semicolon) <= 1 ->
      get_dataset read_csv read_parquet url w
      = (Return (Some (read_csv url Semicolon)),
         w ++ [Read_csv url Comma; Read_csv url Semicolon;
               Print separator_diagnostic])).
Proof.
  intros Hext Hcomma. unfold get_dataset. rewrite Hext.
  destruct (decide ("csv" = "parquet")) as [E|_]; [discriminate E|].
  destruct (decide ("csv" = "csv")) as [_|E]; [|contradiction].
  run_M.
  apply Nat.leb_le in Hcomma. rewrite Hcomma. simpl.
  split; intros Hsemi.
  - apply Nat.leb_gt in Hsemi. rewrite Hsemi. simpl.
    now rewrite <- app_assoc.
  - apply Nat.leb_le in Hsemi. rewrite Hsemi. simpl.
    now rewrite <- !app_assoc.
Qed.

Lemma get_dataset_semicolon_retry_witness :
  let read_csv := header_reader "a;b;c
1;2;3
" in
  let url := "https://data.stadt-zuerich.ch/dataset/a/download/a.csv" in
  shape1 (read_csv url Comma) = 1
  /\ shape1 (read_csv url Semicolon) = 3
  /\ get_dataset read_csv (fun _ => mkDataFrame ∅ []) url []
     = (Return (Some (read_csv url Semicolon)),
        [Read_csv url Comma; Read_csv url Semicolon]).
Proof.
  intros read_csv url.
  split; [reflexivity|]. split; [reflexivity|].
  apply (proj1 (get_dataset_semicolon_retry read_csv
                  (fun _ => mkDataFrame ∅ []) url [] eq_refl
                  ltac:(vm_compute; lia))).
  vm_compute. lia.
Defined.

(** ** Fetching one dataset *)

Section Get_package.

Variable package_show : string -> show_response.

Lemma get_package_without_identifier (w : world) :
  get_package package_show None None w
  = (Return None, w ++ [Print "Please provide either an id or a name."]).
Proof. reflexivity. Qed.

(** With an identifier, [get_package] is one request and the reading of
    its response. *)
Lemma get_package_with_identifier (id name : option string) (ident : string)
  (w : world) :
  chosen_identifier id name = Some ident ->
  get_package package_show id name w
  = (emit (Get_package_show ident);;
     if negb (success (package_show ident)) then
       print (default "No error message provided."
                (show_error (package_show ident)));;
       mret None
     else
       match result (package_show ident) with
       | Some r => mret (Some (OpenDataPackage_init r))
       | None => throw (KeyError "result")
       end) w.
Proof.
  intros Hc. destruct id, name; simpl in Hc; inversion Hc; subst; reflexivity.
Qed.

Lemma get_package_failure (id name : option string) (ident : string)
  (w : world) :
  chosen_identifier id name = Some ident ->
  success (package_show ident) = false ->
  get_package package_show id name w
  = (Return None,
     w ++ [Get_package_show ident;
           Print (default "No error message provided."
                    (show_error (package_show ident)))]).
Proof.
  intros Hc Hs. rewrite (get_package_with_identifier _ _ _ _ Hc).
  run_M. rewrite Hs. simpl. now rewrite <- app_assoc.
Qed.

Lemma get_package_wrapper (id name : option string) (pkg : OpenDataPackage)
  (w w' : world) :
  get_package package_show id name w = (Return (Some pkg), w') ->
  exists ident md,
    chosen_identifier id name = Some ident
    /\ success (package_show ident) = true
    /\ result (package_show ident) = Some md
    /\ pkg = OpenDataPackage_init md.
Proof.
  intros H. destruct (chosen_identifier id name) as [ident|] eqn:Hc.
  - exists ident. rewrite (get_package_with_identifier _ _ _ _ Hc) in H.
    revert H. run_M.
    destruct (success (package_show ident)); simpl; [|discriminate].
    destruct (result (package_show ident)) as [md|] eqn:Er; intros H;
      inversion H; subst.
    exists md. auto.
  - destruct id, name; discriminate.
Qed.

End Get_package.

(** C6, as the code has it. Without an id and a name, [get_package] sends
    no request, prints a message and returns [None]. When the show endpoint
    reports failure, it prints the error of the response, or a default
    message, and returns [None]. It raises in neither case, and it returns a
    wrapper only when the endpoint reports success. *)
Theorem get_package_cases (package_show : string -> show_response)
  (id name : option string) (w : world) :
  (chosen_identifier id name = None ->
   get_package package_show id name w
   = (Return None, w ++ [Print "Please provide either an id or a name."]))
  /\ (forall ident,
        chosen_identifier id name = Some ident ->
        success (package_show ident) = false ->
        get_package package_show id name w
        = (Return None,
           w ++ [Get_package_show ident;
                 Print (default "No error message provided."
                          (show_error (package_show ident)))]))
  /\ (forall pkg w',
        get_package package_show id name w = (Return (Some pkg), w') ->
        exists ident md,
          chosen_identifier id name = Some ident
          /\ success (package_show ident) = true
          /\ result (package_show ident) = Some md
          /\ pkg = OpenDataPackage_init md).
Proof.
  split; [|split].
  - destruct id, name; try discriminate. intros _.
    apply get_package_without_identifier.
  - intros ident. apply get_package_failure.
  - intros pkg w'. apply get_package_wrapper.
Qed.

Lemma get_package_cases_witness :
  get_package (show_remote [pkg_a]) None None []
  = (Return None, [Print "Please provide either an id or a name."])
  /\ get_package (show_remote [pkg_a]) (Some "zz") None []
     = (Return None,
        [Get_package_show "zz";
         Print "{'__type': 'Not Found Error', 'message': 'Not found'}"]).
Proof.
  split.
  - apply (proj1 (get_package_cases (show_remote [pkg_a]) None None [])).
    reflexivity.
  - apply (proj1 (proj2 (get_package_cases (show_remote [pkg_a])
                           (Some "zz") None [])) "zz"); reflexivity.
Defined.

(** C6, refuted as stated: on a failure report, and without any
    identifier, [get_package] returns [None] and raises no exception. *)
Lemma get_package_returns_None :
  (get_package (show_remote [pkg_a]) (Some "zz") None []).1 = Return None
  /\ ~ raises (get_package (show_remote [pkg_a]) (Some "zz") None []).1
  /\ (get_package (show_remote [pkg_a]) None None []).1 = Return None
  /\ ~ raises (get_package (show_remote [pkg_a]) None None []).1.
Proof.
  repeat split; try reflexivity; intros [e H]; discriminate H.
Qed.

(** ** The dataset wrapper *)

Lemma OpenDataPackage_init_coherent (md : package) :
  caches_coherent (OpenDataPackage_init md).
Proof. repeat split; intros df H; discriminate H. Qed.

Lemma resource_metadata_df_run (self : OpenDataPackage) :
  caches_coherent self ->
  exists self',
    resource_metadata_df self = (resource_table_of (metadata self), self')
    /\ caches_coherent self' /\ metadata self' = metadata self.
Proof.
  intros Hc. unfold resource_metadata_df. run_M.
  destruct (_resource_metadata_df self) as [df|] eqn:E.
  - exists self. rewrite (proj1 Hc df E). auto.
  - unfold resource_table_of.
    destruct (pkg_resources (metadata self)) as [|l] eqn:El.
    + exists self. auto.
    + eexists. split; [reflexivity|]. split; [|reflexivity].
      destruct Hc as (Hr & Ht & Hg).
      repeat split; simpl; auto.
      intros df H. inversion H. unfold resource_table_of.
      now rewrite El.
Qed.

Lemma resources_with_format_run (formats : list value) (self : OpenDataPackage) :
  caches_coherent self ->
  exists self',
    resources_with_format formats self = (view_of formats (metadata self), self')
    /\ caches_coherent self' /\ metadata self' = metadata self
    /\ _tabular_resource_metadata_df self' = _tabular_resource_metadata_df self
    /\ _geo_resource_metadata_df self' = _geo_resource_metadata_df self.
Proof.
  intros Hc. unfold resources_with_format, view_of.
  destruct (resource_metadata_df_run self Hc) as (s1 & E1 & Hc1 & Hm1).
  assert (_tabular_resource_metadata_df s1 = _tabular_resource_metadata_df self
          /\ _geo_resource_metadata_df s1 = _geo_resource_metadata_df self)
    as [Ht1 Hg1].
  { revert E1. unfold resource_metadata_df. run_M.
    destruct (_resource_metadata_df self);
      [|destruct (pkg_resources (metadata self))];
      intros E; inversion E; subst; auto. }
  destruct (resource_metadata_df_run s1 Hc1) as (s2 & E2 & Hc2 & Hm2).
  assert (_tabular_resource_metadata_df s2 = _tabular_resource_metadata_df s1
          /\ _geo_resource_metadata_df s2 = _geo_resource_metadata_df s1)
    as [Ht2 Hg2].
  { revert E2. unfold resource_metadata_df. run_M.
    destruct (_resource_metadata_df s1);
      [|destruct (pkg_resources (metadata s1))];
      intros E; inversion E; subst; auto. }
  rewrite Hm1 in E2.
  unfold mbind, M_bind, bind. rewrite E1.
  destruct (resource_table_of (metadata self)) as [df|e]; cbn [obind].
  - rewrite E2. unfold lift, mret, M_ret, ret.
    exists s2. split; [destruct (getitem df "format"); reflexivity|].
    repeat split; try apply Hc2; congruence.
  - exists s1. repeat split; try apply Hc1; congruence.
Qed.

Lemma tabular_resource_metadata_df_run (self : OpenDataPackage) :
  caches_coherent self ->
  exists self',
    tabular_resource_metadata_df self
    = (view_of [VStr "CSV"; VStr "parquet"] (metadata self), self')
    /\ caches_coherent self' /\ metadata self' = metadata self.
Proof.
  intros Hc. unfold tabular_resource_metadata_df.
  unfold mbind, M_bind, bind, get_self at 1.
  destruct (_tabular_resource_metadata_df self) as [df|] eqn:E.
  - exists self. rewrite (proj1 (proj2 Hc) df E). auto.
  - destruct (resources_with_format_run [VStr "CSV"; VStr "parquet"] self Hc)
      as (s1 & E1 & Hc1 & Hm1 & Ht1 & Hg1).
    rewrite E1.
    destruct (view_of [VStr "CSV"; VStr "parquet"] (metadata self)) as [df|e] eqn:Ev.
    + eexists. split; [reflexivity|]. split; [|exact Hm1].
      destruct Hc1 as (Hr & Ht & Hg).
      repeat split; simpl; auto.
      intros df' H. inversion H; subst. congruence.
    + exists s1. auto.
Qed.

Lemma geo_resource_metadata_df_run (self : OpenDataPackage) :
  caches_coherent self ->
  exists self',
    geo_resource_metadata_df self
    = (view_of [VStr "WFS"; VStr "JSON"] (metadata self), self')
    /\ caches_coherent self' /\ metadata self' = metadata self.
Proof.
  intros Hc. unfold geo_resource_metadata_df.
  unfold mbind, M_bind, bind, get_self at 1.
  destruct (_geo_resource_metadata_df self) as [df|] eqn:E.
  - exists self. rewrite (proj2 (proj2 Hc) df E). auto.
  - destruct (resources_with_format_run [VStr "WFS"; VStr "JSON"] self Hc)
      as (s1 & E1 & Hc1 & Hm1 & Ht1 & Hg1).
    rewrite E1.
    destruct (view_of [VStr "WFS"; VStr "JSON"] (metadata self)) as [df|e] eqn:Ev.
    + eexists. split; [reflexivity|]. split; [|exact Hm1].
      destruct Hc1 as (Hr & Ht & Hg).
      repeat split; simpl; auto.
      intros df' H. inversion H; subst. congruence.
    + exists s1. auto.
Qed.

(** ** Looking a resource up by its id *)

Lemma select_rows_subset (rs : list resource) (mask : list bool) (r : resource) :
  r ∈ select_rows rs mask -> r ∈ rs.
Proof.
  revert mask. induction rs as [|x rs IH]; intros [|b mask]; simpl;
    try (intros H; now apply not_elem_of_nil in H).
  destruct b.
  - intros H. apply elem_of_cons in H as [->|H]; [left|right; eauto].
  - intros H. right. eauto.
Qed.

Lemma select_rows_series_eq (rs : list resource) (v : value) :
  select_rows rs (series_eq ((fun r : resource => r !! "id") <$> rs) v)
  = filter (fun r : resource => id_equals v r) rs.
Proof.
  induction rs as [|x rs IH]; [reflexivity|].
  cbn [fmap list_fmap series_eq select_rows]. rewrite filter_cons.
  unfold series_eq in IH. rewrite IH.
  fold (id_equals v x).
  destruct (id_equals v x); destruct (decide _) as [H|H];
    try reflexivity; try contradiction.
  exfalso. apply H. exact I.
Qed.

Lemma is_not_None_by_id (ident : value) :
  by_id ident -> is_not_None (Some ident) = Some ident.
Proof. destruct ident; [contradiction|reflexivity..]. Qed.

Lemma DataFrame_of_records_keys (l : list resource) :
  keys_are_columns (DataFrame_of_records l).
Proof.
  intros r Hr k Hk. simpl in *.
  apply elem_of_union_list. exists (dom r). split.
  - apply list_elem_of_fmap. eauto.
  - now apply elem_of_dom.
Qed.

Lemma view_of_keys (formats : list value) (md : package) (df : DataFrame) :
  view_of formats md = Return df -> keys_are_columns df.
Proof.
  unfold view_of, resource_table_of.
  destruct (pkg_resources md) as [|l]; [discriminate|]. cbn [obind].
  destruct (getitem (DataFrame_of_records l) "format") as [col|e];
    [|discriminate].
  cbn [obind]. intros E. inversion E; subst.
  intros r Hr k Hk. simpl in *.
  apply (DataFrame_of_records_keys l r); [|exact Hk].
  eapply select_rows_subset, Hr.
Qed.

Lemma first_with_id_found (ident : value) (df : DataFrame) (r : resource)
  (rest : list resource) :
  keys_are_columns df ->
  rows_with_id ident df = r :: rest ->
  first_with_id ident df = Return r.
Proof.
  intros Hk Hr. unfold first_with_id, getitem.
  assert ("id" ∈ columns df) as Hc.
  { assert (r ∈ rows_with_id ident df) as Hin by (rewrite Hr; left).
    apply list_elem_of_filter in Hin as [Hid Hin].
    apply (Hk r Hin). unfold id_equals in Hid.
    destruct (r !! "id"); [eauto|contradiction]. }
  rewrite bool_decide_eq_true_2 by exact Hc. cbn [obind].
  unfold iloc, boolean_index. cbn [rows].
  rewrite select_rows_series_eq. fold (rows_with_id ident df). rewrite Hr.
  reflexivity.
Qed.

Lemma first_with_id_absent (ident : value) (df : DataFrame) :
  rows_with_id ident df = [] ->
  exists e, first_with_id ident df = Raise e /\ is_LookupError e = true.
Proof.
  intros Hr. unfold first_with_id, getitem.
  destruct (bool_decide ("id" ∈ columns df)); cbn [obind].
  - exists IndexError. split; [|reflexivity].
    unfold iloc, boolean_index. cbn [rows].
    rewrite select_rows_series_eq. fold (rows_with_id ident df). rewrite Hr.
    reflexivity.
  - exists (KeyError "id"). split; reflexivity.
Qed.

Lemma find_by_id_run (view : M OpenDataPackage DataFrame)
  (formats : list value) (ident : value) (self : OpenDataPackage) :
  (forall s, caches_coherent s ->
     exists s', view s = (view_of formats (metadata s), s')
                /\ caches_coherent s' /\ metadata s' = metadata s) ->
  caches_coherent self ->
  (find_by_id view ident self).1
  = obind (view_of formats (metadata self)) (first_with_id ident).
Proof.
  intros Hview Hc. unfold find_by_id, mbind, M_bind, bind.
  destruct (Hview self Hc) as (s1 & E1 & Hc1 & Hm1). rewrite E1.
  destruct (view_of formats (metadata self)) as [df|e] eqn:Ev; [|reflexivity].
  destruct (Hview s1 Hc1) as (s2 & E2 & Hc2 & Hm2). rewrite E2, Hm1, Ev.
  cbn [obind]. unfold first_with_id, lift.
  destruct (getitem df "id") as [col|e]; reflexivity.
Qed.

(** The lookups keep the memos coherent. *)
Lemma find_by_id_coherent (view : M OpenDataPackage DataFrame)
  (formats : list value) (ident : value) (self : OpenDataPackage) :
  (forall s, caches_coherent s ->
     exists s', view s = (view_of formats (metadata s), s')
                /\ caches_coherent s' /\ metadata s' = metadata s) ->
  caches_coherent self ->
  caches_coherent (find_by_id view ident self).2
  /\ metadata (find_by_id view ident self).2 = metadata self.
Proof.
  intros Hview Hc. unfold find_by_id, mbind, M_bind, bind.
  destruct (Hview self Hc) as (s1 & E1 & Hc1 & Hm1). rewrite E1.
  destruct (view_of formats (metadata self)) as [df|e] eqn:Ev; [|auto].
  destruct (Hview s1 Hc1) as (s2 & E2 & Hc2 & Hm2). rewrite E2, Hm1, Ev.
  unfold lift. destruct (getitem df "id") as [col|e]; cbn [snd];
    split; congruence.
Qed.

Lemma tabular_resource_coherent (index : Z) (id : option value)
  (self : OpenDataPackage) :
  caches_coherent self ->
  caches_coherent (tabular_resource index id self).2
  /\ metadata (tabular_resource index id self).2 = metadata self.
Proof.
  intros Hc. unfold tabular_resource, mbind, M_bind, bind.
  destruct (is_not_None id) as [ident|].
  - pose proof (find_by_id_coherent tabular_resource_metadata_df
                  [VStr "CSV"; VStr "parquet"] ident self
                  tabular_resource_metadata_df_run Hc) as H.
    destruct (find_by_id tabular_resource_metadata_df ident self) as [[md|e] s'];
      exact H.
  - destruct (tabular_resource_metadata_df_run self Hc) as (s1 & E1 & Hc1 & Hm1).
    rewrite E1.
    destruct (view_of [VStr "CSV"; VStr "parquet"] (metadata self)) as [df|e];
      [|auto].
    unfold lift. destruct (iloc df index); auto.
Qed.

Lemma geo_resource_coherent (index : Z) (id : option value)
  (self : OpenDataPackage) :
  caches_coherent self ->
  caches_coherent (geo_resource index id self).2
  /\ metadata (geo_resource index id self).2 = metadata self.
Proof.
  intros Hc. unfold geo_resource, mbind, M_bind, bind.
  destruct (is_not_None id) as [ident|].
  - pose proof (find_by_id_coherent geo_resource_metadata_df
                  [VStr "WFS"; VStr "JSON"] ident self
                  geo_resource_metadata_df_run Hc) as H.
    destruct (find_by_id geo_resource_metadata_df ident self) as [[md|e] s'];
      exact H.
  - destruct (geo_resource_metadata_df_run self Hc) as (s1 & E1 & Hc1 & Hm1).
    rewrite E1.
    destruct (view_of [VStr "WFS"; VStr "JSON"] (metadata self)) as [df|e];
      [|auto].
    unfold lift. destruct (iloc df index); auto.
Qed.

Lemma tabular_resource_by_id_run (self : OpenDataPackage) (index : Z)
  (ident : value) :
  caches_coherent self ->
  by_id ident ->
  (tabular_resource index (Some ident) self).1
  = obind (obind (view_of [VStr "CSV"; VStr "parquet"] (metadata self))
             (first_with_id ident))
      (fun md => Return (mkOpenDataTabularResource index md)).
Proof.
  intros Hc Hi.
  pose proof (find_by_id_run tabular_resource_metadata_df
                [VStr "CSV"; VStr "parquet"] ident self
                tabular_resource_metadata_df_run Hc) as Hfind.
  unfold tabular_resource, mbind, M_bind, bind.
  rewrite (is_not_None_by_id ident Hi).
  destruct (find_by_id tabular_resource_metadata_df ident self) as [o s'].
  cbn [fst] in Hfind. rewrite <- Hfind. destruct o; reflexivity.
Qed.

Lemma geo_resource_by_id_run (self : OpenDataPackage) (index : Z)
  (ident : value) :
  caches_coherent self ->
  by_id ident ->
  (geo_resource index (Some ident) self).1
  = obind (obind (view_of [VStr "WFS"; VStr "JSON"] (metadata self))
             (first_with_id ident))
      (fun md => Return (mkOpenDataGeoResource index md)).
Proof.
  intros Hc Hi.
  pose proof (find_by_id_run geo_resource_metadata_df
                [VStr "WFS"; VStr "JSON"] ident self
                geo_resource_metadata_df_run Hc) as Hfind.
  unfold geo_resource, mbind, M_bind, bind.
  rewrite (is_not_None_by_id ident Hi).
  destruct (find_by_id geo_resource_metadata_df ident self) as [o s'].
  cbn [fst] in Hfind. rewrite <- Hfind. destruct o; reflexivity.
Qed.

(** A view that cannot be computed fails with a [KeyError]. *)
Lemma view_of_raises (formats : list value) (md : package) (e : exn) :
  view_of formats md = Raise e -> is_LookupError e = true.
Proof.
  unfold view_of, resource_table_of.
  destruct (pkg_resources md) as [|l]; cbn [obind].
  - intros E. inversion E. reflexivity.
  - unfold getitem. destruct (bool_decide _); cbn [obind]; intros E;
      inversion E. reflexivity.
Qed.

(** The outcome of a lookup in a view, from the view. *)
Lemma lookup_in_view {A} (mk : resource -> A) (formats : list value)
  (md : package) (ident : value) :
  let got := obind (obind (view_of formats md) (first_with_id ident))
               (fun r => Return (mk r)) in
  (forall df r rest,
     view_of formats md = Return df ->
     rows_with_id ident df = r :: rest ->
     got = Return (mk r))
  /\ (forall df,
        view_of formats md = Return df ->
        rows_with_id ident df = [] ->
        exists e, got = Raise e /\ is_LookupError e = true)
  /\ (forall df,
        view_of formats md = Return df ->
        rows df = [] ->
        exists e, got = Raise e /\ is_LookupError e = true)
  /\ (forall e,
        view_of formats md = Raise e ->
        got = Raise e /\ is_LookupError e = true).
Proof.
  intros got.
  assert (forall df, view_of formats md = Return df ->
                     rows_with_id ident df = [] ->
                     exists e, got = Raise e /\ is_LookupError e = true) as Habs.
  { intros df Hdf Hr. destruct (first_with_id_absent ident df Hr) as (e & He & Hl).
    exists e. split; [|exact Hl]. unfold got. rewrite Hdf. cbn [obind].
    now rewrite He. }
  split; [|split; [exact Habs|split]].
  - intros df r rest Hdf Hr. unfold got. rewrite Hdf. cbn [obind].
    now rewrite (first_with_id_found ident df r rest (view_of_keys _ _ _ Hdf) Hr).
  - intros df Hdf Hrows. apply (Habs df Hdf). unfold rows_with_id.
    now rewrite Hrows.
  - intros e He. split; [|exact (view_of_raises _ _ _ He)].
    unfold got. now rewrite He.
Qed.

(** C5. On a wrapper whose memos are coherent, and for every identifier
    that is not [None]: when records of the tabular view have an id equal
    to it, as Python's [==] has it, [tabular_resource] returns the resource
    built from the first of them, which is the unique one when ids are
    unique; when no record of the view has an equal id, and so when the
    view is empty, it raises a [LookupError] ([IndexError], or [KeyError]
    when the table has no [id] column); when the view itself cannot be
    computed it raises the [KeyError] of the view. It never returns
    without a record. The same holds for [geo_resource] and the geo
    view. *)
Theorem resource_lookup_by_id (self : OpenDataPackage) (index : Z)
  (ident : value) :
  caches_coherent self ->
  by_id ident ->
  ((forall df r rest,
      (tabular_resource_metadata_df self).1 = Return df ->
      rows_with_id ident df = r :: rest ->
      (tabular_resource index (Some ident) self).1
      = Return (mkOpenDataTabularResource index r))
   /\ (forall df,
         (tabular_resource_metadata_df self).1 = Return df ->
         rows_with_id ident df = [] ->
         exists e, (tabular_resource index (Some ident) self).1 = Raise e
                   /\ is_LookupError e = true)
   /\ (forall df,
         (tabular_resource_metadata_df self).1 = Return df ->
         rows df = [] ->
         exists e, (tabular_resource index (Some ident) self).1 = Raise e
                   /\ is_LookupError e = true)
   /\ (forall e,
         (tabular_resource_metadata_df self).1 = Raise e ->
         (tabular_resource index (Some ident) self).1 = Raise e
         /\ is_LookupError e = true))
  /\ ((forall df r rest,
         (geo_resource_metadata_df self).1 = Return df ->
         rows_with_id ident df = r :: rest ->
         (geo_resource index (Some ident) self).1
         = Return (mkOpenDataGeoResource index r))
      /\ (forall df,
            (geo_resource_metadata_df self).1 = Return df ->
            rows_with_id ident df = [] ->
            exists e, (geo_resource index (Some ident) self).1 = Raise e
                      /\ is_LookupError e = true)
      /\ (forall df,
            (geo_resource_metadata_df self).1 = Return df ->
            rows df = [] ->
            exists e, (geo_resource index (Some ident) self).1 = Raise e
                      /\ is_LookupError e = true)
      /\ (forall e,
            (geo_resource_metadata_df self).1 = Raise e ->
            (geo_resource index (Some ident) self).1 = Raise e
            /\ is_LookupError e = true)).
Proof.
  intros Hc Hi. split.
  - destruct (tabular_resource_metadata_df_run self Hc) as (s1 & E1 & _ & _).
    rewrite E1, (tabular_resource_by_id_run self index ident Hc Hi). cbn [fst].
    apply (lookup_in_view (mkOpenDataTabularResource index)).
  - destruct (geo_resource_metadata_df_run self Hc) as (s1 & E1 & _ & _).
    rewrite E1, (geo_resource_by_id_run self index ident Hc Hi). cbn [fst].
    apply (lookup_in_view (mkOpenDataGeoResource index)).
Qed.

Lemma resource_lookup_by_id_witness :
  (tabular_resource 0 (Some (VStr "r1")) (OpenDataPackage_init pkg_a)).1
  = Return (mkOpenDataTabularResource 0 r_csv)
  /\ (exists e,
        (geo_resource 0 (Some (VStr "r1")) (OpenDataPackage_init pkg_a)).1
        = Raise e
        /\ is_LookupError e = true)
  /\ (tabular_resource 0 (Some (VNum 1)) (OpenDataPackage_init pkg_ids)).1
     = Return (mkOpenDataTabularResource 0 r_id_true).
Proof.
  destruct (resource_lookup_by_id (OpenDataPackage_init pkg_a) 0 (VStr "r1")
              (OpenDataPackage_init_coherent pkg_a) I) as [Ht Hg].
  destruct (resource_lookup_by_id (OpenDataPackage_init pkg_ids) 0 (VNum 1)
              (OpenDataPackage_init_coherent pkg_ids) eq_refl) as [Hi _].
  split; [|split].
  - apply (proj1 Ht _ r_csv [] eq_refl). vm_compute. reflexivity.
  - apply (proj1 (proj2 Hg) _ eq_refl). vm_compute. reflexivity.
  - apply (proj1 Hi _ r_id_true [r_id_one] eq_refl). vm_compute. reflexivity.
Defined.

(** ** The command [get_dataset_type.py] *)

Section Get_dataset_type.

Variable package_show : string -> show_response.

Lemma script_without_argument (prog : string) (w : world) :
  script package_show [prog] w
  = (Raise (SystemExit 1),
     w ++ [Print "Error: please provide a dataset id to inspect."]).
Proof. reflexivity. Qed.

(** A dataset that the remote does not find ends the command with an
    uncaught [AttributeError]. *)
Lemma script_not_found (prog dataset_id : string) (w : world) :
  success (package_show dataset_id) = false ->
  script package_show [prog; dataset_id] w
  = (Raise AttributeError,
     w ++ [Get_package_show dataset_id;
           Print (default "No error message provided."
                    (show_error (package_show dataset_id)))]).
Proof.
  intros Hs. unfold script. cbn [length Nat.ltb Nat.leb lookup list_lookup].
  unfold main, mbind, M_bind, bind.
  rewrite (get_package_failure package_show (Some dataset_id) None
             dataset_id w eq_refl Hs).
  reflexivity.
Qed.

(** A dataset that is found and whose two views can be computed: one of
    the three words is printed, with the exit code that goes with it. *)
Lemma script_found (prog dataset_id : string) (md : package)
  (geo tab : DataFrame) (w : world) :
  success (package_show dataset_id) = true ->
  result (package_show dataset_id) = Some md ->
  view_of [VStr "WFS"; VStr "JSON"] md = Return geo ->
  view_of [VStr "CSV"; VStr "parquet"] md = Return tab ->
  script package_show [prog; dataset_id] w
  = (Raise (SystemExit (dataset_type geo tab).2),
     w ++ [Get_package_show dataset_id; Print (dataset_type geo tab).1]).
Proof.
  intros Hs Hr Hg Ht. unfold script. cbn [length Nat.ltb Nat.leb lookup list_lookup].
  unfold main, mbind, M_bind, bind.
  assert (get_package package_show (Some dataset_id) None w
          = (Return (Some (OpenDataPackage_init md)),
             w ++ [Get_package_show dataset_id])) as ->.
  { unfold get_package. run_M. now rewrite Hs, Hr. }
  unfold with_object, in_obj, in_io.
  destruct (geo_resource_metadata_df_run (OpenDataPackage_init md)
              (OpenDataPackage_init_coherent md)) as (s1 & E1 & Hc1 & Hm1).
  rewrite E1. cbn [metadata OpenDataPackage_init] in *. rewrite Hg.
  destruct (tabular_resource_metadata_df_run s1 Hc1) as (s2 & E2 & _ & _).
  rewrite Hm1, Ht in E2.
  unfold dataset_type.
  destruct (0 <? len geo)%nat; run_M; [now rewrite <- app_assoc|].
  rewrite E2.
  destruct (0 <? len tab)%nat; run_M; now rewrite <- app_assoc.
Qed.

End Get_dataset_type.

(** C9, at the failing inputs. For a dataset that the remote does not find,
    the command writes the error of the response to standard output, none
    of the three words, and ends with an uncaught [AttributeError], exit
    status 1. For a dataset with an empty resource list it writes nothing
    and ends with an uncaught [KeyError]. *)
Theorem get_dataset_type_uncaught_errors :
  script (show_remote [pkg_a]) ["get_dataset_type.py"; "zz"] []
  = (Raise AttributeError,
     [Get_package_show "zz";
      Print "{'__type': 'Not Found Error', 'message': 'Not found'}"])
  /\ stdout (script (show_remote [pkg_a]) ["get_dataset_type.py"; "zz"] []).2
     = ["{'__type': 'Not Found Error', 'message': 'Not found'}"]
  /\ exit_status (script (show_remote [pkg_a]) ["get_dataset_type.py"; "zz"] []).1
     = 1%Z
  /\ script (show_remote [pkg_empty]) ["get_dataset_type.py"; "c"] []
     = (Raise (KeyError "format"), [Get_package_show "c"])
  /\ stdout (script (show_remote [pkg_empty]) ["get_dataset_type.py"; "c"] []).2
     = [].
Proof. repeat split; vm_compute; reflexivity. Qed.

(** * Further properties *)

(** ** The extension of a url and the dispatch of [get_dataset] *)

Lemma last_segment_spec (s : string) :
  forall cur,
    (no_dot s = true -> last_segment cur s = cur)
    /\ (no_dot s = false ->
        no_dot (last_segment cur s) = true
        /\ last_segment cur s = last_segment s s).
Proof.
  induction s as [|c s IH]; intros cur; cbn [no_dot last_segment].
  - split; [reflexivity|discriminate].
  - destruct (Ascii.eqb c "."%char) eqn:Ec; cbn [negb andb].
    + split; [discriminate|]. intros _. split; [|reflexivity].
      destruct (no_dot s) eqn:Es.
      * now rewrite (proj1 (IH s) eq_refl).
      * apply (proj2 (IH s) eq_refl).
    + split; [apply IH|].
      intros Es. destruct (proj2 (IH cur) Es) as [H1 H2].
      split; [exact H1|]. rewrite H2. symmetry.
      apply (proj2 (IH (String c s)) Es).
Qed.

Lemma rsplit_dot_last_no_dot (url : string) :
  no_dot url = true -> rsplit_dot_last url = url.
Proof. intros H. apply (proj1 (last_segment_spec url url) H). Qed.

Lemma rsplit_dot_last_suffix (pre ext : string) :
  no_dot ext = true -> rsplit_dot_last (pre +:+ String "."%char ext) = ext.
Proof.
  intros He. unfold rsplit_dot_last.
  generalize (pre +:+ String "."%char ext) at 1. intros cur. revert cur.
  induction pre as [|c pre IH]; intros cur; simpl.
  - apply (proj1 (last_segment_spec ext ext) He).
  - destruct (Ascii.eqb c "."%char); apply IH.
Qed.

Section Get_dataset.

Variable read_csv : string -> sep -> DataFrame.
Variable read_parquet : string -> DataFrame.

Lemma get_dataset_other (url : string) (w : world) :
  rsplit_dot_last url <> "csv" -> rsplit_dot_last url <> "parquet" ->
  get_dataset read_csv read_parquet url w
  = (Return None, w ++ [Print extension_diagnostic]).
Proof.
  intros Hc Hp. unfold get_dataset.
  destruct (decide (rsplit_dot_last url = "parquet")); [contradiction|].
  destruct (decide (rsplit_dot_last url = "csv")); [contradiction|].
  reflexivity.
Qed.

Lemma get_dataset_parquet (url : string) (w : world) :
  rsplit_dot_last url = "parquet" ->
  get_dataset read_csv read_parquet url w
  = (Return (Some (read_parquet url)), w ++ [Read_parquet url]).
Proof.
  intros Hp. unfold get_dataset. rewrite Hp.
  destruct (decide ("parquet" = "parquet")); [reflexivity|contradiction].
Qed.

Lemma get_dataset_comma (url : string) (w : world) :
  rsplit_dot_last url = "csv" ->
  1 < shape1 (read_csv url Comma) ->
  get_dataset read_csv read_parquet url w
  = (Return (Some (read_csv url Comma)), w ++ [Read_csv url Comma]).
Proof.
  intros Hc Hn. unfold get_dataset. rewrite Hc.
  destruct (decide ("csv" = "parquet")) as [E|_]; [discriminate E|].
  destruct (decide ("csv" = "csv")) as [_|E]; [|contradiction].
  run_M. apply Nat.leb_gt in Hn. now rewrite Hn.
Qed.

End Get_dataset.

(** X1. [get_dataset] decides by the text after the last dot of the url,
    compared exactly. A url [pre.ext] whose [ext] is neither [csv] nor
    [parquet], and a url without a dot that is neither of the two words,
    is not downloaded: one diagnostic is printed and [None] is returned. *)
Theorem get_dataset_unsupported_extension
  (read_csv : string -> sep -> DataFrame) (read_parquet : string -> DataFrame)
  (w : world) :
  (forall pre ext,
     no_dot ext = true -> ext <> "csv" -> ext <> "parquet" ->
     get_dataset read_csv read_parquet (pre +:+ String "."%char ext) w
     = (Return None, w ++ [Print extension_diagnostic]))
  /\ (forall url,
        no_dot url = true -> url <> "csv" -> url <> "parquet" ->
        get_dataset read_csv read_parquet url w
        = (Return None, w ++ [Print extension_diagnostic])).
Proof.
  split.
  - intros pre ext He Hc Hp. apply get_dataset_other;
      now rewrite (rsplit_dot_last_suffix pre ext He).
  - intros url Hu Hc Hp. apply get_dataset_other;
      now rewrite (rsplit_dot_last_no_dot url Hu).
Qed.

Lemma get_dataset_unsupported_extension_witness :
  get_dataset (header_reader "a,b") (fun _ => mkDataFrame ∅ [])
    "https://data.stadt-zuerich.ch/dataset/a/download/a.csv?download=1" []
  = (Return None, [Print extension_diagnostic])
  /\ get_dataset (header_reader "a,b") (fun _ => mkDataFrame ∅ [])
       "https://data.stadt-zuerich.ch/dataset/a/download/a.CSV" []
     = (Return None, [Print extension_diagnostic]).
Proof.
  split.
  - apply (proj1 (get_dataset_unsupported_extension (header_reader "a,b")
                    (fun _ => mkDataFrame ∅ []) [])
             "https://data.stadt-zuerich.ch/dataset/a/download/a"
             "csv?download=1"); [reflexivity|discriminate|discriminate].
  - apply (proj1 (get_dataset_unsupported_extension (header_reader "a,b")
                    (fun _ => mkDataFrame ∅ []) [])
             "https://data.stadt-zuerich.ch/dataset/a/download/a"
             "CSV"); [reflexivity|discriminate|discriminate].
Defined.

(** X2. A url that ends in [.parquet] is read once with [read_parquet]; a
    url that ends in [.csv] whose comma-separated reading has at least two
    columns is read once, with the comma. In both cases the table read is
    returned and nothing is printed. *)
Theorem get_dataset_single_read
  (read_csv : string -> sep -> DataFrame) (read_parquet : string -> DataFrame)
  (pre : string) (w : world) :
  get_dataset read_csv read_parquet (pre +:+ ".parquet") w
  = (Return (Some (read_parquet (pre +:+ ".parquet"))),
     w ++ [Read_parquet (pre +:+ ".parquet")])
  /\ (1 < shape1 (read_csv (pre +:+ ".csv") Comma) ->
      get_dataset read_csv read_parquet (pre +:+ ".csv") w
      = (Return (Some (read_csv (pre +:+ ".csv") Comma)),
         w ++ [Read_csv (pre +:+ ".csv") Comma])).
Proof.
  split.
  - apply get_dataset_parquet. now apply (rsplit_dot_last_suffix pre "parquet").
  - intros Hn. apply get_dataset_comma; [|exact Hn].
    now apply (rsplit_dot_last_suffix pre "csv").
Qed.

Lemma get_dataset_single_read_witness :
  get_dataset (header_reader "a,b,c") (fun _ => mkDataFrame ∅ [])
    ("https://data.stadt-zuerich.ch/a" +:+ ".csv") []
  = (Return (Some (header_reader "a,b,c" ("https://data.stadt-zuerich.ch/a" +:+ ".csv") Comma)),
     [Read_csv ("https://data.stadt-zuerich.ch/a" +:+ ".csv") Comma]).
Proof.
  apply (proj2 (get_dataset_single_read (header_reader "a,b,c")
                  (fun _ => mkDataFrame ∅ [])
                  "https://data.stadt-zuerich.ch/a" [])).
  vm_compute. lia.
Defined.

(** ** The catalogue-level filters on whole tables *)

Section Catalogue_filter.

Variable P : resource -> bool.

Lemma filter_rows_cons (p : package) (rows : list package) :
  filter_rows (classify P) (p :: rows)
  = match pkg_resources p with
    | NaN => Raise TypeError
    | Dists _ =>
        obind (filter_rows (classify P) rows) (fun t =>
        Return (match kept_row P p with Some q => q :: t | None => t end))
    end.
Proof.
  unfold filter_rows, kept_row. cbn [apply_rows].
  destruct (pkg_resources p) as [|l]; [reflexivity|]. cbn [classify].
  destruct (decide (filter (fun x => P x) l <> [])) as [H|H]; cbn [obind];
    destruct (apply_rows (classify P) rows) as [d|e]; cbn [obind];
    reflexivity.
Qed.

Lemma filter_rows_NaN (rows : list package) :
  (exists p, p ∈ rows /\ pkg_resources p = NaN) ->
  filter_rows (classify P) rows = Raise TypeError.
Proof.
  induction rows as [|q rows IH]; intros (p & Hin & Hp).
  - now apply not_elem_of_nil in Hin.
  - rewrite filter_rows_cons.
    destruct (pkg_resources q) as [|l] eqn:Eq; [reflexivity|].
    apply elem_of_cons in Hin as [->|Hin]; [congruence|].
    rewrite IH by eauto. reflexivity.
Qed.

Lemma filter_rows_kept (rows : list package) :
  Forall (fun p => pkg_resources p <> NaN) rows ->
  filter_rows (classify P) rows = Return (omap (kept_row P) rows).
Proof.
  induction 1 as [|p rows Hp _ IH]; [reflexivity|].
  rewrite filter_rows_cons, IH. cbn [omap list_omap].
  destruct (pkg_resources p); [contradiction|]. cbn [obind].
  destruct (kept_row P p); reflexivity.
Qed.

Lemma filter_with_frame (df : PackageFrame) :
  filter_with P df
  = if resources_column df then
      obind (filter_rows (classify P) (frame_rows df)) (fun rows =>
      Return {| resources_column := true; frame_rows := rows |})
    else Raise AttributeError.
Proof. apply filter_frame. Qed.

(** The three outcomes of a filter. *)
Lemma filter_with_outcome (df : PackageFrame) :
  (resources_column df = false
   /\ filter_with P df = Raise AttributeError)
  \/ (resources_column df = true
      /\ Forall (fun p => pkg_resources p <> NaN) (frame_rows df)
      /\ filter_with P df
         = Return (mkPackageFrame true (omap (kept_row P) (frame_rows df))))
  \/ (resources_column df = true
      /\ (exists p, p ∈ frame_rows df /\ pkg_resources p = NaN)
      /\ filter_with P df = Raise TypeError).
Proof.
  rewrite filter_with_frame.
  destruct (resources_column df); [right|left; auto].
  destruct (decide (Forall (fun p => pkg_resources p <> NaN) (frame_rows df)))
    as [H|H].
  - left. split; [reflexivity|]. split; [exact H|].
    now rewrite (filter_rows_kept _ H).
  - right. apply not_Forall_Exists in H; [|apply _].
    apply Exists_exists in H as (p & Hin & Hp). unfold compose in Hp.
    assert (exists p, p ∈ frame_rows df /\ pkg_resources p = NaN) as Hex.
    { exists p. split; [exact Hin|].
      destruct (pkg_resources p) as [|l]; [reflexivity|].
      exfalso. apply Hp. intros E. discriminate E. }
    split; [reflexivity|]. split; [exact Hex|].
    now rewrite (filter_rows_NaN _ Hex).
Qed.

Lemma kept_row_Some (p q : package) :
  kept_row P p = Some q ->
  pkg_name q = pkg_name p /\ pkg_id q = pkg_id p /\ pkg_title q = pkg_title p
  /\ exists l, pkg_resources p = Dists l
               /\ pkg_resources q = Dists (filter (fun x => P x) l)
               /\ filter (fun x => P x) l <> [].
Proof.
  unfold kept_row. destruct (pkg_resources p) as [|l]; [discriminate|].
  destruct (decide _) as [H|H]; [|discriminate].
  intros E. inversion E; subst. cbn. eauto 10.
Qed.

Lemma omap_kept_row_names (rows : list package) :
  (pkg_name <$> omap (kept_row P) rows) `sublist_of` (pkg_name <$> rows).
Proof.
  induction rows as [|p rows IH]; [constructor|]. cbn [omap list_omap].
  destruct (kept_row P p) as [q|] eqn:E.
  - apply kept_row_Some in E as (E & _). cbn [fmap list_fmap]. rewrite E.
    now apply sublist_skip.
  - cbn [fmap list_fmap]. now apply sublist_cons.
Qed.

Lemma filter_with_kept (df t : PackageFrame) :
  filter_with P df = Return t ->
  t = mkPackageFrame true (omap (kept_row P) (frame_rows df))
  /\ Forall (fun q => exists kept,
                pkg_resources q = Dists kept /\ kept <> []
                /\ Forall (fun r => P r = true) kept) (frame_rows t).
Proof.
  intros E.
  destruct (filter_with_outcome df) as [[_ Ht]|[(_ & _ & Ht)|(_ & _ & Ht)]];
    rewrite Ht in E; inversion E; subst.
  split; [reflexivity|]. cbn [frame_rows].
  apply Forall_forall. intros q Hq.
  apply list_elem_of_omap in Hq as (p & _ & Hq).
  apply kept_row_Some in Hq as (_ & _ & _ & l & _ & Hq & Hne).
  eexists. split; [exact Hq|]. split; [exact Hne|].
  apply Forall_forall. intros r Hr.
  apply list_elem_of_filter in Hr as [Hr _]. now apply Is_true_true.
Qed.

(** A table whose rows hold no resource that passes the test is filtered
    to the empty table. *)
Lemma filter_with_nothing (t : PackageFrame) :
  resources_column t = true ->
  Forall (fun q => exists kept,
              pkg_resources q = Dists kept
              /\ Forall (fun r => P r = false) kept) (frame_rows t) ->
  filter_with P t = Return (mkPackageFrame true []).
Proof.
  intros Hc H. rewrite filter_with_frame, Hc, filter_rows_kept.
  - cbn [obind]. do 2 f_equal.
    induction H as [|q t' (kept & Hq & Hk) _ IH]; [reflexivity|].
    cbn [omap list_omap]. unfold kept_row at 1. rewrite Hq.
    rewrite (filter_none P kept Hk).
    destruct (decide (@nil resource <> [])) as [N|_]; [contradiction|exact IH].
  - eapply Forall_impl; [exact H|]. intros q (kept & Hq & _). now rewrite Hq.
Qed.

End Catalogue_filter.

Lemma filter_tabular_filter_with :
  filter_tabular = filter_with is_tabular_dist.
Proof. reflexivity. Qed.

Lemma filter_geo_filter_with : filter_geo = filter_with is_geo_dist.
Proof. reflexivity. Qed.

(** X3. [filter_tabular] and [filter_geo] raise [AttributeError] exactly
    when the table has no column [resources], whatever its rows;
    [TypeError] exactly when it has the column and some row, wherever it
    stands, has NaN there; and they return a table exactly when it has the
    column and every row holds a list of resources. On tables whose cells
    are lists of records or NaN these are the only exceptions. *)
Theorem catalogue_filters_errors (df : PackageFrame) :
  (filter_tabular df = Raise AttributeError <-> resources_column df = false)
  /\ (filter_geo df = Raise AttributeError <-> resources_column df = false)
  /\ (filter_tabular df = Raise TypeError
      <-> resources_column df = true
          /\ exists p, p ∈ frame_rows df /\ pkg_resources p = NaN)
  /\ (filter_geo df = Raise TypeError
      <-> resources_column df = true
          /\ exists p, p ∈ frame_rows df /\ pkg_resources p = NaN)
  /\ ((exists t, filter_tabular df = Return t)
      <-> resources_column df = true
          /\ Forall (fun p => pkg_resources p <> NaN) (frame_rows df))
  /\ ((exists t, filter_geo df = Return t)
      <-> resources_column df = true
          /\ Forall (fun p => pkg_resources p <> NaN) (frame_rows df))
  /\ (forall e, filter_tabular df = Raise e \/ filter_geo df = Raise e ->
                e = AttributeError \/ e = TypeError).
Proof.
  assert (forall P,
            (filter_with P df = Raise AttributeError
             <-> resources_column df = false)
            /\ (filter_with P df = Raise TypeError
                <-> resources_column df = true
                    /\ exists p, p ∈ frame_rows df /\ pkg_resources p = NaN)
            /\ ((exists t, filter_with P df = Return t)
                <-> resources_column df = true
                    /\ Forall (fun p => pkg_resources p <> NaN) (frame_rows df))
            /\ (forall e, filter_with P df = Raise e ->
                          e = AttributeError \/ e = TypeError)) as H.
  { intros P.
    assert (forall p, p ∈ frame_rows df -> pkg_resources p = NaN ->
            ~ Forall (fun p => pkg_resources p <> NaN) (frame_rows df)) as Hn.
    { intros p Hin Hp Hf. rewrite Forall_forall in Hf. now destruct (Hf p Hin). }
    destruct (filter_with_outcome P df)
      as [[Hc Ht]|[(Hc & Hf & Ht)|(Hc & (p & Hin & Hp) & Ht)]]; rewrite Ht, Hc;
      (split; [|split; [|split]]);
      try (split; intros; destruct_and?; try discriminate; try congruence;
           eauto; fail).
    - split; [intros [t E]; discriminate E|intros [E _]; discriminate E].
    - intros e E. inversion E. auto.
    - split; [discriminate|]. intros (_ & p & Hin & Hp).
      now destruct (Hn p Hin Hp).
    - intros e E. discriminate E.
    - split; [intros [t E]; discriminate E|].
      intros [_ Hf]. now destruct (Hn p Hin Hp).
    - intros e E. inversion E. auto. }
  rewrite filter_tabular_filter_with, filter_geo_filter_with.
  destruct (H is_tabular_dist) as (T1 & T2 & T3 & T4).
  destruct (H is_geo_dist) as (G1 & G2 & G3 & G4).
  repeat split; try tauto; try apply T1; try apply G1; try apply T2;
    try apply G2; try apply T3; try apply G3.
  intros e [E|E]; auto.
Qed.

Lemma catalogue_filters_errors_witness :
  filter_tabular (json_normalize [pkg_no_resources; pkg_no_resources])
  = Raise AttributeError
  /\ filter_geo (json_normalize [pkg_no_resources]) = Raise AttributeError
  /\ filter_tabular (json_normalize [pkg_a; pkg_no_resources; pkg_b])
     = Raise TypeError
  /\ filter_geo (json_normalize [pkg_a; pkg_no_resources; pkg_b])
     = Raise TypeError.
Proof.
  split; [|split; [|split]].
  - apply (proj1 (catalogue_filters_errors
                    (json_normalize [pkg_no_resources; pkg_no_resources]))).
    reflexivity.
  - apply (proj1 (proj2 (catalogue_filters_errors
                           (json_normalize [pkg_no_resources])))).
    reflexivity.
  - apply (proj1 (proj2 (proj2 (catalogue_filters_errors
                    (json_normalize [pkg_a; pkg_no_resources; pkg_b]))))).
    split; [reflexivity|].
    exists pkg_no_resources. split; [|reflexivity].
    apply list_elem_of_further, list_elem_of_here.
  - apply (proj1 (proj2 (proj2 (proj2 (catalogue_filters_errors
                    (json_normalize [pkg_a; pkg_no_resources; pkg_b])))))).
    split; [reflexivity|].
    exists pkg_no_resources. split; [|reflexivity].
    apply list_elem_of_further, list_elem_of_here.
Defined.

(** A catalogue none of whose records has the [resources] key: the table
    that the client retrieves has no such column, and the two filtered
    properties raise [AttributeError] after the retrieval. *)
Lemma package_list_properties_without_resources :
  (exists st,
     tabular_package_list_df (slice_remote [pkg_no_resources]) 3
       OpenDataZH_init []
     = Some (Raise AttributeError, st))
  /\ (exists st,
        geo_package_list_df (slice_remote [pkg_no_resources]) 3
          OpenDataZH_init []
        = Some (Raise AttributeError, st)).
Proof. split; eexists; vm_compute; reflexivity. Qed.

(** X4. When [filter_tabular] returns, its table holds, in the order of the
    input, one row for each dataset that has a resource of format [CSV] or
    [parquet]: the name, id and title are those of the dataset and the
    [resources] cell is the non-empty list of exactly these resources. The
    other datasets have no row. [filter_geo] does the same for the format
    [WFS]. *)
Theorem catalogue_filters_rows (df t : PackageFrame) :
  (filter_tabular df = Return t ->
   t = mkPackageFrame true (omap (kept_row is_tabular_dist) (frame_rows df))
   /\ (pkg_name <$> frame_rows t) `sublist_of` (pkg_name <$> frame_rows df)
   /\ Forall (fun q => exists kept,
                  pkg_resources q = Dists kept /\ kept <> []
                  /\ Forall (fun r => r !! "format" = Some (VStr "CSV")
                                      \/ r !! "format" = Some (VStr "parquet"))
                       kept) (frame_rows t))
  /\ (filter_geo df = Return t ->
      t = mkPackageFrame true (omap (kept_row is_geo_dist) (frame_rows df))
      /\ (pkg_name <$> frame_rows t) `sublist_of` (pkg_name <$> frame_rows df)
      /\ Forall (fun q => exists kept,
                     pkg_resources q = Dists kept /\ kept <> []
                     /\ Forall (fun r => r !! "format" = Some (VStr "WFS")) kept)
           (frame_rows t)).
Proof.
  rewrite filter_tabular_filter_with, filter_geo_filter_with. split; intros E.
  - destruct (filter_with_kept _ _ _ E) as [-> Hk].
    split; [reflexivity|]. split; [apply omap_kept_row_names|].
    eapply Forall_impl; [exact Hk|]. intros q (kept & Hq & Hne & Hall).
    exists kept. split; [exact Hq|]. split; [exact Hne|].
    eapply Forall_impl; [exact Hall|]. intros r Hr.
    apply is_tabular_dist_iff in Hr. unfold dict_get in Hr.
    destruct (r !! "format") as [v|]; destruct Hr as [Hr|Hr];
      try discriminate Hr; subst; auto.
  - destruct (filter_with_kept _ _ _ E) as [-> Hk].
    split; [reflexivity|]. split; [apply omap_kept_row_names|].
    eapply Forall_impl; [exact Hk|]. intros q (kept & Hq & Hne & Hall).
    exists kept. split; [exact Hq|]. split; [exact Hne|].
    eapply Forall_impl; [exact Hall|]. intros r Hr.
    apply is_geo_dist_iff in Hr. unfold dict_get in Hr.
    destruct (r !! "format") as [v|]; try discriminate Hr; subst; auto.
Qed.

Lemma catalogue_filters_rows_witness :
  mkPackageFrame true [set_resources pkg_a (Dists [r_csv])]
  = mkPackageFrame true
      (omap (kept_row is_tabular_dist) [pkg_a; pkg_b; pkg_empty])
  /\ mkPackageFrame true [set_resources pkg_a (Dists [r_wfs])]
     = mkPackageFrame true
         (omap (kept_row is_geo_dist) [pkg_a; pkg_b; pkg_empty]).
Proof.
  split.
  - apply (proj1 (catalogue_filters_rows
                    (json_normalize [pkg_a; pkg_b; pkg_empty]) _)).
    vm_compute. reflexivity.
  - apply (proj2 (catalogue_filters_rows
                    (json_normalize [pkg_a; pkg_b; pkg_empty]) _)).
    vm_compute. reflexivity.
Defined.

(** X5. The catalogue-level filters compose as follows. Filtering a table
    that the same filter returned gives that table back. Filtering the
    tabular table with [filter_geo], or the geo table with
    [filter_tabular], gives the empty table: a filter keeps only its own
    resources in the [resources] cells, so the other kind is gone. *)
Theorem catalogue_filters_compose (df t : PackageFrame) :
  (filter_tabular df = Return t ->
   filter_tabular t = Return t
   /\ filter_geo t = Return (mkPackageFrame true []))
  /\ (filter_geo df = Return t ->
      filter_geo t = Return t
      /\ filter_tabular t = Return (mkPackageFrame true [])).
Proof.
  split; intros E.
  - split.
    + exact (filter_twice_same has_tabular_distribution
               has_tabular_distribution_stable df t E).
    + rewrite filter_geo_filter_with.
      rewrite filter_tabular_filter_with in E.
      destruct (filter_with_kept _ _ _ E) as [Et Hk].
      apply filter_with_nothing; [now rewrite Et|].
      eapply Forall_impl; [exact Hk|]. intros q (kept & Hq & _ & Hall).
      exists kept. split; [exact Hq|].
      eapply Forall_impl; [exact Hall|]. intros r Hr.
      apply is_tabular_dist_iff in Hr.
      destruct (is_geo_dist r) eqn:Hg; [|reflexivity].
      apply is_geo_dist_iff in Hg. destruct Hr as [Hr|Hr]; congruence.
  - split.
    + exact (filter_twice_same has_geo_distribution
               has_geo_distribution_stable df t E).
    + rewrite filter_tabular_filter_with.
      rewrite filter_geo_filter_with in E.
      destruct (filter_with_kept _ _ _ E) as [Et Hk].
      apply filter_with_nothing; [now rewrite Et|].
      eapply Forall_impl; [exact Hk|]. intros q (kept & Hq & _ & Hall).
      exists kept. split; [exact Hq|].
      eapply Forall_impl; [exact Hall|]. intros r Hr.
      apply is_geo_dist_iff in Hr.
      destruct (is_tabular_dist r) eqn:Ht; [|reflexivity].
      apply is_tabular_dist_iff in Ht. destruct Ht as [Ht|Ht]; congruence.
Qed.

Lemma catalogue_filters_compose_witness :
  filter_tabular (mkPackageFrame true [set_resources pkg_a (Dists [r_csv])])
  = Return (mkPackageFrame true [set_resources pkg_a (Dists [r_csv])])
  /\ filter_geo (mkPackageFrame true [set_resources pkg_a (Dists [r_csv])])
     = Return (mkPackageFrame true []).
Proof.
  apply (proj1 (catalogue_filters_compose
                  (json_normalize [pkg_a; pkg_b; pkg_empty])
                  (mkPackageFrame true [set_resources pkg_a (Dists [r_csv])]))).
  vm_compute. reflexivity.
Defined.

(** ** The trace of the full retrieval *)

Section Retrieval_trace.

Variable package_list : nat -> nat -> list package.
Variables limit sleep : nat.

Lemma page_loop_trace (k : nat) :
  forall fuel offset frames w,
    (forall i, i < k -> package_list limit (offset + i * limit) <> []) ->
    package_list limit (offset + k * limit) = [] ->
    k < fuel ->
    page_loop package_list fuel limit sleep offset frames w
    = Some (Return (frames
                    ++ (json_normalize
                          <$> pages_from package_list limit offset k)),
            w ++ pages_trace limit sleep offset
                   (pages_from package_list limit offset k)
              ++ [Get_package_list limit (offset + k * limit);
                  Print "0 packages retrieved."]).
Proof.
  induction k as [|k IH]; intros fuel offset frames w Hne He Hf.
  - destruct fuel as [|fuel]; [lia|]. simpl in He. rewrite Nat.add_0_r in He.
    cbn [page_loop]. rewrite (page_empty _ _ _ _ He).
    cbn [Nat.mul]. rewrite Nat.add_0_r. unfold pages_from. cbn.
    now rewrite app_nil_r.
  - destruct fuel as [|fuel]; [lia|].
    assert (package_list limit offset <> []) as H0.
    { specialize (Hne 0 ltac:(lia)). simpl in Hne. now rewrite Nat.add_0_r in Hne. }
    cbn [page_loop]. rewrite (page_nonempty _ _ _ _ H0).
    rewrite IH.
    + rewrite pages_from_S. cbn [pages_trace]. unfold page_events.
      replace (offset + limit + k * limit) with (offset + S k * limit) by lia.
      do 2 f_equal; [now rewrite <- app_assoc|].
      rewrite <- !app_assoc. reflexivity.
    + intros i Hi. specialize (Hne (S i) ltac:(lia)).
      replace (offset + limit + i * limit) with (offset + S i * limit) by lia.
      exact Hne.
    + replace (offset + limit + k * limit) with (offset + S k * limit) by lia.
      exact He.
    + lia.
Qed.

Lemma page_loop_never_ends :
  forall fuel offset frames w,
    (forall i, package_list limit (offset + i * limit) <> []) ->
    page_loop package_list fuel limit sleep offset frames w = None.
Proof.
  induction fuel as [|fuel IH]; intros offset frames w Hne; [reflexivity|].
  assert (package_list limit offset <> []) as H0.
  { specialize (Hne 0). simpl in Hne. now rewrite Nat.add_0_r in Hne. }
  cbn [page_loop]. rewrite (page_nonempty _ _ _ _ H0). apply IH.
  intros i. specialize (Hne (S i)).
  replace (offset + limit + i * limit) with (offset + S i * limit) by lia.
  exact Hne.
Qed.

Lemma slept_app (w1 w2 : world) : slept (w1 ++ w2) = slept w1 + slept w2.
Proof.
  induction w1 as [|e w1 IH]; [reflexivity|].
  destruct e; cbn [app slept]; rewrite IH; lia.
Qed.

Lemma slept_pages_trace (offset : nat) (pages : list (list package)) :
  slept (pages_trace limit sleep offset pages) = length pages * sleep.
Proof.
  revert offset. induction pages as [|page pages IH]; intros offset;
    [reflexivity|].
  cbn [pages_trace]. rewrite slept_app, IH. cbn. lia.
Qed.

End Retrieval_trace.

(** X7. Under the conditions of a retrieval that ends (non-empty pages at
    offsets [0] to [(k-1) * limit], an empty page at [k * limit]), what
    [_get_full_package_list] does is exactly this: for each non-empty page
    a request, a line with the number of its packages and a pause of
    [sleep] seconds; then the request of the empty page and the line
    [0 packages retrieved.]. It pauses [k] times, so also before the last
    request. *)
Theorem full_package_list_trace
  (package_list : nat -> nat -> list package) (limit sleep k fuel : nat)
  (self : OpenDataZH) (w : world) :
  0 < k ->
  (forall i, i < k -> package_list limit (i * limit) <> []) ->
  package_list limit (k * limit) = [] ->
  k < fuel ->
  exists df w',
    _get_full_package_list package_list fuel limit sleep self w
    = Some (Return df, (set_full_package_list_df df self, w'))
    /\ w' = w ++ pages_trace limit sleep 0 (pages_from package_list limit 0 k)
              ++ [Get_package_list limit (k * limit);
                  Print "0 packages retrieved."]
    /\ slept w' = slept w + k * sleep.
Proof.
  intros Hk Hne He Hf.
  pose proof (page_loop_trace package_list limit sleep k fuel 0 [] w Hne He Hf)
    as Hrun.
  cbn [app Nat.add] in Hrun.
  exists (sort_index
            (json_normalize (concat (pages_from package_list limit 0 k)))).
  eexists. split; [|split; [reflexivity|]].
  - unfold _get_full_package_list. rewrite Hrun.
    destruct (pages_from package_list limit 0 k) as [|p ps] eqn:Ep;
      [|now rewrite pd_concat_pages].
    apply (f_equal length) in Ep. unfold pages_from in Ep.
    rewrite length_fmap, length_seq in Ep. simpl in Ep. lia.
  - rewrite !slept_app, slept_pages_trace. unfold pages_from.
    rewrite length_fmap, length_seq. cbn. lia.
Qed.

Lemma full_package_list_trace_witness :
  exists df w',
    _get_full_package_list (slice_remote [pkg_b; pkg_a; pkg_empty]) 5 2 1
      OpenDataZH_init []
    = Some (Return df, (set_full_package_list_df df OpenDataZH_init, w'))
    /\ w' = [] ++ pages_trace 2 1 0
                    (pages_from (slice_remote [pkg_b; pkg_a; pkg_empty]) 2 0 2)
              ++ [Get_package_list 2 (2 * 2); Print "0 packages retrieved."]
    /\ slept w' = slept [] + 2 * 1.
Proof.
  apply (full_package_list_trace
           (slice_remote [pkg_b; pkg_a; pkg_empty]) 2 1 2 5 OpenDataZH_init []).
  - lia.
  - intros [|[|i]] Hi; [discriminate|discriminate|lia].
  - reflexivity.
  - lia.
Defined.

(** X8. When every page that the loop requests is non-empty, the loop of
    [_get_full_package_list] never ends: no number of iterations reaches
    the concatenation. This is the case for a page size of 0 with a
    non-empty answer, since the offset then stays 0. *)
Theorem full_package_list_never_ends
  (package_list : nat -> nat -> list package) (limit sleep : nat) :
  ((forall i, package_list limit (i * limit) <> []) ->
   forall fuel self w,
     _get_full_package_list package_list fuel limit sleep self w = None)
  /\ (package_list 0 0 <> [] ->
      forall fuel self w,
        _get_full_package_list package_list fuel 0 sleep self w = None).
Proof.
  assert (forall l,
            (forall i, package_list l (i * l) <> []) ->
            forall fuel self w,
              _get_full_package_list package_list fuel l sleep self w = None)
    as H.
  { intros l Hne fuel self w. unfold _get_full_package_list.
    now rewrite (page_loop_never_ends package_list l sleep fuel 0 [] w). }
  split; [apply H|].
  intros H0. apply H. intros i. now rewrite Nat.mul_0_r.
Qed.

Lemma full_package_list_never_ends_witness :
  _get_full_package_list overlapping_pages 1000 0 2 OpenDataZH_init [] = None.
Proof.
  apply (proj2 (full_package_list_never_ends overlapping_pages 0 2)).
  discriminate.
Defined.

(** ** The memoised tables of the client *)

Section Client_memo.

Variable package_list : nat -> nat -> list package.

Lemma full_package_list_df_stored (fuel : nat) (self self' : OpenDataZH)
  (w w' : world) (df : PackageFrame) :
  full_package_list_df package_list fuel self w
  = Some (Return df, (self', w')) ->
  _full_package_list_df self' = Some df
  /\ _tabular_package_list_df self' = _tabular_package_list_df self
  /\ _geo_package_list_df self' = _geo_package_list_df self.
Proof.
  unfold full_package_list_df, _get_full_package_list.
  destruct (_full_package_list_df self) as [df0|] eqn:E.
  - intros H. inversion H; subst. auto.
  - destruct (page_loop _ _ _ _ _ _ _) as [[[frames|e] w1]|]; [|discriminate..].
    destruct (pd_concat frames) as [d|e]; [|discriminate].
    intros H. inversion H; subst. auto.
Qed.

Lemma full_package_list_df_hit (fuel : nat) (self : OpenDataZH) (w : world)
  (df : PackageFrame) :
  _full_package_list_df self = Some df ->
  full_package_list_df package_list fuel self w = Some (Return df, (self, w)).
Proof. intros E. unfold full_package_list_df. now rewrite E. Qed.

Lemma filtered_package_list_df_stored
  (cached : OpenDataZH -> option PackageFrame)
  (store : PackageFrame -> OpenDataZH -> OpenDataZH)
  (filter_fn : PackageFrame -> outcome PackageFrame)
  (fuel : nat) (self self' : OpenDataZH) (w w' : world) (df : PackageFrame) :
  (forall d s, cached (store d s) = Some d) ->
  (forall d s, _full_package_list_df (store d s) = _full_package_list_df s) ->
  filtered_package_list_df package_list cached store filter_fn fuel self w
  = Some (Return df, (self', w')) ->
  cached self' = Some df
  /\ (cached self = None ->
      exists full, _full_package_list_df self' = Some full
                   /\ filter_fn full = Return df).
Proof.
  intros Hc Hfull. unfold filtered_package_list_df.
  destruct (cached self) as [df0|] eqn:E.
  - intros H. inversion H; subst. split; [exact E|discriminate].
  - destruct (full_package_list_df package_list fuel self w)
      as [[[full|e] [s1 w1]]|] eqn:Ef; [|discriminate..].
    destruct (filter_fn full) as [d|e] eqn:Efil; [|discriminate].
    intros H. inversion H; subst. split; [apply Hc|].
    intros _. exists full. split; [|exact Efil].
    rewrite Hfull. eapply full_package_list_df_stored, Ef.
Qed.

Lemma filtered_package_list_df_hit
  (cached : OpenDataZH -> option PackageFrame)
  (store : PackageFrame -> OpenDataZH -> OpenDataZH)
  (filter_fn : PackageFrame -> outcome PackageFrame)
  (fuel : nat) (self : OpenDataZH) (w : world) (df : PackageFrame) :
  cached self = Some df ->
  filtered_package_list_df package_list cached store filter_fn fuel self w
  = Some (Return df, (self, w)).
Proof. intros E. unfold filtered_package_list_df. now rewrite E. Qed.

(** Once the full table is stored, a filtered property sends no request. *)
Lemma filtered_package_list_df_offline
  (cached : OpenDataZH -> option PackageFrame)
  (store : PackageFrame -> OpenDataZH -> OpenDataZH)
  (filter_fn : PackageFrame -> outcome PackageFrame)
  (fuel : nat) (self : OpenDataZH) (w : world) (full : PackageFrame) :
  _full_package_list_df self = Some full ->
  exists o s,
    filtered_package_list_df package_list cached store filter_fn fuel self w
    = Some (o, (s, w)).
Proof.
  intros E. unfold filtered_package_list_df.
  destruct (cached self) as [df0|]; [eauto|].
  rewrite (full_package_list_df_hit fuel self w full E).
  destruct (filter_fn full); eauto.
Qed.

End Client_memo.

(** X9. The three table properties of the client are memoised. An access
    that returns a table stores it, and every later access returns the same
    table without any request, print or pause, and leaves the client as it
    is. When [tabular_package_list_df] had to compute its table, the full
    table is stored too, the tabular table is [filter_tabular] of it, and a
    later access to [geo_package_list_df] reaches no remote either; the
    same holds with the two exchanged. *)
Theorem package_list_properties_memoised
  (package_list : nat -> nat -> list package) (fuel : nat)
  (self self' : OpenDataZH) (w w' : world) (df : PackageFrame) :
  (full_package_list_df package_list fuel self w
   = Some (Return df, (self', w')) ->
   forall fuel2 w2,
     full_package_list_df package_list fuel2 self' w2
     = Some (Return df, (self', w2)))
  /\ (tabular_package_list_df package_list fuel self w
      = Some (Return df, (self', w')) ->
      (forall fuel2 w2,
         tabular_package_list_df package_list fuel2 self' w2
         = Some (Return df, (self', w2)))
      /\ (_tabular_package_list_df self = None ->
          (exists full, _full_package_list_df self' = Some full
                        /\ filter_tabular full = Return df)
          /\ forall fuel2 w2, exists o s,
               geo_package_list_df package_list fuel2 self' w2
               = Some (o, (s, w2))))
  /\ (geo_package_list_df package_list fuel self w
      = Some (Return df, (self', w')) ->
      (forall fuel2 w2,
         geo_package_list_df package_list fuel2 self' w2
         = Some (Return df, (self', w2)))
      /\ (_geo_package_list_df self = None ->
          (exists full, _full_package_list_df self' = Some full
                        /\ filter_geo full = Return df)
          /\ forall fuel2 w2, exists o s,
               tabular_package_list_df package_list fuel2 self' w2
               = Some (o, (s, w2)))).
Proof.
  split; [|split].
  - intros H fuel2 w2. apply full_package_list_df_hit.
    eapply full_package_list_df_stored, H.
  - intros H.
    destruct (filtered_package_list_df_stored package_list
                _tabular_package_list_df set_tabular_package_list_df
                filter_tabular fuel self self' w w' df
                ltac:(reflexivity) ltac:(reflexivity) H) as [Hc Hfull].
    split; [intros fuel2 w2; now apply filtered_package_list_df_hit|].
    intros Hn. destruct (Hfull Hn) as (full & Ef & Efil).
    split; [eauto|]. intros fuel2 w2.
    eapply filtered_package_list_df_offline, Ef.
  - intros H.
    destruct (filtered_package_list_df_stored package_list
                _geo_package_list_df set_geo_package_list_df
                filter_geo fuel self self' w w' df
                ltac:(reflexivity) ltac:(reflexivity) H) as [Hc Hfull].
    split; [intros fuel2 w2; now apply filtered_package_list_df_hit|].
    intros Hn. destruct (Hfull Hn) as (full & Ef & Efil).
    split; [eauto|]. intros fuel2 w2.
    eapply filtered_package_list_df_offline, Ef.
Qed.

Lemma package_list_properties_memoised_witness :
  exists df self' w',
    tabular_package_list_df (slice_remote [pkg_b; pkg_a; pkg_empty]) 5
      OpenDataZH_init []
    = Some (Return df, (self', w'))
    /\ (forall fuel2 w2,
          tabular_package_list_df (slice_remote [pkg_b; pkg_a; pkg_empty])
            fuel2 self' w2
          = Some (Return df, (self', w2)))
    /\ (forall fuel2 w2, exists o s,
          geo_package_list_df (slice_remote [pkg_b; pkg_a; pkg_empty])
            fuel2 self' w2
          = Some (o, (s, w2))).
Proof.
  destruct (tabular_package_list_df (slice_remote [pkg_b; pkg_a; pkg_empty]) 5
              OpenDataZH_init []) as [[[df|e] [self' w']]|] eqn:H;
    [|vm_compute in H; discriminate H..].
  exists df, self', w'. split; [reflexivity|].
  destruct (proj1 (proj2 (package_list_properties_memoised
                            (slice_remote [pkg_b; pkg_a; pkg_empty]) 5
                            OpenDataZH_init self' [] w' df)) H) as [H1 H2].
  split; [exact H1|]. exact (proj2 (H2 eq_refl)).
Defined.

(** ** A dataset that is found *)

(** X10. When an identifier is supplied and the show endpoint reports
    success with a record, [get_package] sends exactly one request, prints
    nothing and returns a wrapper of that record whose memos are empty and
    whose distributions are the resources of the record. When an id is
    supplied the name is not used. A success report without a record ends
    in a [KeyError]. *)
Theorem get_package_found (package_show : string -> show_response)
  (id name : option string) (ident : string) (w : world) :
  chosen_identifier id name = Some ident ->
  success (package_show ident) = true ->
  (forall md,
     result (package_show ident) = Some md ->
     get_package package_show id name w
     = (Return (Some (OpenDataPackage_init md)), w ++ [Get_package_show ident])
     /\ _resource_metadata_df (OpenDataPackage_init md) = None
     /\ _tabular_resource_metadata_df (OpenDataPackage_init md) = None
     /\ _geo_resource_metadata_df (OpenDataPackage_init md) = None
     /\ Dists (distributions (OpenDataPackage_init md))
        = match pkg_resources md with NaN => Dists [] | c => c end
     /\ length (distribution_links (OpenDataPackage_init md))
        = length (distributions (OpenDataPackage_init md)))
  /\ (result (package_show ident) = None ->
      get_package package_show id name w
      = (Raise (KeyError "result"), w ++ [Get_package_show ident]))
  /\ (forall i, id = Some i ->
        get_package package_show id name w
        = get_package package_show (Some i) None w).
Proof.
  intros Hc Hs.
  assert (forall i, id = Some i ->
            get_package package_show id name w
            = get_package package_show (Some i) None w) as Hid.
  { intros i ->. now destruct name. }
  rewrite (get_package_with_identifier package_show id name ident w Hc) in *.
  split; [|split; [|exact Hid]].
  - intros md Hr. run_M. rewrite Hs, Hr. split; [reflexivity|].
    repeat split; try reflexivity.
    + now destruct (pkg_resources md).
    + now rewrite length_fmap.
  - intros Hr. run_M. now rewrite Hs, Hr.
Qed.

Lemma get_package_found_witness :
  get_package (show_remote [pkg_a; pkg_b]) (Some "a") (Some "b") []
  = (Return (Some (OpenDataPackage_init pkg_a)), [Get_package_show "a"]).
Proof.
  apply (proj1 (get_package_found (show_remote [pkg_a; pkg_b])
                  (Some "a") (Some "b") "a" [] eq_refl eq_refl) pkg_a eq_refl).
Defined.

(** ** The memoised tables of a dataset wrapper *)

(** X11. The three table properties of a dataset wrapper are memoised: when
    an access returns a table, an access on the wrapper it leaves behind
    returns the same table and changes the wrapper no further. *)
Theorem resource_tables_memoised (self s1 : OpenDataPackage) (df : DataFrame) :
  (resource_metadata_df self = (Return df, s1) ->
   resource_metadata_df s1 = (Return df, s1))
  /\ (tabular_resource_metadata_df self = (Return df, s1) ->
      tabular_resource_metadata_df s1 = (Return df, s1))
  /\ (geo_resource_metadata_df self = (Return df, s1) ->
      geo_resource_metadata_df s1 = (Return df, s1)).
Proof.
  split; [|split].
  - unfold resource_metadata_df. run_M.
    destruct (_resource_metadata_df self) as [d|] eqn:E.
    + intros H. inversion H; subst. now rewrite E.
    + destruct (pkg_resources (metadata self)); [discriminate|].
      intros H. inversion H; subst. reflexivity.
  - unfold tabular_resource_metadata_df.
    unfold mbind, M_bind, bind, get_self, put_self, mret, M_ret, ret.
    destruct (_tabular_resource_metadata_df self) as [d|] eqn:E.
    + intros H. inversion H; subst. now rewrite E.
    + destruct (resources_with_format _ self) as [[d|e] s]; [|discriminate].
      intros H. inversion H; subst. reflexivity.
  - unfold geo_resource_metadata_df.
    unfold mbind, M_bind, bind, get_self, put_self, mret, M_ret, ret.
    destruct (_geo_resource_metadata_df self) as [d|] eqn:E.
    + intros H. inversion H; subst. now rewrite E.
    + destruct (resources_with_format _ self) as [[d|e] s]; [|discriminate].
      intros H. inversion H; subst. reflexivity.
Qed.

Lemma resource_tables_memoised_witness :
  tabular_resource_metadata_df (OpenDataPackage_init pkg_a)
  = (Return view_a_tabular, wrapper_a_after_tabular)
  /\ tabular_resource_metadata_df wrapper_a_after_tabular
     = (Return view_a_tabular, wrapper_a_after_tabular).
Proof.
  assert (tabular_resource_metadata_df (OpenDataPackage_init pkg_a)
          = (Return view_a_tabular, wrapper_a_after_tabular)) as E
    by (vm_compute; reflexivity).
  split; [exact E|].
  exact (proj1 (proj2 (resource_tables_memoised
                         (OpenDataPackage_init pkg_a) wrapper_a_after_tabular
                         view_a_tabular)) E).
Defined.

(** ** The dataset-level views *)

Lemma select_rows_isin (l : list resource) (formats : list value) :
  select_rows l (isin ((fun r : resource => r !! "format") <$> l) formats)
  = filter (format_in formats) l.
Proof.
  induction l as [|x l IH]; [reflexivity|].
  cbn [fmap list_fmap isin select_rows]. rewrite filter_cons.
  unfold isin in IH. rewrite IH.
  destruct (decide (format_in formats x)) as [(v & E & Hv)|H].
  - rewrite E. now rewrite bool_decide_eq_true_2.
  - destruct (x !! "format") as [v|] eqn:E; [|reflexivity].
    rewrite bool_decide_eq_false_2; [reflexivity|].
    intros Hv. apply H. exists v. auto.
Qed.

Lemma format_column_iff (l : list resource) :
  "format" ∈ (⋃ (dom <$> l) : gset string)
  <-> exists r, r ∈ l /\ is_Some (r !! "format").
Proof.
  rewrite elem_of_union_list. split.
  - intros (X & HX & Hin). apply list_elem_of_fmap in HX as (r & -> & Hr).
    exists r. split; [exact Hr|]. now apply elem_of_dom.
  - intros (r & Hr & Hs). exists (dom r). split.
    + apply list_elem_of_fmap. eauto.
    + now apply elem_of_dom.
Qed.

Lemma view_of_Dists (formats : list value) (md : package) (l : list resource) :
  pkg_resources md = Dists l ->
  view_of formats md
  = if bool_decide ("format" ∈ (⋃ (dom <$> l) : gset string))
    then Return {| columns := ⋃ (dom <$> l);
                   rows := filter (format_in formats) l |}
    else Raise (KeyError "format").
Proof.
  intros E. unfold view_of, resource_table_of. rewrite E. cbn [obind].
  unfold getitem. cbn [columns rows DataFrame_of_records].
  destruct (bool_decide _); cbn [obind]; [|reflexivity].
  unfold boolean_index. cbn [columns rows]. now rewrite select_rows_isin.
Qed.

Lemma format_in_disjoint (r : resource) :
  format_in [VStr "CSV"; VStr "parquet"] r ->
  format_in [VStr "WFS"; VStr "JSON"] r -> False.
Proof.
  intros (v & E & Hv) (v' & E' & Hv'). rewrite E in E'. inversion E'; subst.
  rewrite !elem_of_cons, elem_of_nil in Hv, Hv'.
  destruct Hv as [->|[->|[]]]; destruct Hv' as [H|[H|[]]]; discriminate H.
Qed.

Lemma filter_disjoint_length {A} (P Q : A -> Prop)
  `{!forall x, Decision (P x)} `{!forall x, Decision (Q x)} (l : list A) :
  (forall x, P x -> Q x -> False) ->
  length (filter P l) + length (filter Q l) <= length l.
Proof.
  intros Hd. induction l as [|x l IH]; [reflexivity|].
  rewrite !filter_cons.
  destruct (decide (P x)) as [HP|HP]; destruct (decide (Q x)) as [HQ|HQ];
    cbn [length]; try lia.
  destruct (Hd x HP HQ).
Qed.

(** X12. The two views of a dataset wrapper, on a wrapper whose memos are
    coherent. When some resource of the dataset has a [format] key, the
    tabular view holds exactly the resources whose format is [CSV] or
    [parquet], the geo view exactly those whose format is [WFS] or [JSON],
    both in the order of the dataset; no resource is in both and together
    they are no longer than the resource list. When no resource has a
    [format] key, in particular when the dataset has no resource, both
    properties raise [KeyError] for [format]; when the record has no
    [resources] key they raise [KeyError] for [resources]. *)
Theorem dataset_views (self : OpenDataPackage) :
  caches_coherent self ->
  (forall l,
     pkg_resources (metadata self) = Dists l ->
     ((exists r, r ∈ l /\ is_Some (r !! "format")) ->
      exists tab geo,
        (tabular_resource_metadata_df self).1 = Return tab
        /\ (geo_resource_metadata_df self).1 = Return geo
        /\ rows tab = filter (format_in [VStr "CSV"; VStr "parquet"]) l
        /\ rows geo = filter (format_in [VStr "WFS"; VStr "JSON"]) l
        /\ (forall r, r ∈ rows tab -> r ∉ rows geo)
        /\ len tab + len geo <= length l)
     /\ ((forall r, r ∈ l -> r !! "format" = None) ->
         (tabular_resource_metadata_df self).1 = Raise (KeyError "format")
         /\ (geo_resource_metadata_df self).1 = Raise (KeyError "format")))
  /\ (pkg_resources (metadata self) = NaN ->
      (tabular_resource_metadata_df self).1 = Raise (KeyError "resources")
      /\ (geo_resource_metadata_df self).1 = Raise (KeyError "resources")).
Proof.
  intros Hc.
  destruct (tabular_resource_metadata_df_run self Hc) as (s1 & E1 & _ & _).
  destruct (geo_resource_metadata_df_run self Hc) as (s2 & E2 & _ & _).
  rewrite E1, E2. cbn [fst]. split.
  - intros l El. rewrite !(view_of_Dists _ _ l El). split.
    + intros Hf. apply format_column_iff in Hf.
      rewrite bool_decide_eq_true_2 by exact Hf.
      eexists _, _. split; [reflexivity|]. split; [reflexivity|].
      cbn [rows]. split; [reflexivity|]. split; [reflexivity|]. split.
      * intros r Ht Hg. apply list_elem_of_filter in Ht as [Ht _].
        apply list_elem_of_filter in Hg as [Hg _].
        exact (format_in_disjoint r Ht Hg).
      * unfold len. cbn [rows]. apply filter_disjoint_length.
        exact format_in_disjoint.
    + intros Hn. rewrite bool_decide_eq_false_2; [split; reflexivity|].
      intros Hf. apply format_column_iff in Hf as (r & Hr & [v Hv]).
      rewrite (Hn r Hr) in Hv. discriminate Hv.
  - intros En. unfold view_of, resource_table_of. rewrite En. split; reflexivity.
Qed.

Lemma dataset_views_witness :
  exists tab geo,
    (tabular_resource_metadata_df (OpenDataPackage_init pkg_a)).1 = Return tab
    /\ (geo_resource_metadata_df (OpenDataPackage_init pkg_a)).1 = Return geo
    /\ rows tab = [r_csv] /\ rows geo = [r_wfs].
Proof.
  destruct (proj1 (proj1 (dataset_views (OpenDataPackage_init pkg_a)
                            (OpenDataPackage_init_coherent pkg_a))
                     [r_csv; r_wfs] eq_refl))
    as (tab & geo & Ht & Hg & Hrt & Hrg & _).
  - exists r_csv. split; [apply list_elem_of_here|]. exists (VStr "CSV").
    vm_compute. reflexivity.
  - exists tab, geo. repeat split; [exact Ht|exact Hg|..].
    + rewrite Hrt. vm_compute. reflexivity.
    + rewrite Hrg. vm_compute. reflexivity.
Defined.

(** ** Catalogue-level and dataset-level classification *)

Lemma is_tabular_dist_format_in (r : resource) :
  is_tabular_dist r = true <-> format_in [VStr "CSV"; VStr "parquet"] r.
Proof.
  rewrite is_tabular_dist_iff. unfold dict_get, format_in. split.
  - destruct (r !! "format") as [v|]; intros [H|H]; try discriminate H;
      subst; eexists; (split; [reflexivity|]);
      rewrite !elem_of_cons; auto.
  - intros (v & -> & Hv). rewrite !elem_of_cons, elem_of_nil in Hv.
    destruct Hv as [->|[->|[]]]; auto.
Qed.

Lemma is_geo_dist_format_in (r : resource) :
  is_geo_dist r = true
  <-> format_in [VStr "WFS"; VStr "JSON"] r
      /\ r !! "format" <> Some (VStr "JSON").
Proof.
  rewrite is_geo_dist_iff. unfold dict_get, format_in. split.
  - destruct (r !! "format") as [v|]; intros H; try discriminate H; subst.
    split; [eexists; split; [reflexivity|apply list_elem_of_here]|discriminate].
  - intros [(v & -> & Hv) Hn]. rewrite !elem_of_cons, elem_of_nil in Hv.
    destruct Hv as [->|[->|[]]]; [reflexivity|contradiction].
Qed.

Lemma filter_iff_eq {A} (P Q : A -> Prop)
  `{!forall x, Decision (P x)} `{!forall x, Decision (Q x)} (l : list A) :
  (forall x, x ∈ l -> (P x <-> Q x)) -> filter P l = filter Q l.
Proof.
  induction l as [|x l IH]; intros Hi; [reflexivity|].
  rewrite !filter_cons.
  assert (filter P l = filter Q l) as ->.
  { apply IH. intros y Hy. apply Hi. now right. }
  pose proof (Hi x ltac:(left)) as Hx.
  destruct (decide (P x)), (decide (Q x)); tauto.
Qed.

Lemma filter_impl_sublist {A} (P Q : A -> Prop)
  `{!forall x, Decision (P x)} `{!forall x, Decision (Q x)} (l : list A) :
  (forall x, P x -> Q x) -> filter P l `sublist_of` filter Q l.
Proof.
  intros Hi. induction l as [|x l IH]; [constructor|].
  rewrite !filter_cons.
  destruct (decide (P x)) as [HP|HP]; destruct (decide (Q x)) as [HQ|HQ].
  - now apply sublist_skip.
  - destruct (HQ (Hi x HP)).
  - now apply sublist_cons.
  - exact IH.
Qed.

(** X13. The catalogue-level classifiers against the views of the dataset
    wrapper, for a dataset whose views can be computed. The tabular
    classifier returns the rows of the tabular view, or NaN when the view
    is empty. The geo classifier returns a sublist of the rows of the geo
    view; it returns all of them when no resource has the format [JSON],
    and it never returns a resource of format [JSON], which the view
    keeps. *)
Theorem classification_levels (self : OpenDataPackage) (l : list resource)
  (tab geo : DataFrame) :
  caches_coherent self ->
  pkg_resources (metadata self) = Dists l ->
  (tabular_resource_metadata_df self).1 = Return tab ->
  (geo_resource_metadata_df self).1 = Return geo ->
  has_tabular_distribution (Dists l)
  = Return (if decide (rows tab <> []) then Dists (rows tab) else NaN)
  /\ (forall kept,
        has_geo_distribution (Dists l) = Return (Dists kept) ->
        kept `sublist_of` rows geo
        /\ Forall (fun r => r !! "format" <> Some (VStr "JSON")) kept)
  /\ (Forall (fun r => r !! "format" <> Some (VStr "JSON")) l ->
      has_geo_distribution (Dists l)
      = Return (if decide (rows geo <> []) then Dists (rows geo) else NaN))
  /\ (forall r, r ∈ l -> r !! "format" = Some (VStr "JSON") -> r ∈ rows geo).
Proof.
  intros Hc El Ht Hg.
  destruct (tabular_resource_metadata_df_run self Hc) as (s1 & E1 & _ & _).
  destruct (geo_resource_metadata_df_run self Hc) as (s2 & E2 & _ & _).
  rewrite E1 in Ht. rewrite E2 in Hg. cbn [fst] in Ht, Hg.
  rewrite (view_of_Dists _ _ l El) in Ht. rewrite (view_of_Dists _ _ l El) in Hg.
  destruct (bool_decide _); [|discriminate].
  inversion Ht; subst. inversion Hg; subst. cbn [rows]. clear Ht Hg.
  assert (filter (fun x => is_tabular_dist x) l
          = filter (format_in [VStr "CSV"; VStr "parquet"]) l) as Etab.
  { apply filter_iff_eq. intros x _. rewrite <- is_tabular_dist_format_in.
    split; [apply Is_true_true_1|apply Is_true_true_2]. }
  split; [|split; [|split]].
  - cbn [has_tabular_distribution]. rewrite Etab.
    destruct (decide _); reflexivity.
  - intros kept Hk. apply has_geo_distribution_kept in Hk as [-> _]. split.
    + apply filter_impl_sublist. intros x Hx.
      apply Is_true_true_1, is_geo_dist_format_in in Hx. tauto.
    + apply Forall_forall. intros r Hr. apply list_elem_of_filter in Hr as [Hr _].
      apply Is_true_true_1, is_geo_dist_format_in in Hr. tauto.
  - intros Hj. cbn [has_geo_distribution].
    assert (filter (fun x => is_geo_dist x) l
            = filter (format_in [VStr "WFS"; VStr "JSON"]) l) as ->.
    { apply filter_iff_eq. intros x Hx. rewrite Forall_forall in Hj.
      specialize (Hj x Hx). split.
      - intros H. apply Is_true_true_1, is_geo_dist_format_in in H. tauto.
      - intros H. apply Is_true_true_2, is_geo_dist_format_in. tauto. }
    destruct (decide _); reflexivity.
  - intros r Hr Hj. apply list_elem_of_filter. split; [|exact Hr].
    exists (VStr "JSON"). split; [exact Hj|].
    apply list_elem_of_further, list_elem_of_here.
Qed.

Lemma classification_levels_witness :
  exists geo,
    (geo_resource_metadata_df (OpenDataPackage_init pkg_json)).1 = Return geo
    /\ r_json ∈ rows geo
    /\ has_tabular_distribution (Dists [r_json]) = Return NaN.
Proof.
  assert ((tabular_resource_metadata_df (OpenDataPackage_init pkg_json)).1
          = Return (mkDataFrame (⋃ (dom <$> [r_json])) [])) as Et
    by (vm_compute; reflexivity).
  assert ((geo_resource_metadata_df (OpenDataPackage_init pkg_json)).1
          = Return (mkDataFrame (⋃ (dom <$> [r_json])) [r_json])) as Eg
    by (vm_compute; reflexivity).
  destruct (classification_levels (OpenDataPackage_init pkg_json) [r_json]
              _ _ (OpenDataPackage_init_coherent pkg_json) eq_refl Et Eg)
    as (H1 & _ & _ & H4).
  eexists. split; [exact Eg|]. split.
  - apply H4; [apply list_elem_of_here|vm_compute; reflexivity].
  - rewrite H1. reflexivity.
Defined.

(** ** Looking a resource up by its position *)

Lemma iloc_cases (df : DataFrame) (i : Z) :
  let n := Z.of_nat (length (rows df)) in
  (forall r, (0 <= i < n)%Z -> rows df !! Z.to_nat i = Some r ->
             iloc df i = Return r)
  /\ (forall r, (- n <= i < 0)%Z -> rows df !! Z.to_nat (n + i) = Some r ->
                iloc df i = Return r)
  /\ ((n <= i)%Z \/ (i < - n)%Z -> iloc df i = Raise IndexError).
Proof.
  intros n. unfold iloc. fold n. split; [|split].
  - intros r Hi Hr. destruct (Z.ltb_spec i 0); [lia|].
    destruct (Z.ltb_spec i 0); [lia|]. destruct (Z.leb_spec n i); [lia|].
    cbn [orb]. now rewrite Hr.
  - intros r Hi Hr. destruct (Z.ltb_spec i 0); [|lia].
    destruct (Z.ltb_spec (i + n) 0); [lia|].
    destruct (Z.leb_spec n (i + n)); [lia|]. cbn [orb].
    now rewrite Z.add_comm, Hr.
  - intros Hi. destruct (Z.ltb_spec i 0).
    + destruct (Z.ltb_spec (i + n) 0); [reflexivity|].
      destruct (Z.leb_spec n (i + n)); [reflexivity|lia].
    + destruct (Z.ltb_spec i 0); [lia|].
      destruct (Z.leb_spec n i); [reflexivity|lia].
Qed.

Lemma tabular_resource_by_index_run (self : OpenDataPackage) (index : Z) :
  caches_coherent self ->
  (tabular_resource index None self).1
  = obind (obind (view_of [VStr "CSV"; VStr "parquet"] (metadata self))
             (fun df => iloc df index))
      (fun md => Return (mkOpenDataTabularResource index md)).
Proof.
  intros Hc. unfold tabular_resource, mbind, M_bind, bind.
  cbn [is_not_None].
  destruct (tabular_resource_metadata_df_run self Hc) as (s1 & E1 & _ & _).
  rewrite E1.
  destruct (view_of _ (metadata self)) as [df|e]; [|reflexivity].
  unfold lift. cbn [obind]. destruct (iloc df index); reflexivity.
Qed.

Lemma geo_resource_by_index_run (self : OpenDataPackage) (index : Z) :
  caches_coherent self ->
  (geo_resource index None self).1
  = obind (obind (view_of [VStr "WFS"; VStr "JSON"] (metadata self))
             (fun df => iloc df index))
      (fun md => Return (mkOpenDataGeoResource index md)).
Proof.
  intros Hc. unfold geo_resource, mbind, M_bind, bind.
  cbn [is_not_None].
  destruct (geo_resource_metadata_df_run self Hc) as (s1 & E1 & _ & _).
  rewrite E1.
  destruct (view_of _ (metadata self)) as [df|e]; [|reflexivity].
  unfold lift. cbn [obind]. destruct (iloc df index); reflexivity.
Qed.

Lemma index_in_view {A} (mk : resource -> A) (formats : list value)
  (md : package) (index : Z) (df : DataFrame) :
  view_of formats md = Return df ->
  let got := obind (obind (view_of formats md) (fun d => iloc d index))
               (fun r => Return (mk r)) in
  let n := Z.of_nat (length (rows df)) in
  (forall r, (0 <= index < n)%Z -> rows df !! Z.to_nat index = Some r ->
             got = Return (mk r))
  /\ (forall r, (- n <= index < 0)%Z ->
                rows df !! Z.to_nat (n + index) = Some r ->
                got = Return (mk r))
  /\ ((n <= index)%Z \/ (index < - n)%Z -> got = Raise IndexError).
Proof.
  intros Hv got n. unfold got. rewrite Hv. cbn [obind].
  destruct (iloc_cases df index) as (H1 & H2 & H3). fold n in H1, H2, H3.
  split; [|split].
  - intros r Hi Hr. now rewrite (H1 r Hi Hr).
  - intros r Hi Hr. now rewrite (H2 r Hi Hr).
  - intros Hi. now rewrite (H3 Hi).
Qed.

(** X14. Lookup by position, on a wrapper whose memos are coherent and
    whose view has [n] rows. Without an id, [tabular_resource] and
    [geo_resource] return the resource built from row [index] of the view
    for [0 <= index < n], from row [n + index] for [-n <= index < 0], and
    raise [IndexError] for every other index; so the default index 0 raises
    [IndexError] on an empty view. *)
Theorem resource_lookup_by_index (self : OpenDataPackage) (index : Z)
  (df : DataFrame) :
  caches_coherent self ->
  ((tabular_resource_metadata_df self).1 = Return df ->
   (forall r, (0 <= index < Z.of_nat (len df))%Z ->
              rows df !! Z.to_nat index = Some r ->
              (tabular_resource index None self).1
              = Return (mkOpenDataTabularResource index r))
   /\ (forall r, (- Z.of_nat (len df) <= index < 0)%Z ->
                 rows df !! Z.to_nat (Z.of_nat (len df) + index) = Some r ->
                 (tabular_resource index None self).1
                 = Return (mkOpenDataTabularResource index r))
   /\ ((Z.of_nat (len df) <= index)%Z \/ (index < - Z.of_nat (len df))%Z ->
       (tabular_resource index None self).1 = Raise IndexError))
  /\ ((geo_resource_metadata_df self).1 = Return df ->
      (forall r, (0 <= index < Z.of_nat (len df))%Z ->
                 rows df !! Z.to_nat index = Some r ->
                 (geo_resource index None self).1
                 = Return (mkOpenDataGeoResource index r))
      /\ (forall r, (- Z.of_nat (len df) <= index < 0)%Z ->
                    rows df !! Z.to_nat (Z.of_nat (len df) + index) = Some r ->
                    (geo_resource index None self).1
                    = Return (mkOpenDataGeoResource index r))
      /\ ((Z.of_nat (len df) <= index)%Z \/ (index < - Z.of_nat (len df))%Z ->
          (geo_resource index None self).1 = Raise IndexError)).
Proof.
  intros Hc. split; intros Hdf.
  - destruct (tabular_resource_metadata_df_run self Hc) as (s1 & E1 & _ & _).
    rewrite E1 in Hdf. cbn [fst] in Hdf.
    rewrite (tabular_resource_by_index_run self index Hc).
    exact (index_in_view (mkOpenDataTabularResource index) _ _ index df Hdf).
  - destruct (geo_resource_metadata_df_run self Hc) as (s1 & E1 & _ & _).
    rewrite E1 in Hdf. cbn [fst] in Hdf.
    rewrite (geo_resource_by_index_run self index Hc).
    exact (index_in_view (mkOpenDataGeoResource index) _ _ index df Hdf).
Qed.

Lemma resource_lookup_by_index_witness :
  (tabular_resource (-1) None (OpenDataPackage_init pkg_a)).1
  = Return (mkOpenDataTabularResource (-1) r_csv)
  /\ (geo_resource 1 None (OpenDataPackage_init pkg_a)).1 = Raise IndexError.
Proof.
  assert ((tabular_resource_metadata_df (OpenDataPackage_init pkg_a)).1
          = Return view_a_tabular) as Et by (vm_compute; reflexivity).
  assert ((geo_resource_metadata_df (OpenDataPackage_init pkg_a)).1
          = Return view_a_geo) as Eg by (vm_compute; reflexivity).
  split.
  - apply (proj1 (proj2 (proj1 (resource_lookup_by_index
                                  (OpenDataPackage_init pkg_a) (-1)
                                  view_a_tabular
                                  (OpenDataPackage_init_coherent pkg_a)) Et))).
    + unfold len. cbn [rows length view_a_tabular]. lia.
    + reflexivity.
  - apply (proj2 (proj2 (proj2 (resource_lookup_by_index
                                  (OpenDataPackage_init pkg_a) 1
                                  view_a_geo
                                  (OpenDataPackage_init_coherent pkg_a)) Eg))).
    left. unfold len. cbn [rows length view_a_geo]. lia.
Defined.

(** ** The command on a dataset that is found *)

(** X15. [get_dataset_type.py] on a dataset that the remote finds and of
    which some resource has a [format] key. It sends one request and prints
    one word: [geo] with exit code 0 when a resource has the format [WFS]
    or [JSON], also when tabular resources exist beside it; else [csv]
    with exit code 0 when a resource has the format [CSV] or [parquet];
    else [unknown] with exit code 1. *)
Theorem get_dataset_type_found (package_show : string -> show_response)
  (prog dataset_id : string) (md : package) (l : list resource) (w : world) :
  success (package_show dataset_id) = true ->
  result (package_show dataset_id) = Some md ->
  pkg_resources md = Dists l ->
  (exists r, r ∈ l /\ is_Some (r !! "format")) ->
  (filter (format_in [VStr "WFS"; VStr "JSON"]) l <> [] ->
   script package_show [prog; dataset_id] w
   = (Raise (SystemExit 0), w ++ [Get_package_show dataset_id; Print "geo"]))
  /\ (filter (format_in [VStr "WFS"; VStr "JSON"]) l = [] ->
      filter (format_in [VStr "CSV"; VStr "parquet"]) l <> [] ->
      script package_show [prog; dataset_id] w
      = (Raise (SystemExit 0), w ++ [Get_package_show dataset_id; Print "csv"]))
  /\ (filter (format_in [VStr "WFS"; VStr "JSON"]) l = [] ->
      filter (format_in [VStr "CSV"; VStr "parquet"]) l = [] ->
      script package_show [prog; dataset_id] w
      = (Raise (SystemExit 1),
         w ++ [Get_package_show dataset_id; Print "unknown"])).
Proof.
  intros Hs Hr El Hf. apply format_column_iff in Hf.
  pose proof (view_of_Dists [VStr "WFS"; VStr "JSON"] md l El) as Hg.
  pose proof (view_of_Dists [VStr "CSV"; VStr "parquet"] md l El) as Ht.
  rewrite bool_decide_eq_true_2 in Hg, Ht by exact Hf.
  rewrite (script_found package_show prog dataset_id md _ _ w Hs Hr Hg Ht).
  unfold dataset_type, len. cbn [rows].
  split; [|split].
  - intros Hne. destruct (filter (format_in [VStr "WFS"; VStr "JSON"]) l);
      [contradiction|reflexivity].
  - intros -> Hne. cbn.
    destruct (filter (format_in [VStr "CSV"; VStr "parquet"]) l);
      [contradiction|reflexivity].
  - intros -> ->. reflexivity.
Qed.

Lemma get_dataset_type_found_witness :
  script (show_remote [pkg_a; pkg_b]) ["get_dataset_type.py"; "a"] []
  = (Raise (SystemExit 0), [Get_package_show "a"; Print "geo"])
  /\ script (show_remote [pkg_a; pkg_b]) ["get_dataset_type.py"; "b"] []
     = (Raise (SystemExit 1), [Get_package_show "b"; Print "unknown"]).
Proof.
  split.
  - apply (proj1 (get_dataset_type_found (show_remote [pkg_a; pkg_b])
                    "get_dataset_type.py" "a" pkg_a [r_csv; r_wfs] []
                    eq_refl eq_refl eq_refl
                    (ex_intro _ r_csv (conj (list_elem_of_here _ _)
                                         (ex_intro _ (VStr "CSV") eq_refl))))).
    intros E. apply (f_equal length) in E. vm_compute in E. discriminate E.
  - apply (proj2 (proj2 (get_dataset_type_found (show_remote [pkg_a; pkg_b])
                    "get_dataset_type.py" "b" pkg_b [r_pdf] []
                    eq_refl eq_refl eq_refl
                    (ex_intro _ r_pdf (conj (list_elem_of_here _ _)
                                         (ex_intro _ (VStr "PDF") eq_refl))))));
      vm_compute; reflexivity.
Defined.

(** ** Resolved geoportal urls *)

Lemma string_app_assoc (a b c : string) : (a +:+ b) +:+ c = a +:+ (b +:+ c).
Proof. induction a as [|x a IH]; simpl; [reflexivity|now rewrite IH]. Qed.

Lemma no_question_mark_app (a b : string) :
  no_question_mark (a +:+ b) = no_question_mark a && no_question_mark b.
Proof.
  induction a as [|x a IH]; simpl; [reflexivity|].
  rewrite IH. now rewrite andb_assoc.
Qed.

Lemma all_class_no_question_mark (s : string) :
  all_class s = true -> no_question_mark s = true.
Proof.
  induction s as [|c s IH]; simpl; [reflexivity|].
  unfold in_class. intros H. apply andb_true_iff in H as [Hc Hs].
  apply andb_true_iff in Hc as [_ Hq]. now rewrite Hq, IH.
Qed.

(** The pattern finds nothing in a text without a question mark. *)
Lemma re_search_identifier_no_question_mark (url : string) :
  no_question_mark url = true -> re_search_identifier url = None.
Proof.
  intros Hq. apply re_search_identifier_None.
  intros pre g post (-> & _ & _).
  rewrite no_question_mark_app in Hq. apply andb_true_iff in Hq as [_ Hq].
  cbn [no_question_mark] in Hq. apply andb_true_iff in Hq as [_ Hq].
  rewrite no_question_mark_app in Hq. apply andb_true_iff in Hq as [_ Hq].
  cbn in Hq. discriminate Hq.
Qed.

Lemma url_to_geoportal_url_passthrough (u : string) (w : world) :
  re_search_identifier u = None -> contains "/wfs/" u = true ->
  url_to_geoportal_url u w = (Return (Some u), w).
Proof.
  intros E Hc. unfold url_to_geoportal_url, identifier_from_url.
  rewrite E. cbv iota beta. rewrite Hc. reflexivity.
Qed.

(** X16. A url that [url_to_geoportal_url] returns contains [/wfs/], and
    nothing was printed to obtain it; resolving it again returns it
    unchanged, again without printing. *)
Theorem url_to_geoportal_url_resolved (url u : string) (w w' : world) :
  url_to_geoportal_url url w = (Return (Some u), w') ->
  w' = w
  /\ contains "/wfs/" u = true
  /\ forall w2, url_to_geoportal_url u w2 = (Return (Some u), w2).
Proof.
  unfold url_to_geoportal_url at 1. unfold identifier_from_url.
  destruct (re_search_identifier url) as [ident|] eqn:E.
  - intros H.
    assert (u = geoportal_base +:+ ident /\ w' = w) as [-> ->]
      by (inversion H; auto).
    clear H. split; [reflexivity|].
    assert (contains "/wfs/" (geoportal_base +:+ ident) = true) as Hc.
    { apply contains_iff.
      exists "https://www.ogd.stadt-zuerich.ch", ("geoportal/" +:+ ident).
      reflexivity. }
    split; [exact Hc|]. intros w2.
    apply url_to_geoportal_url_passthrough; [|exact Hc].
    apply re_search_identifier_no_question_mark.
    destruct (re_search_identifier_sound _ _ E) as (pre & post & _ & _ & Hg).
    rewrite no_question_mark_app, (all_class_no_question_mark _ Hg).
    reflexivity.
  - destruct (contains "/wfs/" url) eqn:Hc; [|discriminate].
    intros H. inversion H; subst. split; [reflexivity|].
    split; [exact Hc|]. intros w2.
    now apply url_to_geoportal_url_passthrough.
Qed.

Lemma url_to_geoportal_url_resolved_witness :
  contains "/wfs/" "https://www.ogd.stadt-zuerich.ch/wfs/geoportal/abc123" = true
  /\ url_to_geoportal_url
       "https://www.ogd.stadt-zuerich.ch/wfs/geoportal/abc123" []
     = (Return (Some "https://www.ogd.stadt-zuerich.ch/wfs/geoportal/abc123"),
        []).
Proof.
  destruct (url_to_geoportal_url_resolved
              "https://www.stadt-zuerich.ch/geodaten/abc123?other=param"
              "https://www.ogd.stadt-zuerich.ch/wfs/geoportal/abc123" [] []
              eq_refl) as (_ & H1 & H2).
  split; [exact H1|apply H2].
Defined.

(** ** The payload of a tabular resource *)

Section Tabular_payload_facts.

Variable read_csv : string -> sep -> DataFrame.
Variable read_parquet : string -> DataFrame.
Variable labels : gset string.
Variable self : OpenDataTabularResource.

Lemma tabular_df_hit (df : DataFrame) (w : world) :
  OpenDataTabularResource_df read_csv read_parquet labels self (Some df, w)
  = (Return (Some df), (Some df, w)).
Proof. reflexivity. Qed.

Lemma tabular_df_miss (url : string) (w : world) :
  "url" ∈ labels ->
  tabular_metadata self !! "url" = Some (VStr url) ->
  OpenDataTabularResource_df read_csv read_parquet labels self (None, w)
  = match get_dataset read_csv read_parquet url w with
    | (Return df, w') => (Return df, (df, w'))
    | (Raise e, w') => (Raise e, (None, w'))
    end.
Proof.
  intros Hl Hu. unfold OpenDataTabularResource_df, series_getitem.
  rewrite bool_decide_eq_true_2 by exact Hl. now rewrite Hu.
Qed.

End Tabular_payload_facts.

(** X17. The property [df] of a tabular resource memoises a table and
    nothing else. When an access on a fresh wrapper returns a table, the
    table is stored and every later access returns it without reading or
    printing anything. When the url of the resource has an extension other
    than [csv] and [parquet], every access prints the diagnostic again,
    returns [None] and stores nothing. *)
Theorem tabular_payload_memoised
  (read_csv : string -> sep -> DataFrame) (read_parquet : string -> DataFrame)
  (labels : gset string) (self : OpenDataTabularResource) (w : world) :
  (forall df memo w',
     OpenDataTabularResource_df read_csv read_parquet labels self (None, w)
     = (Return (Some df), (memo, w')) ->
     memo = Some df
     /\ forall w2,
          OpenDataTabularResource_df read_csv read_parquet labels self
            (memo, w2)
          = (Return (Some df), (memo, w2)))
  /\ (forall url,
        "url" ∈ labels ->
        tabular_metadata self !! "url" = Some (VStr url) ->
        rsplit_dot_last url <> "csv" -> rsplit_dot_last url <> "parquet" ->
        OpenDataTabularResource_df read_csv read_parquet labels self (None, w)
        = (Return None, (None, w ++ [Print extension_diagnostic]))).
Proof.
  split.
  - intros df memo w'. unfold OpenDataTabularResource_df.
    destruct (series_getitem labels (tabular_metadata self) "url")
      as [[[| | |url]|]|e]; try discriminate.
    destruct (get_dataset read_csv read_parquet url w) as [[d|e] w1];
      [|discriminate].
    intros H. inversion H; subst. split; reflexivity.
  - intros url Hl Hu Hc Hp.
    rewrite (tabular_df_miss read_csv read_parquet labels self url w Hl Hu).
    now rewrite (get_dataset_other read_csv read_parquet url w Hc Hp).
Qed.

Lemma tabular_payload_memoised_witness :
  OpenDataTabularResource_df (header_reader "a,b") (fun _ => mkDataFrame ∅ [])
    {[ "format"; "id" ; "url" ]}
    (mkOpenDataTabularResource 0
       {[ "format" := VStr "CSV"; "url" := VStr "https://x/a.csv?download=1" ]})
    (None, [])
  = (Return None, (None, [Print extension_diagnostic])).
Proof.
  apply (proj2 (tabular_payload_memoised (header_reader "a,b")
                  (fun _ => mkDataFrame ∅ []) {[ "format"; "id" ; "url" ]}
                  (mkOpenDataTabularResource 0
                     {[ "format" := VStr "CSV";
                        "url" := VStr "https://x/a.csv?download=1" ]}) [])
           "https://x/a.csv?download=1").
  - vm_compute. reflexivity.
  - vm_compute. reflexivity.
  - vm_compute. discriminate.
  - vm_compute. discriminate.
Defined.

(** X18. The property [df] of a tabular resource without a usable url. When
    the row has no [url] label the access raises [KeyError]; when it has
    the label and the entry is missing or is not a string, it raises
    [AttributeError]. Nothing is read, printed or stored. *)
Theorem tabular_payload_errors
  (read_csv : string -> sep -> DataFrame) (read_parquet : string -> DataFrame)
  (labels : gset string) (self : OpenDataTabularResource) (w : world) :
  ("url" ∉ labels ->
   OpenDataTabularResource_df read_csv read_parquet labels self (None, w)
   = (Raise (KeyError "url"), (None, w)))
  /\ ("url" ∈ labels ->
      (forall url, tabular_metadata self !! "url" <> Some (VStr url)) ->
      OpenDataTabularResource_df read_csv read_parquet labels self (None, w)
      = (Raise AttributeError, (None, w))).
Proof.
  unfold OpenDataTabularResource_df, series_getitem. split.
  - intros Hl. now rewrite bool_decide_eq_false_2 by exact Hl.
  - intros Hl Hn. rewrite bool_decide_eq_true_2 by exact Hl.
    destruct (tabular_metadata self !! "url") as [[| | |url]|]; try reflexivity.
    now destruct (Hn url).
Qed.

Lemma tabular_payload_errors_witness :
  OpenDataTabularResource_df (header_reader "a,b") (fun _ => mkDataFrame ∅ [])
    {[ "format"; "id" ]} (mkOpenDataTabularResource 0 r_lowercase) (None, [])
  = (Raise (KeyError "url"), (None, []))
  /\ OpenDataTabularResource_df (header_reader "a,b")
       (fun _ => mkDataFrame ∅ [])
       {[ "format"; "id"; "url" ]} (mkOpenDataTabularResource 0 r_lowercase)
       (None, [])
     = (Raise AttributeError, (None, [])).
Proof.
  split.
  - apply (proj1 (tabular_payload_errors (header_reader "a,b")
                    (fun _ => mkDataFrame ∅ []) {[ "format"; "id" ]}
                    (mkOpenDataTabularResource 0 r_lowercase) [])).
    vm_compute. intros H. discriminate H.
  - apply (proj2 (tabular_payload_errors (header_reader "a,b")
                    (fun _ => mkDataFrame ∅ []) {[ "format"; "id"; "url" ]}
                    (mkOpenDataTabularResource 0 r_lowercase) [])).
    + vm_compute. reflexivity.
    + intros url. vm_compute. discriminate.
Defined.

(** ** The payload of a geo resource *)

Ltac run_geo :=
  unfold OpenDataGeoResource_df, OpenDataGeoResource_layers, layer_df,
    OpenDataGeoResource_wfs, read_geojson_from_wfs, geojson_layers_from_wfs,
    mbind, M_bind, bind, get_memo, update_memo, emit_wfs, in_geo_world, lift,
    mret, M_ret, ret, throw, series_getitem.

Section Geo_payload_facts.

Variable capabilities : option string -> outcome (list string).
Variable getfeature : option string -> string -> outcome string.
Variable read_file : string -> outcome DataFrame.
Variable labels : gset string.
Variable self : OpenDataGeoResource.

(** Opening the service of a resource whose url entry is a string. *)
Lemma wfs_open (url : string) (m : geo_memo) (gw : geo_world) :
  _wfs m = None ->
  "url" ∈ labels ->
  geo_metadata self !! "url" = Some (VStr url) ->
  OpenDataGeoResource_wfs capabilities labels self (m, gw)
  = let '(o, w) := url_to_geoportal_url url [] in
    match o with
    | Raise e => (Raise e, (m, gw ++ (inl <$> w)))
    | Return u =>
        match capabilities u with
        | Return layers =>
            (Return {| wfs_url := u; contents := layers |},
             (set_wfs {| wfs_url := u; contents := layers |} m,
              (gw ++ (inl <$> w)) ++ [inr (Open_wfs u)]))
        | Raise e => (Raise e, (m, (gw ++ (inl <$> w)) ++ [inr (Open_wfs u)]))
        end
    end.
Proof.
  intros Hm Hl Hu. run_geo. rewrite Hm.
  rewrite bool_decide_eq_true_2 by exact Hl. rewrite Hu.
  destruct (url_to_geoportal_url url []) as [[u|e] w]; [|reflexivity].
  destruct (capabilities u); reflexivity.
Qed.

Lemma wfs_hit (wfs : WebFeatureService) (m : geo_memo) (gw : geo_world) :
  _wfs m = Some wfs ->
  OpenDataGeoResource_wfs capabilities labels self (m, gw)
  = (Return wfs, (m, gw)).
Proof. intros Hm. run_geo. now rewrite Hm. Qed.

Lemma df_hit (df : DataFrame) (m : geo_memo) (gw : geo_world) :
  _df m = Some df ->
  OpenDataGeoResource_df capabilities getfeature read_file labels self (m, gw)
  = (Return df, (m, gw)).
Proof. intros Hm. run_geo. now rewrite Hm. Qed.

Lemma layers_hit (layers : list string) (m : geo_memo) (gw : geo_world) :
  _layers m = Some layers ->
  OpenDataGeoResource_layers capabilities labels self (m, gw)
  = (Return layers, (m, gw)).
Proof.
  intros Hm. unfold OpenDataGeoResource_layers, mbind, M_bind, bind, get_memo.
  cbv beta iota. now rewrite Hm.
Qed.

Lemma layers_miss (m : geo_memo) (gw : geo_world) :
  _layers m = None ->
  OpenDataGeoResource_layers capabilities labels self (m, gw)
  = match OpenDataGeoResource_wfs capabilities labels self (m, gw) with
    | (Return wfs, (m', gw')) =>
        (Return (contents wfs), (set_layers (contents wfs) m', gw'))
    | (Raise e, st) => (Raise e, st)
    end.
Proof.
  intros Hm. unfold OpenDataGeoResource_layers, mbind, M_bind, bind, get_memo.
  cbv beta iota. rewrite Hm.
  destruct (OpenDataGeoResource_wfs capabilities labels self (m, gw))
    as [[wfs|e] [m' gw']]; reflexivity.
Qed.

Lemma layer_df_run (layer : string) (wfs : WebFeatureService) (m : geo_memo)
  (gw : geo_world) :
  _wfs m = Some wfs ->
  layer_df capabilities getfeature read_file labels self layer (m, gw)
  = (obind (getfeature (wfs_url wfs) layer) read_file,
     (m, gw ++ [inr (Get_feature (wfs_url wfs) layer)])).
Proof.
  intros Hm. unfold layer_df, mbind, M_bind, bind.
  rewrite (wfs_hit wfs m gw Hm).
  unfold read_geojson_from_wfs, mbind, M_bind, bind, emit_wfs, lift.
  cbv beta iota.
  destruct (getfeature (wfs_url wfs) layer) as [response|e]; [|reflexivity].
  cbn [obind]. destruct (read_file response); reflexivity.
Qed.

Lemma df_miss (m : geo_memo) (gw : geo_world) :
  _df m = None ->
  OpenDataGeoResource_df capabilities getfeature read_file labels self (m, gw)
  = match OpenDataGeoResource_layers capabilities labels self (m, gw) with
    | (Return layers, (m', gw')) =>
        match layers !! 0 with
        | None => (Raise IndexError, (m', gw'))
        | Some layer =>
            match layer_df capabilities getfeature read_file labels self
                    layer (m', gw') with
            | (Return df, (m'', gw'')) => (Return df, (set_df df m'', gw''))
            | (Raise e, st) => (Raise e, st)
            end
        end
    | (Raise e, st) => (Raise e, st)
    end.
Proof.
  intros Hm. unfold OpenDataGeoResource_df, mbind, M_bind, bind, get_memo.
  cbv beta iota. rewrite Hm.
  destruct (OpenDataGeoResource_layers capabilities labels self (m, gw))
    as [[layers|e] [m' gw']]; [|reflexivity].
  destruct (layers !! 0) as [layer|]; [|reflexivity].
  destruct (layer_df capabilities getfeature read_file labels self layer
              (m', gw')) as [[df|e] [m'' gw'']]; reflexivity.
Qed.

End Geo_payload_facts.

(** X19. The property [df] of a fresh geo resource whose url resolves to
    [u] without a diagnostic, against a service that lists at least one
    layer. The service is opened once with [u], one feature request is
    made, for the first layer listed, and the table read from the response
    is returned; the service, the layers and the table are stored, and a
    later access returns the table without any call. *)
Theorem geo_payload_first_layer
  (capabilities : option string -> outcome (list string))
  (getfeature : option string -> string -> outcome string)
  (read_file : string -> outcome DataFrame)
  (labels : gset string) (self : OpenDataGeoResource)
  (url u layer response : string) (rest : list string) (df : DataFrame)
  (gw : geo_world) :
  "url" ∈ labels ->
  geo_metadata self !! "url" = Some (VStr url) ->
  url_to_geoportal_url url [] = (Return (Some u), []) ->
  capabilities (Some u) = Return (layer :: rest) ->
  getfeature (Some u) layer = Return response ->
  read_file response = Return df ->
  let stored :=
    {| _df := Some df; _layers := Some (layer :: rest);
       _wfs := Some {| wfs_url := Some u; contents := layer :: rest |} |} in
  OpenDataGeoResource_df capabilities getfeature read_file labels self
    (geo_memo_init, gw)
  = (Return df,
     (stored, gw ++ [inr (Open_wfs (Some u)); inr (Get_feature (Some u) layer)]))
  /\ forall gw2,
       OpenDataGeoResource_df capabilities getfeature read_file labels self
         (stored, gw2)
       = (Return df, (stored, gw2)).
Proof.
  intros Hl Hu Hr Hc Hg Hf stored. split; [|intros gw2; now apply df_hit].
  rewrite df_miss by reflexivity. rewrite layers_miss by reflexivity.
  rewrite (wfs_open capabilities labels self url geo_memo_init gw eq_refl Hl Hu).
  rewrite Hr, Hc. cbn [contents lookup list_lookup fmap list_fmap].
  rewrite (layer_df_run capabilities getfeature read_file labels self layer
             {| wfs_url := Some u; contents := layer :: rest |})
    by reflexivity.
  cbn [wfs_url]. rewrite Hg. cbn [obind]. rewrite Hf.
  unfold stored, set_df, set_layers, set_wfs, geo_memo_init. cbn.
  now rewrite app_nil_r, <- app_assoc.
Qed.

Lemma geo_payload_first_layer_witness :
  OpenDataGeoResource_df two_layers feature_bytes empty_table
    view_labels (mkOpenDataGeoResource 0 r_wfs)
    (geo_memo_init, [])
  = (Return (mkDataFrame ∅ []),
     ({| _df := Some (mkDataFrame ∅ []);
         _layers := Some ["adm_stadtkreise_a"; "adm_stadtkreise_v"];
         _wfs := Some {| wfs_url := Some "https://www.ogd.stadt-zuerich.ch/wfs/geoportal/a";
                         contents := ["adm_stadtkreise_a"; "adm_stadtkreise_v"] |} |},
      [inr (Open_wfs (Some "https://www.ogd.stadt-zuerich.ch/wfs/geoportal/a"));
       inr (Get_feature (Some "https://www.ogd.stadt-zuerich.ch/wfs/geoportal/a")
              "adm_stadtkreise_a")])).
Proof.
  apply (proj1 (geo_payload_first_layer two_layers feature_bytes empty_table
                  view_labels (mkOpenDataGeoResource 0 r_wfs)
                  "https://www.ogd.stadt-zuerich.ch/wfs/geoportal/a"
                  "https://www.ogd.stadt-zuerich.ch/wfs/geoportal/a"
                  "adm_stadtkreise_a" "geojson of adm_stadtkreise_a"
                  ["adm_stadtkreise_v"] (mkDataFrame ∅ []) []
                  ltac:(vm_compute; reflexivity) ltac:(vm_compute; reflexivity)
                  eq_refl eq_refl eq_refl eq_refl)).
Defined.

(** X20. The property [df] of a fresh geo resource whose url resolves to
    [u] without a diagnostic. When the service lists no layer, the access
    opens the service, raises [IndexError] and stores the service and the
    empty layer list, so that a later access raises [IndexError] again
    without any call. When the constructor of the service raises, the
    access raises the same exception and stores nothing. *)
Theorem geo_payload_service_failures
  (capabilities : option string -> outcome (list string))
  (getfeature : option string -> string -> outcome string)
  (read_file : string -> outcome DataFrame)
  (labels : gset string) (self : OpenDataGeoResource)
  (url u : string) (gw : geo_world) :
  "url" ∈ labels ->
  geo_metadata self !! "url" = Some (VStr url) ->
  url_to_geoportal_url url [] = (Return (Some u), []) ->
  (capabilities (Some u) = Return [] ->
   let stored :=
     {| _df := None; _layers := Some [];
        _wfs := Some {| wfs_url := Some u; contents := [] |} |} in
   OpenDataGeoResource_df capabilities getfeature read_file labels self
     (geo_memo_init, gw)
   = (Raise IndexError, (stored, gw ++ [inr (Open_wfs (Some u))]))
   /\ forall gw2,
        OpenDataGeoResource_df capabilities getfeature read_file labels self
          (stored, gw2)
        = (Raise IndexError, (stored, gw2)))
  /\ (forall e,
        capabilities (Some u) = Raise e ->
        OpenDataGeoResource_df capabilities getfeature read_file labels self
          (geo_memo_init, gw)
        = (Raise e, (geo_memo_init, gw ++ [inr (Open_wfs (Some u))]))).
Proof.
  intros Hl Hu Hr. split.
  - intros Hc stored. split.
    + rewrite df_miss by reflexivity. rewrite layers_miss by reflexivity.
      rewrite (wfs_open capabilities labels self url geo_memo_init gw
                 eq_refl Hl Hu).
      rewrite Hr, Hc. cbn. now rewrite app_nil_r.
    + intros gw2. rewrite df_miss by reflexivity.
      now rewrite (layers_hit capabilities labels self [] stored gw2 eq_refl).
  - intros e Hc. rewrite df_miss by reflexivity.
    rewrite layers_miss by reflexivity.
    rewrite (wfs_open capabilities labels self url geo_memo_init gw
               eq_refl Hl Hu).
    rewrite Hr, Hc. cbn. now rewrite app_nil_r.
Qed.

Lemma geo_payload_service_failures_witness :
  OpenDataGeoResource_df no_layers feature_bytes empty_table
    view_labels (mkOpenDataGeoResource 0 r_wfs)
    (geo_memo_init, [])
  = (Raise IndexError,
     ({| _df := None; _layers := Some [];
         _wfs := Some {| wfs_url := Some "https://www.ogd.stadt-zuerich.ch/wfs/geoportal/a";
                         contents := [] |} |},
      [inr (Open_wfs (Some "https://www.ogd.stadt-zuerich.ch/wfs/geoportal/a"))])).
Proof.
  apply (proj1 (proj1 (geo_payload_service_failures no_layers feature_bytes
                         empty_table view_labels
                         (mkOpenDataGeoResource 0 r_wfs)
                         "https://www.ogd.stadt-zuerich.ch/wfs/geoportal/a"
                         "https://www.ogd.stadt-zuerich.ch/wfs/geoportal/a" []
                         ltac:(vm_compute; reflexivity)
                         ltac:(vm_compute; reflexivity) eq_refl)
                  eq_refl)).
Defined.

(** X21. The property [wfs] of a fresh geo resource without a usable url.
    When the row has no [url] label it raises [KeyError]; when the entry
    is missing or is not a string it raises [TypeError]; in both cases no
    service is opened. When the url has no identifier and does not contain
    [/wfs/], the diagnostic is printed and the service is opened all the
    same, with [None] as its url. *)
Theorem geo_payload_url_failures
  (capabilities : option string -> outcome (list string))
  (labels : gset string) (self : OpenDataGeoResource) (gw : geo_world) :
  ("url" ∉ labels ->
   OpenDataGeoResource_wfs capabilities labels self (geo_memo_init, gw)
   = (Raise (KeyError "url"), (geo_memo_init, gw)))
  /\ ("url" ∈ labels ->
      (forall url, geo_metadata self !! "url" <> Some (VStr url)) ->
      OpenDataGeoResource_wfs capabilities labels self (geo_memo_init, gw)
      = (Raise TypeError, (geo_memo_init, gw)))
  /\ (forall url,
        "url" ∈ labels ->
        geo_metadata self !! "url" = Some (VStr url) ->
        re_search_identifier url = None ->
        contains "/wfs/" url = false ->
        exists o m,
          OpenDataGeoResource_wfs capabilities labels self (geo_memo_init, gw)
          = (o, (m, gw ++ [inl (Print extraction_diagnostic);
                           inr (Open_wfs None)]))
          /\ (forall layers,
                capabilities None = Return layers ->
                o = Return {| wfs_url := None; contents := layers |})
          /\ (forall e, capabilities None = Raise e -> o = Raise e)).
Proof.
  split; [|split].
  - intros Hl. run_geo. cbv beta iota. cbn [_wfs geo_memo_init].
    now rewrite bool_decide_eq_false_2 by exact Hl.
  - intros Hl Hn. run_geo. cbv beta iota. cbn [_wfs geo_memo_init].
    rewrite bool_decide_eq_true_2 by exact Hl.
    destruct (geo_metadata self !! "url") as [[| | |url]|]; try reflexivity.
    now destruct (Hn url).
  - intros url Hl Hu Hs Hw.
    rewrite (wfs_open capabilities labels self url geo_memo_init gw
               eq_refl Hl Hu).
    assert (url_to_geoportal_url url []
            = (Return None, [Print extraction_diagnostic])) as ->.
    { unfold url_to_geoportal_url, identifier_from_url.
      rewrite Hs. cbv beta iota. now rewrite Hw. }
    cbn [fmap list_fmap]. rewrite <- app_assoc. cbn [app].
    destruct (capabilities None) as [layers|e]; eexists _, _;
      (split; [reflexivity|]); split; intros x Hx; now inversion Hx.
Qed.

Lemma geo_payload_url_failures_witness :
  exists o m,
    OpenDataGeoResource_wfs no_layers view_labels
      (mkOpenDataGeoResource 0 r_csv) (geo_memo_init, [])
    = (o, (m, [] ++ [inl (Print extraction_diagnostic); inr (Open_wfs None)])).
Proof.
  destruct (proj2 (proj2 (geo_payload_url_failures no_layers
                            view_labels
                            (mkOpenDataGeoResource 0 r_csv) []))
              "https://data.stadt-zuerich.ch/dataset/a/download/a.csv"
              ltac:(vm_compute; reflexivity) ltac:(vm_compute; reflexivity)
              eq_refl eq_refl) as (o & m & H & _).
  exists o, m. exact H.
Defined.

(** ** [extract_keywords] *)

Lemma string_app_nil_r (s : string) : s +:+ EmptyString = s.
Proof. induction s as [|c s IH]; simpl; [reflexivity|now rewrite IH]. Qed.

Lemma char_in_app (c : ascii) (a b : string) :
  char_in c (a +:+ b) = char_in c a || char_in c b.
Proof.
  induction a as [|x a IH]; simpl; [reflexivity|].
  now rewrite IH, orb_assoc.
Qed.

Lemma all_in_suffix (t : string) : forall pre, all_in (pre +:+ t) t = true.
Proof.
  induction t as [|c t IH]; intros pre; simpl; [reflexivity|].
  rewrite char_in_app. simpl. rewrite Ascii.eqb_refl, orb_true_r. simpl.
  specialize (IH (pre +:+ String c EmptyString)).
  now rewrite string_app_assoc in IH.
Qed.

Lemma all_in_self (sep : string) : all_in sep sep = true.
Proof. exact (all_in_suffix sep EmptyString). Qed.

Lemma rstrip_all_in (chars t : string) :
  all_in chars t = true -> rstrip chars t = EmptyString.
Proof.
  induction t as [|c t IH]; simpl; [reflexivity|].
  intros H. apply andb_true_iff in H as [Hc Ht]. now rewrite (IH Ht), Hc.
Qed.

Lemma rstrip_app_all_in (chars s t : string) :
  all_in chars t = true -> rstrip chars (s +:+ t) = rstrip chars s.
Proof.
  intros Ht. induction s as [|c s IH]; simpl.
  - now apply rstrip_all_in.
  - now rewrite IH.
Qed.

Lemma rstrip_ends_outside (chars s : string) :
  ends_outside chars s = true -> rstrip chars s = s.
Proof.
  induction s as [|c s IH]; [discriminate|].
  destruct s as [|c' s'].
  - simpl. intros H. apply negb_true_iff in H. now rewrite H.
  - intros H. change (ends_outside chars (String c' s') = true) in H.
    specialize (IH H). cbn [rstrip] in *. now rewrite IH.
Qed.

Lemma ends_outside_app (chars a s : string) :
  ends_outside chars s = true -> ends_outside chars (a +:+ s) = true.
Proof.
  intros H. induction a as [|c a IH]; [exact H|].
  simpl. destruct (a +:+ s) eqn:E; [|exact IH].
  destruct a, s; discriminate.
Qed.

Lemma rstrip_result (chars s : string) :
  rstrip chars s = EmptyString \/ ends_outside chars (rstrip chars s) = true.
Proof.
  induction s as [|c s IH]; [now left|]. cbn [rstrip].
  destruct (rstrip chars s) as [|c' r] eqn:E.
  - destruct (char_in c chars) eqn:Hc; [now left|right].
    simpl. now rewrite Hc.
  - right. destruct IH as [IH|IH]; [discriminate IH|exact IH].
Qed.

(** The text that the loop builds: every name followed by the separator. *)
Lemma extract_keywords_loop_names (sep : string) (x : list resource)
  (names : list string) :
  Forall2 (fun (elem : resource) name =>
             elem !! "display_name" = Some (VStr name)) x names ->
  forall out_string,
    extract_keywords_loop out_string x sep
    = Return (out_string
              +:+ foldr (fun name acc => name +:+ (sep +:+ acc))
                    EmptyString names).
Proof.
  induction 1 as [|elem name x names He _ IH]; intros out_string; simpl.
  - now rewrite string_app_nil_r.
  - rewrite He, IH. f_equal. rewrite !string_app_assoc. reflexivity.
Qed.

Lemma foldr_names_snoc (sep : string) (body : list string) (last : string) :
  foldr (fun name acc => name +:+ (sep +:+ acc)) EmptyString (body ++ [last])
  = join sep (body ++ [last]) +:+ sep.
Proof.
  induction body as [|n body IH]; simpl.
  - now rewrite string_app_nil_r.
  - rewrite IH. destruct (body ++ [last]) eqn:E.
    + destruct body; discriminate.
    + rewrite !string_app_assoc. reflexivity.
Qed.

Lemma join_snoc_ends_outside (sep : string) (body : list string)
  (last : string) :
  ends_outside sep last = true ->
  ends_outside sep (join sep (body ++ [last])) = true.
Proof.
  intros H. induction body as [|n body IH]; [exact H|].
  cbn [app join]. destruct (body ++ [last]) eqn:E.
  - destruct body; discriminate.
  - now apply ends_outside_app, ends_outside_app.
Qed.

(** X22. For a list of records whose [display_name] entries are strings,
    the last of which ends with a character that is not in [sep],
    [extract_keywords] returns the names joined by [sep]. *)
Theorem extract_keywords_join (x : list resource) (body : list string)
  (last sep : string) :
  Forall2 (fun (elem : resource) name =>
             elem !! "display_name" = Some (VStr name)) x (body ++ [last]) ->
  ends_outside sep last = true ->
  extract_keywords x sep = Return (join sep (body ++ [last])).
Proof.
  intros Hx Hl. unfold extract_keywords.
  rewrite (extract_keywords_loop_names sep x _ Hx EmptyString).
  cbn [obind String.append]. rewrite foldr_names_snoc.
  rewrite rstrip_app_all_in by apply all_in_self.
  now rewrite rstrip_ends_outside by now apply join_snoc_ends_outside.
Qed.

Lemma extract_keywords_join_witness :
  extract_keywords [group_mobility; group_population] ","
  = Return (join "," (["Mobilitaet"] ++ ["Bevoelkerung"])).
Proof.
  apply (extract_keywords_join [group_mobility; group_population]
           ["Mobilitaet"] "Bevoelkerung" ",").
  - repeat constructor.
  - reflexivity.
Defined.

(** X23. What [extract_keywords] returns never ends with a character of
    [sep]: it is empty or its last character is outside [sep]; for the
    empty list it is the empty string. The first record without a
    [display_name] key, after records with string names, makes it raise
    [KeyError], and the first record whose entry is not a string
    [TypeError]. *)
Theorem extract_keywords_edges (x : list resource) (sep : string) :
  (forall r, extract_keywords x sep = Return r ->
             r = EmptyString \/ ends_outside sep r = true)
  /\ extract_keywords [] sep = Return EmptyString
  /\ (forall pre elem post names,
        x = pre ++ elem :: post ->
        Forall2 (fun (e : resource) name =>
                   e !! "display_name" = Some (VStr name)) pre names ->
        (elem !! "display_name" = None ->
         extract_keywords x sep = Raise (KeyError "display_name"))
        /\ ((exists v, elem !! "display_name" = Some v
                       /\ forall name, v <> VStr name) ->
            extract_keywords x sep = Raise TypeError)).
Proof.
  split; [|split; [reflexivity|]].
  - intros r. unfold extract_keywords.
    destruct (extract_keywords_loop EmptyString x sep) as [out|e];
      cbn [obind]; intros H; inversion H; subst.
    apply rstrip_result.
  - intros pre elem post names -> Hpre. unfold extract_keywords.
    assert (forall out,
              extract_keywords_loop out (pre ++ elem :: post) sep
              = extract_keywords_loop
                  (out +:+ foldr (fun name acc => name +:+ (sep +:+ acc))
                             EmptyString names)
                  (elem :: post) sep) as Hloop.
    { induction Hpre as [|e name pre names He _ IH]; intros out; simpl.
      - now rewrite string_app_nil_r.
      - rewrite He, IH. f_equal. now rewrite !string_app_assoc. }
    rewrite Hloop. cbn [extract_keywords_loop]. split.
    + intros ->. reflexivity.
    + intros (v & -> & Hv). destruct v as [| | |name]; try reflexivity.
      now destruct (Hv name).
Qed.

Lemma extract_keywords_edges_witness :
  extract_keywords [group_mobility; group_unnamed; group_population] ","
  = Raise (KeyError "display_name").
Proof.
  apply (proj1 (proj2 (proj2 (extract_keywords_edges
                                [group_mobility; group_unnamed; group_population]
                                ","))
                  [group_mobility] group_unnamed [group_population]
                  ["Mobilitaet"] eq_refl ltac:(repeat constructor))).
  reflexivity.
Defined.
